(** * ubxtool: UBX frame decoder, packet encoder and configuration registry

    A shallow embedding of the protocol core of [ubxtool.py] (class [ubx]):
    [checksum], [make_pkt], [class_id_s], [decode_msg], [cfg_by_key] and the
    payload decoders [nav_pvt], [nav_hpposllh] and [nav_hpposecef].

    Conventions.
    - Python [int] is [Z]; a [bytes]/[bytearray] object is a [list Z] whose
      elements are in [range(256)] ([is_byte]).
    - Python [str] is [string], a [dict] with string keys is a
      [gmap string _].
    - A call either returns, raises or does not terminate: [outcome]. *)

From Stdlib Require Import ZArith Lia Ascii.
From stdpp Require Import gmap strings list pretty.

Local Open Scope Z_scope.

(** ** Python outcomes *)

Inductive exn : Type :=
  | NameError (name : string)
  | StructError
  | IndexError
  | KeyError (key : string)
  | ValueError.

Inductive outcome (A : Type) : Type :=
  | Returned (a : A)
  | Raised (e : exn)
  | Hangs.
Arguments Returned {A} a.
Arguments Raised {A} e.
Arguments Hangs {A}.

(** ** Bytes *)

Definition is_byte (c : Z) : Prop := 0 <= c < 256.
Definition byteb (c : Z) : bool := (0 <=? c) && (c <? 256).

(** [len(x)] as a Python int. *)
Definition len {A} (l : list A) : Z := Z.of_nat (length l).

(** [msg[0:n]] *)
Definition slice_to {A} (msg : list A) (n : Z) : list A :=
  if n <? 0 then take (Z.to_nat (len msg + n)) msg else take (Z.to_nat n) msg.

(** ** ubx.checksum *)

Module Checksum.

(** The [for c in msg[0:m_len]] loop, on the two unbounded accumulators. *)
Fixpoint checksum_loop (cs : list Z) (ck_a ck_b : Z) : Z * Z :=
  match cs with
  | [] => (ck_a, ck_b)
  | c :: cs' =>
      let ck_a := ck_a + c in
      let ck_b := ck_b + ck_a in
      checksum_loop cs' ck_a ck_b
  end.

(** [def checksum(self, msg, m_len)]: returns [[ck_a & 0xff, ck_b & 0xff]]. *)
Definition checksum (msg : list Z) (m_len : Z) : Z * Z :=
  let '(ck_a, ck_b) := checksum_loop (slice_to msg m_len) 0 0 in
  (Z.land ck_a 0xff, Z.land ck_b 0xff).

(** The algorithm in the words of the specification: both accumulators are
    reduced modulo 256 after every byte. *)
Definition checksum_spec_step (acc : Z * Z) (c : Z) : Z * Z :=
  let ck_a := (fst acc + c) mod 256 in
  let ck_b := (snd acc + ck_a) mod 256 in
  (ck_a, ck_b).

Definition checksum_spec (cs : list Z) : Z * Z :=
  fold_left checksum_spec_step cs (0, 0).

End Checksum.
Import Checksum.


(** ** Configuration registry: ubx.cfgs, ubx.cfg_by_key, ubx.cfg_by_name *)

(** The scale of an item as the table writes it: an int, a float literal
    (kept as its source text) or, in four entries, the string ["1"]. *)
Inductive scale_t : Type :=
  | ScInt (z : Z)
  | ScFloat (literal : string)
  | ScStr (s : string).

(** One tuple [(name, key, value type, scale, unit, description)]. *)
Record cfg_item : Type := mk_cfg {
  cfg_name : string;
  cfg_key : Z;
  cfg_type : string;
  cfg_scale : scale_t;
  cfg_unit : string;
  cfg_desc : string
}.

Definition cfgs : list cfg_item := [
  mk_cfg "CFG-GEOFENCE-CONFLVL" 0x20240011 "E1" (ScInt 1) EmptyString
    "Required confidence level for state evaluation";
  mk_cfg "CFG-GEOFENCE-USE_PIO" 0x10240012 "L" (ScInt 1) EmptyString
    "Use PIO combined fence state output";
  mk_cfg "CFG-GEOFENCE-PINPOL" 0x20240013 "E1" (ScInt 1) EmptyString
    "PIO pin polarity";
  mk_cfg "CFG-GEOFENCE-PIN" 0x20240014 "U1" (ScInt 1) EmptyString
    "PIO pin number";
  mk_cfg "CFG-GEOFENCE-USE_FENCE1" 0x10240020 "L" (ScInt 1) EmptyString
    "Use first geofence";
  mk_cfg "CFG-GEOFENCE-FENCE1_LAT" 0x40240021 "I4" (ScFloat "1e-7") "deg"
    "Latitude of the first geofence circle center";
  mk_cfg "CFG-GEOFENCE-FENCE1_LON" 0x40240022 "I4" (ScFloat "1e-7") "deg"
    "Longitude of the first geofence circle center";
  mk_cfg "CFG-GEOFENCE-FENCE1_RAD" 0x40240023 "U4" (ScFloat "0.01") "m"
    "Radius of the first geofence circle";
  mk_cfg "CFG-GEOFENCE-USE_FENCE2" 0x10240030 "L" (ScInt 1) EmptyString
    "Use second geofence";
  mk_cfg "CFG-GEOFENCE-FENCE2_LAT" 0x40240031 "I4" (ScFloat "1e-7") "deg"
    "Latitude of the second geofence circle center";
  mk_cfg "CFG-GEOFENCE-FENCE2_LON" 0x40240032 "I4" (ScFloat "1e-7") "deg"
    "Longitude of the second geofence circle center";
  mk_cfg "CFG-GEOFENCE-FENCE2_RAD" 0x40240033 "U4" (ScFloat "0.01") "m"
    "Radius of the second geofence circle";
  mk_cfg "CFG-GEOFENCE-USE_FENCE3" 0x10240040 "L" (ScInt 1) EmptyString
    "Use third geofence";
  mk_cfg "CFG-GEOFENCE-FENCE3_LAT" 0x40240041 "I4" (ScFloat "1e-7") "deg"
    "Latitude of the third geofence circle center";
  mk_cfg "CFG-GEOFENCE-FENCE3_LON" 0x40240042 "I4" (ScFloat "1e-7") "deg"
    "Longitude of the third geofence circle center";
  mk_cfg "CFG-GEOFENCE-FENCE3_RAD" 0x40240043 "U4" (ScFloat "0.01") "m"
    "Radius of the third geofence circle";
  mk_cfg "CFG-GEOFENCE-USE_FENCE4" 0x10240050 "L" (ScInt 1) EmptyString
    "Use fourth geofence";
  mk_cfg "CFG-GEOFENCE-FENCE4_LAT" 0x40240051 "I4" (ScFloat "1e-7") "deg"
    "Latitude of the fourth geofence circle center";
  mk_cfg "CFG-GEOFENCE-FENCE4_LON" 0x40240052 "I4" (ScFloat "1e-7") "deg"
    "Longitude of the fourth geofence circle center";
  mk_cfg "CFG-GEOFENCE-FENCE4_RAD" 0x40240053 "U4" (ScFloat "0.01") "m"
    "Radius of the fourth geofence circle";
  mk_cfg "CFG-HW-ANT_CFG_VOLTCTRL" 0x10a3002e "L" (ScInt 1) EmptyString
    "Active antenna voltage control flag";
  mk_cfg "CFG-HW-ANT_CFG_SHORTDET" 0x10a3002f "L" (ScInt 1) EmptyString
    "Short antenna detection flag";
  mk_cfg "CFG-HW-ANT_CFG_SHORTDET_POL" 0x10a30030 "L" (ScInt 1) EmptyString
    "Short antenna detection polarity";
  mk_cfg "CFG-HW-ANT_CFG_OPENDET" 0x10a30031 "L" (ScInt 1) EmptyString
    "Open antenna detection flag";
  mk_cfg "CFG-HW-ANT_CFG_OPENDET_POL" 0x10a30032 "L" (ScInt 1) EmptyString
    "Open antenna detection polarity";
  mk_cfg "CFG-HW-ANT_CFG_PWRDOWN" 0x10a30033 "L" (ScInt 1) EmptyString
    "Power down antenna flag";
  mk_cfg "CFG-HW-ANT_CFG_PWRDOWN_POL" 0x10a30034 "L" (ScInt 1) EmptyString
    "Power down antenna logic polarity";
  mk_cfg "CFG-HW-ANT_CFG_RECOVER" 0x10a30035 "L" (ScInt 1) EmptyString
    "Automatic recovery from short state flag";
  mk_cfg "CFG-HW-ANT_SUP_SWITCH_PIN" 0x20a30036 "U1" (ScInt 1) EmptyString
    "ANT1 PIO number";
  mk_cfg "CFG-HW-ANT_SUP_SHORT_PIN" 0x20a30037 "U1" (ScInt 1) EmptyString
    "ANT0 PIO number";
  mk_cfg "CFG-HW-ANT_SUP_OPEN_PIN" 0x20a30038 "U1" (ScInt 1) EmptyString
    "ANT2 PIO number";
  mk_cfg "CFG-I2C-ADDRESS" 0x20510001 "U1" (ScInt 1) EmptyString
    "I2C slave address of the receiver";
  mk_cfg "CFG-I2C-EXTENDEDTIMEOUT" 0x10510002 "L" (ScInt 1) EmptyString
    "Flag to disable timeouting the interface after 1.5 s";
  mk_cfg "CFG-I2C-ENABLED" 0x10510003 "L" (ScInt 1) EmptyString
    "Flag to indicate if the I2C interface should be enabled";
  mk_cfg "CFG-I2CINPROT-UBX" 0x10710001 "L" (ScInt 1) EmptyString
    "Flag to indicate if UBX should be an input on I2C";
  mk_cfg "CFG-I2CINPROT-NMEA" 0x10710002 "L" (ScInt 1) EmptyString
    "Flag to indicate if NMEA should be an input on I2C";
  mk_cfg "CFG-I2CINPROT-RTCM2X" 0x10710003 "L" (ScInt 1) EmptyString
    "Flag to indicate if RTCM2X should be an input on I2C";
  mk_cfg "CFG-I2CINPROT-RTCM3X" 0x10710004 "L" (ScInt 1) EmptyString
    "Flag to indicate if RTCM3X should be input on I2C";
  mk_cfg "CFG-I2COUTPROT-UBX" 0x10720001 "L" (ScInt 1) EmptyString
    "Flag to indicate if UBX should be an output on I2C";
  mk_cfg "CFG-I2COUTPROT-NMEA" 0x10720002 "L" (ScInt 1) EmptyString
    "Flag to indicate if NMEA should be an output on I2C";
  mk_cfg "CFG-I2COUTPROT-RTCM3X" 0x10720004 "L" (ScInt 1) EmptyString
    "Flag to indicate if RTCM3X should be an output on I2C";
  mk_cfg "CFG-INFMSG-UBX_I2C" 0x20920001 "X1" (ScInt 1) EmptyString
    "Information message enable flags for UBX protocol on I2C";
  mk_cfg "CFG-INFMSG-UBX_UART1" 0x20920002 "X1" (ScInt 1) EmptyString
    "Information message enable flags for UBX protocol on UART1";
  mk_cfg "CFG-INFMSG-UBX_UART2" 0x20920003 "X1" (ScInt 1) EmptyString
    "Information message enable flags for UBX protocol on UART2";
  mk_cfg "CFG-INFMSG-UBX_USB" 0x20920004 "X1" (ScInt 1) EmptyString
    "Information message enable flags for UBX protocol on USB";
  mk_cfg "CFG-INFMSG-UBX_SPI" 0x20920005 "X1" (ScInt 1) EmptyString
    "Information message enable flags for UBX protocol on SPI";
  mk_cfg "CFG-INFMSG-NMEA_I2C" 0x20920006 "X1" (ScInt 1) EmptyString
    "Information message enable flags for NMEA protocol on I2C";
  mk_cfg "CFG-INFMSG-NMEA_UART1" 0x20920007 "X1" (ScInt 1) EmptyString
    "Information message enable flags for NMEA protocol on UART1";
  mk_cfg "CFG-INFMSG-NMEA_UART2" 0x20920008 "X1" (ScInt 1) EmptyString
    "Information message enable flags for NMEA protocol on UART2";
  mk_cfg "CFG-INFMSG-NMEA_USB" 0x20920009 "X1" (ScInt 1) EmptyString
    "Information message enable flags for NMEA protocol on USB";
  mk_cfg "CFG-INFMSG-NMEA_SPI" 0x2092000a "X1" (ScInt 1) EmptyString
    "Information message enable flags for NMEA protocol on SPI";
  mk_cfg "CFG-ITFM-BBTHRESHOLD" 0x20410001 "U1" (ScInt 1) EmptyString
    "Broadband jamming detection threshold";
  mk_cfg "CFG-ITFM-CWTHRESHOLD" 0x20410002 "U1" (ScInt 1) EmptyString
    "CW jamming detection threshold";
  mk_cfg "CFG-ITFM-ENABLE" 0x1041000d "L" (ScInt 1) EmptyString
    "Enable interference detection";
  mk_cfg "CFG-ITFM-ANTSETTING" 0x20410010 "E1" (ScInt 1) EmptyString
    "Antenna setting";
  mk_cfg "CFG-ITFM-ENABLE_AUX" 0x10410013 "L" (ScInt 1) EmptyString
    "Set to true to scan auxiliary bands";
  mk_cfg "CFG-LOGFILTER-RECORD_ENA" 0x10de0002 "L" (ScInt 1) EmptyString
    "Recording enabled";
  mk_cfg "CFG-LOGFILTER-ONCE_PER_WAKE_UP_ENA" 0x10de0003 "L" (ScInt 1) EmptyString
    "Once per wakeup";
  mk_cfg "CFG-LOGFILTER-APPLY_ALL_FILTERS" 0x10de0004 "L" (ScInt 1) EmptyString
    "Apply all filter settings";
  mk_cfg "CFG-LOGFILTER-MIN_INTERVAL" 0x30de0005 "U2" (ScInt 1) "s"
    "Minimum time interval between logged positions";
  mk_cfg "CFG-LOGFILTER-TIME_THRS" 0x30de0006 "U2" (ScInt 1) "s"
    "Time threshold";
  mk_cfg "CFG-LOGFILTER-SPEED_THRS" 0x30de0007 "U2" (ScInt 1) "m/s"
    "Speed threshold";
  mk_cfg "CFG-LOGFILTER-POSITION_THRS" 0x40de0008 "U4" (ScInt 1) "m"
    "Position threshold";
  mk_cfg "CFG-MOT-GNSSSPEED_THRS" 0x20250038 "U1" (ScFloat "0.01") "m/s"
    "GNSS speed threshold below which platform is considered as stationary";
  mk_cfg "CFG-MOT-GNSSDIST_THRS" 0x3025003b "U2" (ScInt 1) EmptyString
    "Distance above which GNSS-based stationary motion is exit";
  mk_cfg "CFG-MSGOUT-NMEA_ID_DTM_I2C" 0x209100a6 "U1" (ScInt 1) EmptyString
    "Output rate of the NMEA-GX-DTM message on port I2C";
  mk_cfg "CFG-MSGOUT-NMEA_ID_DTM_SPI" 0x209100aa "U1" (ScInt 1) EmptyString
    "Output rate of the NMEA-GX-DTM message on port SPI";
  mk_cfg "CFG-MSGOUT-NMEA_ID_DTM_UART1" 0x209100a7 "U1" (ScInt 1) EmptyString
    "Output rate of the NMEA-GX-DTM message on port UART1";
  mk_cfg "CFG-MSGOUT-NMEA_ID_DTM_UART2" 0x209100a8 "U1" (ScInt 1) EmptyString
    "Output rate of the NMEA-GX-DTM message on port UART2";
  mk_cfg "CFG-MSGOUT-NMEA_ID_DTM_USB" 0x209100a9 "U1" (ScInt 1) EmptyString
    "Output rate of the NMEA-GX-DTM message on port USB";
  mk_cfg "CFG-MSGOUT-NMEA_ID_GBS_I2C" 0x209100dd "U1" (ScInt 1) EmptyString
    "Output rate of the NMEA-GX-GBS message on port I2C";
  mk_cfg "CFG-MSGOUT-NMEA_ID_GBS_SPI" 0x209100e1 "U1" (ScInt 1) EmptyString
    "Output rate of the NMEA-GX-GBS message on port SPI";
  mk_cfg "CFG-MSGOUT-NMEA_ID_GBS_UART1" 0x209100de "U1" (ScInt 1) EmptyString
    "Output rate of the NMEA-GX-GBS message on port UART1";
  mk_cfg "CFG-MSGOUT-NMEA_ID_GBS_UART2" 0x209100df "U1" (ScInt 1) EmptyString
    "Output rate of the NMEA-GX-GBS message on port UART2";
  mk_cfg "CFG-MSGOUT-NMEA_ID_GBS_USB" 0x209100e0 "U1" (ScInt 1) EmptyString
    "Output rate of the NMEA-GX-GBS message on port USB";
  mk_cfg "CFG-MSGOUT-NMEA_ID_GGA_I2C" 0x209100ba "U1" (ScInt 1) EmptyString
    "Output rate of the NMEA-GX-GGA message on port I2C";
  mk_cfg "CFG-MSGOUT-NMEA_ID_GGA_SPI" 0x209100be "U1" (ScInt 1) EmptyString
    "Output rate of the NMEA-GX-GGA message on port SPI";
  mk_cfg "CFG-MSGOUT-NMEA_ID_GGA_UART1" 0x209100bb "U1" (ScInt 1) EmptyString
    "Output rate of the NMEA-GX-GGA message on port UART1";
  mk_cfg "CFG-MSGOUT-NMEA_ID_GGA_UART2" 0x209100bc "U1" (ScInt 1) EmptyString
    "Output rate of the NMEA-GX-GGA message on port UART2";
  mk_cfg "CFG-MSGOUT-NMEA_ID_GGA_USB" 0x209100bd "U1" (ScInt 1) EmptyString
    "Output rate of the NMEA-GX-GGA message on port USB";
  mk_cfg "CFG-MSGOUT-NMEA_ID_GLL_I2C" 0x209100c9 "U1" (ScInt 1) EmptyString
    "Output rate of the NMEA-GX-GLL message on port I2C";
  mk_cfg "CFG-MSGOUT-NMEA_ID_GLL_SPI" 0x209100cd "U1" (ScInt 1) EmptyString
    "Output rate of the NMEA-GX-GLL message on port SPI";
  mk_cfg "CFG-MSGOUT-NMEA_ID_GLL_UART1" 0x209100ca "U1" (ScInt 1) EmptyString
    "Output rate of the NMEA-GX-GLL message on port UART1";
  mk_cfg "CFG-MSGOUT-NMEA_ID_GLL_UART2" 0x209100cb "U1" (ScInt 1) EmptyString
    "Output rate of the NMEA-GX-GLL message on port UART2";
  mk_cfg "CFG-MSGOUT-NMEA_ID_GLL_USB" 0x209100cc "U1" (ScInt 1) EmptyString
    "Output rate of the NMEA-GX-GLL message on port USB";
  mk_cfg "CFG-MSGOUT-NMEA_ID_GNS_I2C" 0x209100b5 "U1" (ScInt 1) EmptyString
    "Output rate of the NMEA-GX-GNS message on port I2C";
  mk_cfg "CFG-MSGOUT-NMEA_ID_GNS_SPI" 0x209100b9 "U1" (ScInt 1) EmptyString
    "Output rate of the NMEA-GX-GNS message on port SPI";
  mk_cfg "CFG-MSGOUT-NMEA_ID_GNS_UART1" 0x209100b6 "U1" (ScInt 1) EmptyString
    "Output rate of the NMEA-GX-GNS message on port UART1";
  mk_cfg "CFG-MSGOUT-NMEA_ID_GNS_UART2" 0x209100b7 "U1" (ScInt 1) EmptyString
    "Output rate of the NMEA-GX-GNS message on port UART2";
  mk_cfg "CFG-MSGOUT-NMEA_ID_GNS_USB" 0x209100b8 "U1" (ScInt 1) EmptyString
    "Output rate of the NMEA-GX-GNS message on port USB";
  mk_cfg "CFG-MSGOUT-NMEA_ID_GRS_I2C" 0x209100ce "U1" (ScInt 1) EmptyString
    "Output rate of the NMEA-GX-GRS message on port I2C";
  mk_cfg "CFG-MSGOUT-NMEA_ID_GRS_SPI" 0x209100d2 "U1" (ScInt 1) EmptyString
    "Output rate of the NMEA-GX-GRS message on port SPI";
  mk_cfg "CFG-MSGOUT-NMEA_ID_GRS_UART1" 0x209100cf "U1" (ScInt 1) EmptyString
    "Output rate of the NMEA-GX-GRS message on port UART1";
  mk_cfg "CFG-MSGOUT-NMEA_ID_GRS_UART2" 0x209100d0 "U1" (ScInt 1) EmptyString
    "Output rate of the NMEA-GX-GRS message on port UART2";
  mk_cfg "CFG-MSGOUT-NMEA_ID_GRS_USB" 0x209100d1 "U1" (ScInt 1) EmptyString
    "Output rate of the NMEA-GX-GRS message on port USB";
  mk_cfg "CFG-MSGOUT-NMEA_ID_GSA_I2C" 0x209100bf "U1" (ScInt 1) EmptyString
    "Output rate of the NMEA-GX-GSA message on port I2C";
  mk_cfg "CFG-MSGOUT-NMEA_ID_GSA_SPI" 0x209100c3 "U1" (ScInt 1) EmptyString
    "Output rate of the NMEA-GX-GSA message on port SPI";
  mk_cfg "CFG-MSGOUT-NMEA_ID_GSA_UART1" 0x209100c0 "U1" (ScInt 1) EmptyString
    "Output rate of the NMEA-GX-GSA message on port UART1";
  mk_cfg "CFG-MSGOUT-NMEA_ID_GSA_UART2" 0x209100c1 "U1" (ScInt 1) EmptyString
    "Output rate of the NMEA-GX-GSA message on port UART2";
  mk_cfg "CFG-MSGOUT-NMEA_ID_GSA_USB" 0x209100c2 "U1" (ScInt 1) EmptyString
    "Output rate of the NMEA-GX-GSA message on port USB";
  mk_cfg "CFG-MSGOUT-NMEA_ID_GST_I2C" 0x209100d3 "U1" (ScInt 1) EmptyString
    "Output rate of the NMEA-GX-GST message on port I2C";
  mk_cfg "CFG-MSGOUT-NMEA_ID_GST_SPI" 0x209100d7 "U1" (ScInt 1) EmptyString
    "Output rate of the NMEA-GX-GST message on port SPI";
  mk_cfg "CFG-MSGOUT-NMEA_ID_GST_UART1" 0x209100d4 "U1" (ScInt 1) EmptyString
    "Output rate of the NMEA-GX-GST message on port UART1";
  mk_cfg "CFG-MSGOUT-NMEA_ID_GST_UART2" 0x209100d5 "U1" (ScInt 1) EmptyString
    "Output rate of the NMEA-GX-GST message on port UART2";
  mk_cfg "CFG-MSGOUT-NMEA_ID_GST_USB" 0x209100d6 "U1" (ScInt 1) EmptyString
    "Output rate of the NMEA-GX-GST message on port USB";
  mk_cfg "CFG-MSGOUT-NMEA_ID_GSV_I2C" 0x209100c4 "U1" (ScInt 1) EmptyString
    "Output rate of the NMEA-GX-GSV message on port I2C";
  mk_cfg "CFG-MSGOUT-NMEA_ID_GSV_SPI" 0x209100c8 "U1" (ScInt 1) EmptyString
    "Output rate of the NMEA-GX-GSV message on port SPI";
  mk_cfg "CFG-MSGOUT-NMEA_ID_GSV_UART1" 0x209100c5 "U1" (ScInt 1) EmptyString
    "Output rate of the NMEA-GX-GSV message on port UART1";
  mk_cfg "CFG-MSGOUT-NMEA_ID_GSV_UART2" 0x209100c6 "U1" (ScInt 1) EmptyString
    "Output rate of the NMEA-GX-GSV message on port UART";
  mk_cfg "CFG-MSGOUT-NMEA_ID_GSV_USB" 0x209100c7 "U1" (ScInt 1) EmptyString
    "Output rate of the NMEA-GX-GSV message on port USB";
  mk_cfg "CFG-MSGOUT-NMEA_ID_RMC_I2C" 0x209100ab "U1" (ScInt 1) EmptyString
    "Output rate of the NMEA-GX-RMC message on port I2C";
  mk_cfg "CFG-MSGOUT-NMEA_ID_RMC_SPI" 0x209100af "U1" (ScInt 1) EmptyString
    "Output rate of the NMEA-GX-RMC message on port SPI";
  mk_cfg "CFG-MSGOUT-NMEA_ID_RMC_UART1" 0x209100ac "U1" (ScInt 1) EmptyString
    "Output rate of the NMEA-GX-RMC message on port UART1";
  mk_cfg "CFG-MSGOUT-NMEA_ID_RMC_UART2" 0x209100ad "U1" (ScInt 1) EmptyString
    "Output rate of the NMEA-GX-RMC message on port UART2";
  mk_cfg "CFG-MSGOUT-NMEA_ID_RMC_USB" 0x209100ae "U1" (ScInt 1) EmptyString
    "Output rate of the NMEA-GX-RMC message on port USB";
  mk_cfg "CFG-MSGOUT-NMEA_ID_VLW_I2C" 0x209100e7 "U1" (ScInt 1) EmptyString
    "Output rate of the NMEA-GX-VLW message on port I2C";
  mk_cfg "CFG-MSGOUT-NMEA_ID_VLW_SPI" 0x209100eb "U1" (ScInt 1) EmptyString
    "Output rate of the NMEA-GX-VLW message on port SPI";
  mk_cfg "CFG-MSGOUT-NMEA_ID_VLW_UART1" 0x209100e8 "U1" (ScInt 1) EmptyString
    "Output rate of the NMEA-GX-VLW message on port UART1";
  mk_cfg "CFG-MSGOUT-NMEA_ID_VLW_UART2" 0x209100e9 "U1" (ScInt 1) EmptyString
    "Output rate of the NMEA-GX-VLW message on port UART2";
  mk_cfg "CFG-MSGOUT-NMEA_ID_VLW_USB" 0x209100ea "U1" (ScInt 1) EmptyString
    "Output rate of the NMEA-GX-VLW message on port USB";
  mk_cfg "CFG-MSGOUT-NMEA_ID_VTG_I2C" 0x209100b0 "U1" (ScInt 1) EmptyString
    "Output rate of the NMEA-GX-VTG message on port I2C";
  mk_cfg "CFG-MSGOUT-NMEA_ID_VTG_SPI" 0x209100b4 "U1" (ScInt 1) EmptyString
    "Output rate of the NMEA-GX-VTG message on port SPI";
  mk_cfg "CFG-MSGOUT-NMEA_ID_VTG_UART1" 0x209100b1 "U1" (ScInt 1) EmptyString
    "Output rate of the NMEA-GX-VTG message on port UART1";
  mk_cfg "CFG-MSGOUT-NMEA_ID_VTG_UART2" 0x209100b2 "U1" (ScInt 1) EmptyString
    "Output rate of the NMEA-GX-VTG message on port UART2";
  mk_cfg "CFG-MSGOUT-NMEA_ID_VTG_USB" 0x209100b3 "U1" (ScInt 1) EmptyString
    "Output rate of the NMEA-GX-VTG message on port USB";
  mk_cfg "CFG-MSGOUT-NMEA_ID_ZDA_I2C" 0x209100d8 "U1" (ScInt 1) EmptyString
    "Output rate of the NMEA-GX-ZDA message on port I2C";
  mk_cfg "CFG-MSGOUT-NMEA_ID_ZDA_SPI" 0x209100dc "U1" (ScInt 1) EmptyString
    "Output rate of the NMEA-GX-ZDA message on port SPI";
  mk_cfg "CFG-MSGOUT-NMEA_ID_ZDA_UART1" 0x209100d9 "U1" (ScInt 1) EmptyString
    "Output rate of the NMEA-GX-ZDA message on port UART1";
  mk_cfg "CFG-MSGOUT-NMEA_ID_ZDA_UART2" 0x209100da "U1" (ScInt 1) EmptyString
    "Output rate of the NMEA-GX-ZDA message on port UART2";
  mk_cfg "CFG-MSGOUT-NMEA_ID_ZDA_USB" 0x209100db "U1" (ScInt 1) EmptyString
    "Output rate of the NMEA-GX-ZDA message on port USB";
  mk_cfg "CFG-MSGOUT-PUBX_ID_POLYP_I2C" 0x209100ec "U1" (ScInt 1) EmptyString
    "Output rate of the NMEA-GX-PUBX00 message on port I2C";
  mk_cfg "CFG-MSGOUT-PUBX_ID_POLYP_SPI" 0x209100f0 "U1" (ScInt 1) EmptyString
    "Output rate of the NMEA-GX-PUBX00 message on port SPI";
  mk_cfg "CFG-MSGOUT-PUBX_ID_POLYP_UART1" 0x209100ed "U1" (ScInt 1) EmptyString
    "Output rate of the NMEA-GX-PUBX00 message on port UART1";
  mk_cfg "CFG-MSGOUT-PUBX_ID_POLYP_UART2" 0x209100ee "U1" (ScInt 1) EmptyString
    "Output rate of the NMEA-GX-PUBX00 message on port UART2";
  mk_cfg "CFG-MSGOUT-PUBX_ID_POLYP_USB" 0x209100ef "U1" (ScInt 1) EmptyString
    "Output rate of the NMEA-GX-PUBX00 message on port USB";
  mk_cfg "CFG-MSGOUT-PUBX_ID_POLYS_I2C" 0x209100f1 "U1" (ScInt 1) EmptyString
    "Output rate of the NMEA-GX-PUBX03 message on port I2C";
  mk_cfg "CFG-MSGOUT-PUBX_ID_POLYS_SPI" 0x209100f5 "U1" (ScInt 1) EmptyString
    "Output rate of the NMEA-GX-PUBX03 message on port SPI";
  mk_cfg "CFG-MSGOUT-PUBX_ID_POLYS_UART1" 0x209100f2 "U1" (ScInt 1) EmptyString
    "Output rate of the NMEA-GX-PUBX03 message on port UART1";
  mk_cfg "CFG-MSGOUT-PUBX_ID_POLYS_UART2" 0x209100f3 "U1" (ScInt 1) EmptyString
    "Output rate of the NMEA-GX-PUBX03 message on port UART2";
  mk_cfg "CFG-MSGOUT-PUBX_ID_POLYS_USB" 0x209100f4 "U1" (ScInt 1) EmptyString
    "Output rate of the NMEA-GX-PUBX03 message on port USB";
  mk_cfg "CFG-MSGOUT-PUBX_ID_POLYT_I2C" 0x209100f6 "U1" (ScInt 1) EmptyString
    "Output rate of the NMEA-GX-PUBX04 message on port I2C";
  mk_cfg "CFG-MSGOUT-PUBX_ID_POLYT_SPI" 0x209100fa "U1" (ScInt 1) EmptyString
    "Output rate of the NMEA-GX-PUBX04 message on port SPI";
  mk_cfg "CFG-MSGOUT-PUBX_ID_POLYT_UART1" 0x209100f7 "U1" (ScInt 1) EmptyString
    "Output rate of the NMEA-GX-PUBX04 message on port UART1";
  mk_cfg "CFG-MSGOUT-PUBX_ID_POLYT_UART2" 0x209100f8 "U1" (ScInt 1) EmptyString
    "Output rate of the NMEA-GX-PUBX04 message on port UART2";
  mk_cfg "CFG-MSGOUT-PUBX_ID_POLYT_USB" 0x209100f9 "U1" (ScInt 1) EmptyString
    "Output rate of the NMEA-GX-PUBX04 message on port USB";
  mk_cfg "CFG-MSGOUT-RTCM_3X_TYPE1005_I2C" 0x209102bd "U1" (ScInt 1) EmptyString
    "Output rate of the RTCM-3X-TYPE1005 message on port I2C";
  mk_cfg "CFG-MSGOUT-RTCM_3X_TYPE1005_SPI" 0x209102c1 "U1" (ScInt 1) EmptyString
    "Output rate of the RTCM-3X-TYPE1005 message on port SPI";
  mk_cfg "CFG-MSGOUT-RTCM_3X_TYPE1005_UART1" 0x209102be "U1" (ScInt 1) EmptyString
    "Output rate of the RTCM-3X-TYPE1005 message on port UART1";
  mk_cfg "CFG-MSGOUT-RTCM_3X_TYPE1005_UART2" 0x209102bf "U1" (ScInt 1) EmptyString
    "Output rate of the RTCM-3X-TYPE1005 message on port UART2";
  mk_cfg "CFG-MSGOUT-RTCM_3X_TYPE1005_USB" 0x209102c0 "U1" (ScInt 1) EmptyString
    "Output rate of the RTCM-3X-TYPE1005 message on port USB";
  mk_cfg "CFG-MSGOUT-RTCM_3X_TYPE1074_I2C" 0x2091035e "U1" (ScInt 1) EmptyString
    "Output rate of the RTCM-3X-TYPE1074 message on port I2C";
  mk_cfg "CFG-MSGOUT-RTCM_3X_TYPE1074_SPI" 0x20910362 "U1" (ScInt 1) EmptyString
    "Output rate of the RTCM-3X-TYPE1074 message on port SPI";
  mk_cfg "CFG-MSGOUT-RTCM_3X_TYPE1074_UART1" 0x2091035f "U1" (ScInt 1) EmptyString
    "Output rate of the RTCM-3X-TYPE1074 message on port UART1";
  mk_cfg "CFG-MSGOUT-RTCM_3X_TYPE1074_UART2" 0x20910360 "U1" (ScInt 1) EmptyString
    "Output rate of the RTCM-3X-TYPE1074 message on port UART2";
  mk_cfg "CFG-MSGOUT-RTCM_3X_TYPE1074_USB" 0x20910361 "U1" (ScInt 1) EmptyString
    "Output rate of the RTCM-3X-TYPE1074 message on port USB";
  mk_cfg "CFG-MSGOUT-RTCM_3X_TYPE1077_I2C" 0x209102cc "U1" (ScInt 1) EmptyString
    "Output rate of the RTCM-3X-TYPE1077 message on port I2";
  mk_cfg "CFG-MSGOUT-RTCM_3X_TYPE1077_SPI" 0x209102d0 "U1" (ScInt 1) EmptyString
    "Output rate of the RTCM-3X-TYPE1077 message on port SPI";
  mk_cfg "CFG-MSGOUT-RTCM_3X_TYPE1077_UART1" 0x209102cd "U1" (ScInt 1) EmptyString
    "Output rate of the RTCM-3X-TYPE1077 message on port UART1";
  mk_cfg "CFG-MSGOUT-RTCM_3X_TYPE1077_UART2" 0x209102ce "U1" (ScInt 1) EmptyString
    "Output rate of the RTCM-3X-TYPE1077 message on port UART2";
  mk_cfg "CFG-MSGOUT-RTCM_3X_TYPE1077_USB" 0x209102cf "U1" (ScInt 1) EmptyString
    "Output rate of the RTCM-3X-TYPE1077 message on port USB";
  mk_cfg "CFG-MSGOUT-RTCM_3X_TYPE1087_I2C" 0x209102d1 "U1" (ScInt 1) EmptyString
    "Output rate of the RTCM-3X-TYPE1087 message on port I2C";
  mk_cfg "CFG-MSGOUT-RTCM_3X_TYPE1084_SPI" 0x20910367 "U1" (ScInt 1) EmptyString
    "Output rate of the RTCM-3X-TYPE1084 message on port SPI";
  mk_cfg "CFG-MSGOUT-RTCM_3X_TYPE1084_UART1" 0x20910364 "U1" (ScInt 1) EmptyString
    "Output rate of the RTCM-3X-TYPE1084 message on port UART1";
  mk_cfg "CFG-MSGOUT-RTCM_3X_TYPE1084_UART2" 0x20910365 "U1" (ScInt 1) EmptyString
    "Output rate of the RTCM-3X-TYPE1084 message on port UART2";
  mk_cfg "CFG-MSGOUT-RTCM_3X_TYPE1084_USB" 0x20910366 "U1" (ScInt 1) EmptyString
    "Output rate of the RTCM-3X-TYPE1084 message on port USB";
  mk_cfg "CFG-MSGOUT-RTCM_3X_TYPE1087_SPI" 0x209102d5 "U1" (ScInt 1) EmptyString
    "Output rate of the RTCM-3X-TYPE1087 message on port SPI";
  mk_cfg "CFG-MSGOUT-RTCM_3X_TYPE1087_UART1" 0x209102d2 "U1" (ScInt 1) EmptyString
    "Output rate of the RTCM-3X-TYPE1087 message on port UART1";
  mk_cfg "CFG-MSGOUT-RTCM_3X_TYPE1087_UART2" 0x209102d3 "U1" (ScInt 1) EmptyString
    "Output rate of the RTCM-3X-TYPE1087 message on port UART2";
  mk_cfg "CFG-MSGOUT-RTCM_3X_TYPE1087_USB" 0x209102d4 "U1" (ScInt 1) EmptyString
    "Output rate of the RTCM-3X-TYPE1087 message on port USB";
  mk_cfg "CFG-MSGOUT-RTCM_3X_TYPE1094_I2C" 0x20910368 "U1" (ScInt 1) EmptyString
    "Output rate of the RTCM-3X-TYPE1094 message on port I2C";
  mk_cfg "CFG-MSGOUT-RTCM_3X_TYPE1094_SPI" 0x2091036c "U1" (ScInt 1) EmptyString
    "Output rate of the RTCM-3X-TYPE1094 message on port SPI";
  mk_cfg "CFG-MSGOUT-RTCM_3X_TYPE1094_UART1" 0x20910369 "U1" (ScInt 1) EmptyString
    "Output rate of the RTCM-3X-TYPE1094 message on port UART1";
  mk_cfg "CFG-MSGOUT-RTCM_3X_TYPE1094_UART2" 0x2091036a "U1" (ScInt 1) EmptyString
    "Output rate of the RTCM-3X-TYPE1094 message on port UART2";
  mk_cfg "CFG-MSGOUT-RTCM_3X_TYPE1094_USB" 0x2091036b "U1" (ScInt 1) EmptyString
    "Output rate of the RTCM-3X-TYPE1094 message on port USB";
  mk_cfg "CFG-MSGOUT-RTCM_3X_TYPE1097_I2C" 0x20910318 "U1" (ScInt 1) EmptyString
    "Output rate of the RTCM-3X-TYPE1097 message on port I2C";
  mk_cfg "CFG-MSGOUT-RTCM_3X_TYPE1097_SPI" 0x2091031c "U1" (ScInt 1) EmptyString
    "Output rate of the RTCM-3X-TYPE1097 message on port SPI";
  mk_cfg "CFG-MSGOUT-RTCM_3X_TYPE1097_UART1" 0x20910319 "U1" (ScInt 1) EmptyString
    "Output rate of the RTCM-3X-TYPE1097 message on port UART1";
  mk_cfg "CFG-MSGOUT-RTCM_3X_TYPE1097_UART2" 0x2091031a "U1" (ScInt 1) EmptyString
    "Output rate of the RTCM-3X-TYPE1097 message on port UART2";
  mk_cfg "CFG-MSGOUT-RTCM_3X_TYPE1097_USB" 0x2091031b "U1" (ScInt 1) EmptyString
    "Output rate of the RTCM-3X-TYPE1097 message on port USB";
  mk_cfg "CFG-MSGOUT-RTCM_3X_TYPE1124_I2C" 0x2091036d "U1" (ScInt 1) EmptyString
    "Output rate of the RTCM-3X-TYPE1124 message on port I2C";
  mk_cfg "CFG-MSGOUT-RTCM_3X_TYPE1124_SPI" 0x20910371 "U1" (ScInt 1) EmptyString
    "Output rate of the RTCM-3X-TYPE1124 message on port SPI";
  mk_cfg "CFG-MSGOUT-RTCM_3X_TYPE1124_UART1" 0x2091036e "U1" (ScInt 1) EmptyString
    "Output rate of the RTCM-3X-TYPE1124 message on port UART1";
  mk_cfg "CFG-MSGOUT-RTCM_3X_TYPE1124_UART2" 0x2091036f "U1" (ScInt 1) EmptyString
    "Output rate of the RTCM-3X-TYPE1124 message on port UART2";
  mk_cfg "CFG-MSGOUT-RTCM_3X_TYPE1124_USB" 0x20910370 "U1" (ScInt 1) EmptyString
    "Output rate of the RTCM-3X-TYPE1124 message on port USB";
  mk_cfg "CFG-MSGOUT-RTCM_3X_TYPE1127_I2C" 0x209102d6 "U1" (ScInt 1) EmptyString
    "Output rate of the RTCM-3X-TYPE1127 message on port I2C";
  mk_cfg "CFG-MSGOUT-RTCM_3X_TYPE1127_SPI" 0x209102da "U1" (ScInt 1) EmptyString
    "Output rate of the RTCM-3X-TYPE1127 message on port SPI";
  mk_cfg "CFG-MSGOUT-RTCM_3X_TYPE1127_UART1" 0x209102d7 "U1" (ScInt 1) EmptyString
    "Output rate of the RTCM-3X-TYPE1127 message on port UART1";
  mk_cfg "CFG-MSGOUT-RTCM_3X_TYPE1127_UART2" 0x209102d8 "U1" (ScInt 1) EmptyString
    "Output rate of the RTCM-3X-TYPE1127 message on port UART2";
  mk_cfg "CFG-MSGOUT-RTCM_3X_TYPE1127_USB" 0x209102d9 "U1" (ScInt 1) EmptyString
    "Output rate of the RTCM-3X-TYPE1127 message on port USB";
  mk_cfg "CFG-MSGOUT-RTCM_3X_TYPE1230_I2C" 0x20910303 "U1" (ScInt 1) EmptyString
    "Output rate of the RTCM-3X-TYPE1230 message on port I2C";
  mk_cfg "CFG-MSGOUT-RTCM_3X_TYPE1230_SPI" 0x20910307 "U1" (ScInt 1) EmptyString
    "Output rate of the RTCM-3X-TYPE1230 message on port SPI";
  mk_cfg "CFG-MSGOUT-RTCM_3X_TYPE1230_UART1" 0x20910304 "U1" (ScInt 1) EmptyString
    "Output rate of the RTCM-3X-TYPE1230 message on port UART1";
  mk_cfg "CFG-MSGOUT-RTCM_3X_TYPE1230_UART2" 0x20910305 "U1" (ScInt 1) EmptyString
    "Output rate of the RTCM-3X-TYPE1230 message on port UART2";
  mk_cfg "CFG-MSGOUT-RTCM_3X_TYPE1230_USB" 0x20910306 "U1" (ScInt 1) EmptyString
    "Output rate of the RTCM-3X-TYPE1230 message on port USB";
  mk_cfg "CFG-MSGOUT-RTCM_3X_TYPE4072_0_I2C" 0x209102fe "U1" (ScInt 1) EmptyString
    "Output rate of the RTCM-3X-TYPE4072, sub-type 0 message on port I2C";
  mk_cfg "CFG-MSGOUT-RTCM_3X_TYPE4072_0_SPI" 0x20910302 "U1" (ScInt 1) EmptyString
    "Output rate of the RTCM-3X-TYPE4072, sub-type 0 message on port SPI";
  mk_cfg "CFG-MSGOUT-RTCM_3X_TYPE4072_0_UART1" 0x209102ff "U1" (ScInt 1) EmptyString
    "Output rate of the RTCM-3X-TYPE4072, sub-type 0 message on port UART1";
  mk_cfg "CFG-MSGOUT-RTCM_3X_TYPE4072_0_UART2" 0x20910300 "U1" (ScInt 1) EmptyString
    "Output rate of the RTCM-3X-TYPE4072, sub-type 0 message on port UART2";
  mk_cfg "CFG-MSGOUT-RTCM_3X_TYPE4072_0_USB" 0x20910301 "U1" (ScInt 1) EmptyString
    "Output rate of the RTCM-3X-TYPE4072, sub-type 0 message on port USB";
  mk_cfg "CFG-MSGOUT-RTCM_3X_TYPE4072_1_I2C" 0x20910381 "U1" (ScInt 1) EmptyString
    "Output rate of the RTCM-3X-TYPE4072, sub-type 1 message on  port I2C";
  mk_cfg "CFG-MSGOUT-RTCM_3X_TYPE4072_1_SPI" 0x20910385 "U1" (ScInt 1) EmptyString
    "Output rate of the RTCM-3X-TYPE4072, sub-type 1 message on  port SPI";
  mk_cfg "CFG-MSGOUT-RTCM_3X_TYPE4072_1_UART1" 0x20910382 "U1" (ScInt 1) EmptyString
    "Output rate of the RTCM-3X-TYPE4072, sub-type 1 message on  port UART1";
  mk_cfg "CFG-MSGOUT-RTCM_3X_TYPE4072_1_UART2" 0x20910383 "U1" (ScInt 1) EmptyString
    "Output rate of the RTCM-3X-TYPE4072, sub-type 1 message on  port UART2";
  mk_cfg "CFG-MSGOUT-RTCM_3X_TYPE4072_1_USB" 0x20910384 "U1" (ScInt 1) EmptyString
    "Output rate of the RTCM-3X-TYPE4072, sub-type 1 message on port USB";
  mk_cfg "CFG-MSGOUT-UBX_LOG_INFO_I2C" 0x20910259 "U1" (ScInt 1) EmptyString
    "Output rate of the UBX-LOG-INFO message on port I2C";
  mk_cfg "CFG-MSGOUT-UBX_LOG_INFO_SPI" 0x2091025d "U1" (ScInt 1) EmptyString
    "Output rate of the UBX-LOG-INFO message on port SPI";
  mk_cfg "CFG-MSGOUT-UBX_LOG_INFO_UART1" 0x2091025a "U1" (ScInt 1) EmptyString
    "Output rate of the UBX-LOG-INFO message on port UART1";
  mk_cfg "CFG-MSGOUT-UBX_LOG_INFO_UART2" 0x2091025b "U1" (ScInt 1) EmptyString
    "Output rate of the UBX-LOG-INFO message on port UART2";
  mk_cfg "CFG-MSGOUT-UBX_LOG_INFO_USB" 0x2091025c "U1" (ScInt 1) EmptyString
    "Output rate of the UBX-LOG-INFO message on port USB";
  mk_cfg "CFG-MSGOUT-UBX_MON_COMMS_I2C" 0x2091034f "U1" (ScInt 1) EmptyString
    "Output rate of the UBX-MON-COMMS message on port I2C";
  mk_cfg "CFG-MSGOUT-UBX_MON_COMMS_SPI" 0x20910353 "U1" (ScInt 1) EmptyString
    "Output rate of the UBX-MON-COMMS message on port SPI";
  mk_cfg "CFG-MSGOUT-UBX_MON_COMMS_UART1" 0x20910350 "U1" (ScInt 1) EmptyString
    "Output rate of the UBX-MON-COMMS message on port UART1";
  mk_cfg "CFG-MSGOUT-UBX_MON_COMMS_UART2" 0x20910351 "U1" (ScInt 1) EmptyString
    "Output rate of the UBX-MON-COMMS message on port UART2";
  mk_cfg "CFG-MSGOUT-UBX_MON_COMMS_USB" 0x20910352 "U1" (ScInt 1) EmptyString
    "Output rate of the UBX-MON-COMMS message on port USB";
  mk_cfg "CFG-MSGOUT-UBX_MON_HW2_I2C" 0x209101b9 "U1" (ScInt 1) EmptyString
    "Output rate of the UBX-MON-HW2 message on port I2C";
  mk_cfg "CFG-MSGOUT-UBX_MON_HW2_SPI" 0x209101bd "U1" (ScInt 1) EmptyString
    "Output rate of the UBX-MON-HW2 message on port SPI";
  mk_cfg "CFG-MSGOUT-UBX_MON_HW2_UART1" 0x209101ba "U1" (ScInt 1) EmptyString
    "Output rate of the UBX-MON-HW2 message on port UART1";
  mk_cfg "CFG-MSGOUT-UBX_MON_HW2_UART2" 0x209101bb "U1" (ScInt 1) EmptyString
    "Output rate of the UBX-MON-HW2 message on port UART2";
  mk_cfg "CFG-MSGOUT-UBX_MON_HW2_USB" 0x209101bc "U1" (ScInt 1) EmptyString
    "Output rate of the UBX-MON-HW2 message on port USB";
  mk_cfg "CFG-MSGOUT-UBX_MON_HW3_I2C" 0x20910354 "U1" (ScInt 1) EmptyString
    "Output rate of the UBX-MON-HW3 message on port I2C";
  mk_cfg "CFG-MSGOUT-UBX_MON_HW3_SPI" 0x20910358 "U1" (ScInt 1) EmptyString
    "Output rate of the UBX-MON-HW3 message on port SPI";
  mk_cfg "CFG-MSGOUT-UBX_MON_HW3_UART1" 0x20910355 "U1" (ScInt 1) EmptyString
    "Output rate of the UBX-MON-HW3 message on port UART1";
  mk_cfg "CFG-MSGOUT-UBX_MON_HW3_UART2" 0x20910356 "U1" (ScInt 1) EmptyString
    "Output rate of the UBX-MON-HW3 message on port UART2";
  mk_cfg "CFG-MSGOUT-UBX_MON_HW3_USB" 0x20910357 "U1" (ScInt 1) EmptyString
    "Output rate of the UBX-MON-HW3 message on port USB";
  mk_cfg "CFG-MSGOUT-UBX_MON_HW_I2C" 0x209101b4 "U1" (ScInt 1) EmptyString
    "Output rate of the UBX-MON-HW message on port I2C";
  mk_cfg "CFG-MSGOUT-UBX_MON_HW_SPI" 0x209101b8 "U1" (ScInt 1) EmptyString
    "Output rate of the UBX-MON-HW message on port SPI";
  mk_cfg "CFG-MSGOUT-UBX_MON_HW_UART1" 0x209101b5 "U1" (ScInt 1) EmptyString
    "Output rate of the UBX-MON-HW message on port UART1";
  mk_cfg "CFG-MSGOUT-UBX_MON_HW_UART2" 0x209101b6 "U1" (ScInt 1) EmptyString
    "Output rate of the UBX-MON-HW message on port UART2";
  mk_cfg "CFG-MSGOUT-UBX_MON_HW_USB" 0x209101b7 "U1" (ScInt 1) EmptyString
    "Output rate of the UBX-MON-HW message on port USB";
  mk_cfg "CFG-MSGOUT-UBX_MON_IO_I2C" 0x209101a5 "U1" (ScInt 1) EmptyString
    "Output rate of the UBX-MON-IO message on port I2C";
  mk_cfg "CFG-MSGOUT-UBX_MON_IO_SPI" 0x209101a9 "U1" (ScInt 1) EmptyString
    "Output rate of the UBX-MON-IO message on port SPI";
  mk_cfg "CFG-MSGOUT-UBX_MON_IO_UART1" 0x209101a6 "U1" (ScInt 1) EmptyString
    "Output rate of the UBX-MON-IO message on port UART1";
  mk_cfg "CFG-MSGOUT-UBX_MON_IO_UART2" 0x209101a7 "U1" (ScInt 1) EmptyString
    "Output rate of the UBX-MON-IO message on port UART2";
  mk_cfg "CFG-MSGOUT-UBX_MON_IO_USB" 0x209101a8 "U1" (ScInt 1) EmptyString
    "Output rate of the UBX-MON-IO message on port USB";
  mk_cfg "CFG-MSGOUT-UBX_MON_MSGPP_I2C" 0x20910196 "U1" (ScInt 1) EmptyString
    "Output rate of the UBX-MON-MSGPP message on port I2C";
  mk_cfg "CFG-MSGOUT-UBX_MON_MSGPP_SPI" 0x2091019a "U1" (ScInt 1) EmptyString
    "Output rate of the UBX-MON-MSGPP message on port SPI";
  mk_cfg "CFG-MSGOUT-UBX_MON_MSGPP_UART1" 0x20910197 "U1" (ScInt 1) EmptyString
    "Output rate of the UBX-MON-MSGPP message on port UART1";
  mk_cfg "CFG-MSGOUT-UBX_MON_MSGPP_UART2" 0x20910198 "U1" (ScInt 1) EmptyString
    "Output rate of the UBX-MON-MSGPP message on port UART2";
  mk_cfg "CFG-MSGOUT-UBX_MON_MSGPP_USB" 0x20910199 "U1" (ScInt 1) EmptyString
    "Output rate of the UBX-MON-MSGPP message on port USB";
  mk_cfg "CFG-MSGOUT-UBX_MON_RF_I2C" 0x20910359 "U1" (ScInt 1) EmptyString
    "Output rate of the UBX-MON-RF message on port I2C";
  mk_cfg "CFG-MSGOUT-UBX_MON_RF_SPI" 0x2091035d "U1" (ScInt 1) EmptyString
    "Output rate of the UBX-MON-RF message on port SPI";
  mk_cfg "CFG-MSGOUT-UBX_MON_RF_UART1" 0x2091035a "U1" (ScInt 1) EmptyString
    "Output rate of the UBX-MON-RF message on port UART1";
  mk_cfg "CFG-MSGOUT-UBX_MON_RF_UART2" 0x2091035b "U1" (ScInt 1) EmptyString
    "Output rate of the UBX-MON-RF message on port UART2";
  mk_cfg "CFG-MSGOUT-UBX_MON_RF_USB" 0x2091035c "U1" (ScInt 1) EmptyString
    "Output rate of the UBX-MON-RF message on port USB";
  mk_cfg "CFG-MSGOUT-UBX_MON_RXBUF_I2C" 0x209101a0 "U1" (ScInt 1) EmptyString
    "Output rate of the UBX-MON-RXBUF message on port I2C";
  mk_cfg "CFG-MSGOUT-UBX_MON_RXBUF_SPI" 0x209101a4 "U1" (ScInt 1) EmptyString
    "Output rate of the UBX-MON-RXBUF message on port SPI";
  mk_cfg "CFG-MSGOUT-UBX_MON_RXBUF_UART1" 0x209101a1 "U1" (ScInt 1) EmptyString
    "Output rate of the UBX-MON-RXBUF message on port UART1";
  mk_cfg "CFG-MSGOUT-UBX_MON_RXBUF_UART2" 0x209101a2 "U1" (ScInt 1) EmptyString
    "Output rate of the UBX-MON-RXBUF message on port UART2";
  mk_cfg "CFG-MSGOUT-UBX_MON_RXBUF_USB" 0x209101a3 "U1" (ScInt 1) EmptyString
    "Output rate of the UBX-MON-RXBUF message on port USB";
  mk_cfg "CFG-MSGOUT-UBX_MON_RXR_I2C" 0x20910187 "U1" (ScInt 1) EmptyString
    "Output rate of the UBX-MON-RXR message on port I2C";
  mk_cfg "CFG-MSGOUT-UBX_MON_RXR_SPI" 0x2091018b "U1" (ScInt 1) EmptyString
    "Output rate of the UBX-MON-RXR message on port SPI";
  mk_cfg "CFG-MSGOUT-UBX_MON_RXR_UART1" 0x20910188 "U1" (ScInt 1) EmptyString
    "Output rate of the UBX-MON-RXR message on port UART1";
  mk_cfg "CFG-MSGOUT-UBX_MON_RXR_UART2" 0x20910189 "U1" (ScInt 1) EmptyString
    "Output rate of the UBX-MON-RXR message on port UART2";
  mk_cfg "CFG-MSGOUT-UBX_MON_RXR_USB" 0x2091018a "U1" (ScInt 1) EmptyString
    "Output rate of the UBX-MON-RXR message on port USB";
  mk_cfg "CFG-MSGOUT-UBX_MON_TXBUF_I2C" 0x2091019b "U1" (ScInt 1) EmptyString
    "Output rate of the UBX-MON-TXBUF message on port I2C";
  mk_cfg "CFG-MSGOUT-UBX_MON_TXBUF_SPI" 0x2091019f "U1" (ScInt 1) EmptyString
    "Output rate of the UBX-MON-TXBUF message on port SPI";
  mk_cfg "CFG-MSGOUT-UBX_MON_TXBUF_UART1" 0x2091019c "U1" (ScInt 1) EmptyString
    "Output rate of the UBX-MON-TXBUF message on port UART1";
  mk_cfg "CFG-MSGOUT-UBX_MON_TXBUF_UART2" 0x2091019d "U1" (ScInt 1) EmptyString
    "Output rate of the UBX-MON-TXBUF message on port UART2";
  mk_cfg "CFG-MSGOUT-UBX_MON_TXBUF_USB" 0x2091019e "U1" (ScInt 1) EmptyString
    "Output rate of the UBX-MON-TXBUF message on port USB";
  mk_cfg "CFG-MSGOUT-UBX_MON_TXBUF_I2C" 0x2091019b "U1" (ScInt 1) EmptyString
    "Output rate of the UBX-MON-TXBUF message on port I2C";
  mk_cfg "CFG-MSGOUT-UBX_MON_TXBUF_SPI" 0x2091019f "U1" (ScInt 1) EmptyString
    "Output rate of the UBX-MON-TXBUF message on port SPI";
  mk_cfg "CFG-MSGOUT-UBX_MON_TXBUF_UART1" 0x2091019c "U1" (ScInt 1) EmptyString
    "Output rate of the UBX-MON-TXBUF message on port UART1";
  mk_cfg "CFG-MSGOUT-UBX_MON_TXBUF_UART2" 0x2091019d "U1" (ScInt 1) EmptyString
    "Output rate of the UBX-MON-TXBUF message on port UART2";
  mk_cfg "CFG-MSGOUT-UBX_MON_TXBUF_USB" 0x2091019e "U1" (ScInt 1) EmptyString
    "Output rate of the UBX-MON-TXBUF message on port USB";
  mk_cfg "CFG-MSGOUT-UBX_NAV_CLOCK_I2C" 0x20910065 "U1" (ScInt 1) EmptyString
    "Output rate of the UBX-NAV-CLOCK message on port I2C";
  mk_cfg "CFG-MSGOUT-UBX_NAV_CLOCK_SPI" 0x20910069 "U1" (ScInt 1) EmptyString
    "Output rate of the UBX-NAV-CLOCK message on port SPI";
  mk_cfg "CFG-MSGOUT-UBX_NAV_CLOCK_UART1" 0x20910066 "U1" (ScInt 1) EmptyString
    "Output rate of the UBX-NAV-CLOCK message on port UART1";
  mk_cfg "CFG-MSGOUT-UBX_NAV_CLOCK_UART2" 0x20910067 "U1" (ScInt 1) EmptyString
    "Output rate of the UBX-NAV-CLOCK message on port UART2";
  mk_cfg "CFG-MSGOUT-UBX_NAV_CLOCK_USB" 0x20910068 "U1" (ScInt 1) EmptyString
    "Output rate of the UBX-NAV- CLOCK message on port USB";
  mk_cfg "CFG-MSGOUT-UBX_NAV_DOP_I2C" 0x20910038 "U1" (ScInt 1) EmptyString
    "Output rate of the UBX-NAV-DOP message on port I2C";
  mk_cfg "CFG-MSGOUT-UBX_NAV_DOP_SPI" 0x2091003c "U1" (ScInt 1) EmptyString
    "Output rate of the UBX-NAV-DOP message on port SPI";
  mk_cfg "CFG-MSGOUT-UBX_NAV_DOP_UART1" 0x20910039 "U1" (ScInt 1) EmptyString
    "Output rate of the UBX-NAV-DOP message on port UART1";
  mk_cfg "CFG-MSGOUT-UBX_NAV_DOP_UART2" 0x2091003a "U1" (ScInt 1) EmptyString
    "Output rate of the UBX-NAV-DOP message on port UART2";
  mk_cfg "CFG-MSGOUT-UBX_NAV_DOP_USB" 0x2091003b "U1" (ScInt 1) EmptyString
    "Output rate of the UBX-NAV-DOP message on port USB";
  mk_cfg "CFG-MSGOUT-UBX_NAV_EOE_I2C" 0x2091015f "U1" (ScInt 1) EmptyString
    "Output rate of the UBX-NAV-EOE message on port I2C";
  mk_cfg "CFG-MSGOUT-UBX_NAV_EOE_SPI" 0x20910163 "U1" (ScInt 1) EmptyString
    "Output rate of the UBX-NAV-EOE message on port SPI";
  mk_cfg "CFG-MSGOUT-UBX_NAV_EOE_UART1" 0x20910160 "U1" (ScInt 1) EmptyString
    "Output rate of the UBX-NAV-EOE message on port UART1";
  mk_cfg "CFG-MSGOUT-UBX_NAV_EOE_UART2" 0x20910161 "U1" (ScInt 1) EmptyString
    "Output rate of the UBX-NAV-EOE message on port UART2";
  mk_cfg "CFG-MSGOUT-UBX_NAV_EOE_USB" 0x20910162 "U1" (ScInt 1) EmptyString
    "Output rate of the UBX-NAV-EOE message on port USB";
  mk_cfg "CFG-MSGOUT-UBX_NAV_GEOFENCE_I2C" 0x209100a1 "U1" (ScInt 1) EmptyString
    "Output rate of the UBX-NAV-GEOFENCE message on port I2C";
  mk_cfg "CFG-MSGOUT-UBX_NAV_GEOFENCE_SPI" 0x209100a5 "U1" (ScInt 1) EmptyString
    "Output rate of the UBX-NAV-GEOFENCE message on port SPI";
  mk_cfg "CFG-MSGOUT-UBX_NAV_GEOFENCE_UART1" 0x209100a2 "U1" (ScInt 1) EmptyString
    "Output rate of the UBX-NAV-GEOFENCE message on port UART1";
  mk_cfg "CFG-MSGOUT-UBX_NAV_GEOFENCE_UART2" 0x209100a3 "U1" (ScInt 1) EmptyString
    "Output rate of the UBX-NAV-GEOFENCE message on port UART2";
  mk_cfg "CFG-MSGOUT-UBX_NAV_GEOFENCE_USB" 0x209100a4 "U1" (ScInt 1) EmptyString
    "Output rate of the UBX-NAV- GEOFENCE message on port USB";
  mk_cfg "CFG-MSGOUT-UBX_NAV_HPPOSECEF_I2C" 0x2091002e "U1" (ScInt 1) EmptyString
    "Output rate of the UBX-NAV-HPPOSECEF message on port I2C";
  mk_cfg "CFG-MSGOUT-UBX_NAV_HPPOSECEF_SPI" 0x20910032 "U1" (ScInt 1) EmptyString
    "Output rate of the UBX-NAV-HPPOSECEF message on port SPI";
  mk_cfg "CFG-MSGOUT-UBX_NAV_HPPOSECEF_UART1" 0x2091002f "U1" (ScInt 1) EmptyString
    "Output rate of the UBX-NAV-HPPOSECEF message on port UART1";
  mk_cfg "CFG-MSGOUT-UBX_NAV_HPPOSECEF_UART2" 0x20910030 "U1" (ScInt 1) EmptyString
    "Output rate of the UBX-NAV-HPPOSECEF message on port UART2";
  mk_cfg "CFG-MSGOUT-UBX_NAV_HPPOSECEF_USB" 0x20910031 "U1" (ScInt 1) EmptyString
    "Output rate of the UBX-NAV-HPPOSECEF message on port USB";
  mk_cfg "CFG-MSGOUT-UBX_NAV_HPPOSLLH_I2C" 0x20910033 "U1" (ScInt 1) EmptyString
    "Output rate of the UBX-NAV-HPPOSLLH message on port I2C";
  mk_cfg "CFG-MSGOUT-UBX_NAV_HPPOSLLH_SPI" 0x20910037 "U1" (ScInt 1) EmptyString
    "Output rate of the UBX-NAV-HPPOSLLH message on port SPI";
  mk_cfg "CFG-MSGOUT-UBX_NAV_HPPOSLLH_UART1" 0x20910034 "U1" (ScInt 1) EmptyString
    "Output rate of the UBX-NAV-HPPOSLLH message on port UART1";
  mk_cfg "CFG-MSGOUT-UBX_NAV_HPPOSLLH_UART2" 0x20910035 "U1" (ScInt 1) EmptyString
    "Output rate of the UBX-NAV-HPPOSLLH message on port UART2";
  mk_cfg "CFG-MSGOUT-UBX_NAV_HPPOSLLH_USB" 0x20910036 "U1" (ScInt 1) EmptyString
    "Output rate of the UBX-NAV-HPPOSLLH message on port USB";
  mk_cfg "CFG-MSGOUT-UBX_NAV_ODO_I2C" 0x2091007e "U1" (ScInt 1) EmptyString
    "Output rate of the UBX-NAV-ODO message on port I2C";
  mk_cfg "CFG-MSGOUT-UBX_NAV_ODO_SPI" 0x20910082 "U1" (ScInt 1) EmptyString
    "Output rate of the UBX-NAV-ODO message on port SPI";
  mk_cfg "CFG-MSGOUT-UBX_NAV_ODO_UART1" 0x2091007f "U1" (ScInt 1) EmptyString
    "Output rate of the UBX-NAV-ODO message on port UART1";
  mk_cfg "CFG-MSGOUT-UBX_NAV_ODO_UART2" 0x20910080 "U1" (ScInt 1) EmptyString
    "Output rate of the UBX-NAV-ODO message on port UART2";
  mk_cfg "CFG-MSGOUT-UBX_NAV_ODO_USB" 0x20910081 "U1" (ScInt 1) EmptyString
    "Output rate of the UBX-NAV-ODO message on port USB";
  mk_cfg "CFG-MSGOUT-UBX_NAV_ORB_I2C" 0x20910010 "U1" (ScInt 1) EmptyString
    "Output rate of the UBX-NAV-ORB message on port I2C";
  mk_cfg "CFG-MSGOUT-UBX_NAV_ORB_SPI" 0x20910014 "U1" (ScInt 1) EmptyString
    "Output rate of the UBX-NAV-ORB message on port SPI";
  mk_cfg "CFG-MSGOUT-UBX_NAV_ORB_UART1" 0x20910011 "U1" (ScInt 1) EmptyString
    "Output rate of the UBX-NAV-ORB message on port UART1";
  mk_cfg "CFG-MSGOUT-UBX_NAV_ORB_UART2" 0x20910012 "U1" (ScInt 1) EmptyString
    "Output rate of the UBX-NAV-ORB message on port UART2";
  mk_cfg "CFG-MSGOUT-UBX_NAV_ORB_USB" 0x20910013 "U1" (ScInt 1) EmptyString
    "Output rate of the UBX-NAV-ORB message on port USB";
  mk_cfg "CFG-MSGOUT-UBX_NAV_POSECEF_I2C" 0x20910024 "U1" (ScInt 1) EmptyString
    "Output rate of the UBX-NAV-POSECEF message on port I2C";
  mk_cfg "CFG-MSGOUT-UBX_NAV_POSECEF_SPI" 0x20910028 "U1" (ScInt 1) EmptyString
    "Output rate of the UBX-NAV-POSECEF message on port SPI";
  mk_cfg "CFG-MSGOUT-UBX_NAV_POSECEF_UART1" 0x20910025 "U1" (ScInt 1) EmptyString
    "Output rate of the UBX-NAV-POSECEF message on port UART1";
  mk_cfg "CFG-MSGOUT-UBX_NAV_POSECEF_UART2" 0x20910026 "U1" (ScInt 1) EmptyString
    "Output rate of the UBX-NAV-POSECEF message on port UART2";
  mk_cfg "CFG-MSGOUT-UBX_NAV_POSECEF_USB" 0x20910027 "U1" (ScInt 1) EmptyString
    "Output rate of the UBX-NAV-POSECEF message on port USB";
  mk_cfg "CFG-MSGOUT-UBX_NAV_POSLLH_I2C" 0x20910029 "U1" (ScInt 1) EmptyString
    "Output rate of the UBX-NAV-POSLLH message on port I2C";
  mk_cfg "CFG-MSGOUT-UBX_NAV_POSLLH_SPI" 0x2091002d "U1" (ScInt 1) EmptyString
    "Output rate of the UBX-NAV-POSLLH message on port SPI";
  mk_cfg "CFG-MSGOUT-UBX_NAV_POSLLH_UART1" 0x2091002a "U1" (ScInt 1) EmptyString
    "Output rate of the UBX-NAV-POSLLH message on port UART1";
  mk_cfg "CFG-MSGOUT-UBX_NAV_POSLLH_UART2" 0x2091002b "U1" (ScInt 1) EmptyString
    "Output rate of the UBX-NAV-POSLLH message on port UART2";
  mk_cfg "CFG-MSGOUT-UBX_NAV_POSLLH_USB" 0x2091002c "U1" (ScInt 1) EmptyString
    "Output rate of the UBX-NAV-POSLLH message on port USB";
  mk_cfg "CFG-MSGOUT-UBX_NAV_PVT_I2C" 0x20910006 "U1" (ScInt 1) EmptyString
    "Output rate of the UBX-NAV-PVT message on port I2C";
  mk_cfg "CFG-MSGOUT-UBX_NAV_PVT_SPI" 0x2091000a "U1" (ScInt 1) EmptyString
    "Output rate of the UBX-NAV-PVT message on port SPI";
  mk_cfg "CFG-MSGOUT-UBX_NAV_PVT_UART1" 0x20910007 "U1" (ScInt 1) EmptyString
    "Output rate of the UBX-NAV-PVT message on port UART1";
  mk_cfg "CFG-MSGOUT-UBX_NAV_PVT_UART2" 0x20910008 "U1" (ScInt 1) EmptyString
    "Output rate of the UBX-NAV-PVT message on port UART2";
  mk_cfg "CFG-MSGOUT-UBX_NAV_PVT_USB" 0x20910009 "U1" (ScInt 1) EmptyString
    "Output rate of the UBX-NAV-PVT message on port USB";
  mk_cfg "CFG-MSGOUT-UBX_NAV_RELPOSNED_I2C" 0x2091008d "U1" (ScInt 1) EmptyString
    "Output rate of the UBX-NAV-RELPOSNED message on port I2C";
  mk_cfg "CFG-MSGOUT-UBX_NAV_RELPOSNED_SPI" 0x20910091 "U1" (ScInt 1) EmptyString
    "Output rate of the UBX-NAV-RELPOSNED message on port SPI";
  mk_cfg "CFG-MSGOUT-UBX_NAV_RELPOSNED_UART1" 0x2091008e "U1" (ScInt 1) EmptyString
    "Output rate of the UBX-NAV-RELPOSNED message on port UART1";
  mk_cfg "CFG-MSGOUT-UBX_NAV_RELPOSNED_UART2" 0x2091008f "U1" (ScInt 1) EmptyString
    "Output rate of the UBX-NAV-RELPOSNED message on port UART2";
  mk_cfg "CFG-MSGOUT-UBX_NAV_RELPOSNED_USB" 0x20910090 "U1" (ScInt 1) EmptyString
    "Output rate of the UBX-NAV-RELPOSNED message on port USB";
  mk_cfg "CFG-MSGOUT-UBX_NAV_SAT_I2C" 0x20910015 "U1" (ScInt 1) EmptyString
    "Output rate of the UBX-NAV-SAT message on port I2C";
  mk_cfg "CFG-MSGOUT-UBX_NAV_SAT_SPI" 0x20910019 "U1" (ScInt 1) EmptyString
    "Output rate of the UBX-NAV-SAT message on port SPI";
  mk_cfg "CFG-MSGOUT-UBX_NAV_SAT_UART1" 0x20910016 "U1" (ScInt 1) EmptyString
    "Output rate of the UBX-NAV-SAT message on port UART1";
  mk_cfg "CFG-MSGOUT-UBX_NAV_SAT_UART2" 0x20910017 "U1" (ScInt 1) EmptyString
    "Output rate of the UBX-NAV-SAT message on port UART2";
  mk_cfg "CFG-MSGOUT-UBX_NAV_SAT_USB" 0x20910018 "U1" (ScInt 1) EmptyString
    "Output rate of the UBX-NAV-SAT message on port USB";
  mk_cfg "CFG-MSGOUT-UBX_NAV_SBAS_I2C" 0x2091006a "U1" (ScInt 1) EmptyString
    "Output rate of the UBX-NAV-SBAS message on port I2C";
  mk_cfg "CFG-MSGOUT-UBX_NAV_SBAS_SPI" 0x2091006e "U1" (ScInt 1) EmptyString
    "Output rate of the UBX-NAV-SBAS message on port SPI";
  mk_cfg "CFG-MSGOUT-UBX_NAV_SBAS_UART1" 0x2091006b "U1" (ScInt 1) EmptyString
    "Output rate of the UBX-NAV-SBAS message on port UART1";
  mk_cfg "CFG-MSGOUT-UBX_NAV_SBAS_UART2" 0x2091006c "U1" (ScInt 1) EmptyString
    "Output rate of the UBX-NAV-SBAS message on port UART2";
  mk_cfg "CFG-MSGOUT-UBX_NAV_SBAS_USB" 0x2091006d "U1" (ScInt 1) EmptyString
    "Output rate of the UBX-NAV-SBAS message on port USB";
  mk_cfg "CFG-MSGOUT-UBX_NAV_SIG_I2C" 0x20910345 "U1" (ScInt 1) EmptyString
    "Output rate of the UBX-NAV-SIG message on port I2C";
  mk_cfg "CFG-MSGOUT-UBX_NAV_SIG_SPI" 0x20910349 "U1" (ScInt 1) EmptyString
    "Output rate of the UBX-NAV-SIG message on port SPI";
  mk_cfg "CFG-MSGOUT-UBX_NAV_SIG_UART1" 0x20910346 "U1" (ScInt 1) EmptyString
    "Output rate of the UBX-NAV-SIG message on port UART1";
  mk_cfg "CFG-MSGOUT-UBX_NAV_SIG_UART2" 0x20910347 "U1" (ScInt 1) EmptyString
    "Output rate of the UBX-NAV-SIG message on port UART2";
  mk_cfg "CFG-MSGOUT-UBX_NAV_SIG_USB" 0x20910348 "U1" (ScInt 1) EmptyString
    "Output rate of the UBX-NAV-SIG message on port USB";
  mk_cfg "CFG-MSGOUT-UBX_NAV_STATUS_I2C" 0x2091001a "U1" (ScInt 1) EmptyString
    "Output rate of the UBX-NAV-STATUS message on port I2C";
  mk_cfg "CFG-MSGOUT-UBX_NAV_STATUS_SPI" 0x2091001e "U1" (ScInt 1) EmptyString
    "Output rate of the UBX-NAV-STATUS message on port SPI";
  mk_cfg "CFG-MSGOUT-UBX_NAV_STATUS_UART1" 0x2091001b "U1" (ScInt 1) EmptyString
    "Output rate of the UBX-NAV-STATUS message on port UART1";
  mk_cfg "CFG-MSGOUT-UBX_NAV_STATUS_UART2" 0x2091001c "U1" (ScInt 1) EmptyString
    "Output rate of the UBX-NAV-STATUS message on port UART2";
  mk_cfg "CFG-MSGOUT-UBX_NAV_STATUS_USB" 0x2091001d "U1" (ScInt 1) EmptyString
    "Output rate of the UBX-NAV-STATUS message on port USB";
  mk_cfg "CFG-MSGOUT-UBX_NAV_SVIN_I2C" 0x20910088 "U1" (ScInt 1) EmptyString
    "Output rate of the UBX-NAV-SVIN message on port I2C";
  mk_cfg "CFG-MSGOUT-UBX_NAV_SVIN_SPI" 0x2091008c "U1" (ScInt 1) EmptyString
    "Output rate of the UBX-NAV-SVIN message on port SPI";
  mk_cfg "CFG-MSGOUT-UBX_NAV_SVIN_UART1" 0x20910089 "U1" (ScInt 1) EmptyString
    "Output rate of the UBX-NAV-SVIN message on port UART1";
  mk_cfg "CFG-MSGOUT-UBX_NAV_SVIN_UART2" 0x2091008a "U1" (ScInt 1) EmptyString
    "Output rate of the UBX-NAV-SVIN message on port UART2";
  mk_cfg "CFG-MSGOUT-UBX_NAV_SVIN_USB" 0x2091008b "U1" (ScInt 1) EmptyString
    "Output rate of the UBX-NAV-SVIN message on port USB";
  mk_cfg "CFG-MSGOUT-UBX_NAV_TIMEBDS_I2C" 0x20910051 "U1" (ScInt 1) EmptyString
    "Output rate of the UBX-NAV-TIMEBDS message on port I2C";
  mk_cfg "CFG-MSGOUT-UBX_NAV_TIMEBDS_SPI" 0x20910055 "U1" (ScInt 1) EmptyString
    "Output rate of the UBX-NAV-TIMEBDS message on port SPI";
  mk_cfg "CFG-MSGOUT-UBX_NAV_TIMEBDS_UART1" 0x20910052 "U1" (ScInt 1) EmptyString
    "Output rate of the UBX-NAV-TIMEBDS message on port UART1";
  mk_cfg "CFG-MSGOUT-UBX_NAV_TIMEBDS_UART2" 0x20910053 "U1" (ScInt 1) EmptyString
    "Output rate of the UBX-NAV-TIMEBDS message on port UART2";
  mk_cfg "CFG-MSGOUT-UBX_NAV_TIMEBDS_USB" 0x20910054 "U1" (ScInt 1) EmptyString
    "Output rate of the UBX-NAV-TIMEBDS message on port USB";
  mk_cfg "CFG-MSGOUT-UBX_NAV_TIMEGAL_I2C" 0x20910056 "U1" (ScInt 1) EmptyString
    "Output rate of the UBX-NAV-TIMEGAL message on port I2C";
  mk_cfg "CFG-MSGOUT-UBX_NAV_TIMEGAL_SPI" 0x2091005a "U1" (ScInt 1) EmptyString
    "Output rate of the UBX-NAV-TIMEGAL message on port SPI";
  mk_cfg "CFG-MSGOUT-UBX_NAV_TIMEGAL_UART1" 0x20910057 "U1" (ScInt 1) EmptyString
    "Output rate of the UBX-NAV-TIMEGAL message on port UART1";
  mk_cfg "CFG-MSGOUT-UBX_NAV_TIMEGAL_UART2" 0x20910058 "U1" (ScInt 1) EmptyString
    "Output rate of the UBX-NAV-TIMEGAL message on port UART2";
  mk_cfg "CFG-MSGOUT-UBX_NAV_TIMEGAL_USB" 0x20910059 "U1" (ScInt 1) EmptyString
    "Output rate of the UBX-NAV-TIMEGAL message on port USB";
  mk_cfg "CFG-MSGOUT-UBX_NAV_TIMEGLO_I2C" 0x2091004c "U1" (ScInt 1) EmptyString
    "Output rate of the UBX-NAV-TIMEGLO message on port I2C";
  mk_cfg "CFG-MSGOUT-UBX_NAV_TIMEGLO_SPI" 0x20910050 "U1" (ScInt 1) EmptyString
    "Output rate of the UBX-NAV-TIMEGLO message on port SPI";
  mk_cfg "CFG-MSGOUT-UBX_NAV_TIMEGLO_UART1" 0x2091004d "U1" (ScInt 1) EmptyString
    "Output rate of the UBX-NAV-TIMEGLO message on port UART1";
  mk_cfg "CFG-MSGOUT-UBX_NAV_TIMEGLO_UART2" 0x2091004e "U1" (ScInt 1) EmptyString
    "Output rate of the UBX-NAV-TIMEGLO message on port UART2";
  mk_cfg "CFG-MSGOUT-UBX_NAV_TIMEGLO_USB" 0x2091004f "U1" (ScInt 1) EmptyString
    "Output rate of the UBX-NAV-TIMEGLO message on port USB";
  mk_cfg "CFG-MSGOUT-UBX_NAV_TIMEGPS_I2C" 0x20910047 "U1" (ScInt 1) EmptyString
    "Output rate of the UBX-NAV-TIMEGPS message on port I2C";
  mk_cfg "CFG-MSGOUT-UBX_NAV_TIMEGPS_SPI" 0x2091004b "U1" (ScInt 1) EmptyString
    "Output rate of the UBX-NAV-TIMEGPS message on port SPI";
  mk_cfg "CFG-MSGOUT-UBX_NAV_TIMEGPS_UART1" 0x20910048 "U1" (ScInt 1) EmptyString
    "Output rate of the UBX-NAV-TIMEGPS message on port UART1";
  mk_cfg "CFG-MSGOUT-UBX_NAV_TIMEGPS_UART2" 0x20910049 "U1" (ScInt 1) EmptyString
    "Output rate of the UBX-NAV-TIMEGPS message on port UART2";
  mk_cfg "CFG-MSGOUT-UBX_NAV_TIMEGPS_USB" 0x2091004a "U1" (ScInt 1) EmptyString
    "Output rate of the UBX-NAV-TIMEGPS message on port USB";
  mk_cfg "CFG-MSGOUT-UBX_NAV_TIMELS_I2C" 0x20910060 "U1" (ScInt 1) EmptyString
    "Output rate of the UBX-NAV-TIMELS message on port I2C";
  mk_cfg "CFG-MSGOUT-UBX_NAV_TIMELS_SPI" 0x20910064 "U1" (ScInt 1) EmptyString
    "Output rate of the UBX-NAV-TIMELS message on port SPI";
  mk_cfg "CFG-MSGOUT-UBX_NAV_TIMELS_UART1" 0x20910061 "U1" (ScInt 1) EmptyString
    "Output rate of the UBX-NAV-TIMELS message on port UART1";
  mk_cfg "CFG-MSGOUT-UBX_NAV_TIMELS_UART2" 0x20910062 "U1" (ScInt 1) EmptyString
    "Output rate of the UBX-NAV-TIMELS message on port UART2";
  mk_cfg "CFG-MSGOUT-UBX_NAV_TIMELS_USB" 0x20910063 "U1" (ScInt 1) EmptyString
    "Output rate of the UBX-NAV-TIMELS message on port USB";
  mk_cfg "CFG-MSGOUT-UBX_NAV_TIMEUTC_I2C" 0x2091005b "U1" (ScInt 1) EmptyString
    "Output rate of the UBX-NAV-TIMEUTC message on port I2C";
  mk_cfg "CFG-MSGOUT-UBX_NAV_TIMEUTC_SPI" 0x2091005f "U1" (ScInt 1) EmptyString
    "Output rate of the UBX-NAV-TIMEUTC message on port S";
  mk_cfg "CFG-MSGOUT-UBX_NAV_TIMEUTC_UART1" 0x2091005c "U1" (ScInt 1) EmptyString
    "Output rate of the UBX-NAV-TIMEUTC message on port UART1";
  mk_cfg "CFG-MSGOUT-UBX_NAV_TIMEUTC_UART2" 0x2091005d "U1" (ScInt 1) EmptyString
    "Output rate of the UBX-NAV-TIMEUTC message on port UART2";
  mk_cfg "CFG-MSGOUT-UBX_NAV_TIMEUTC_USB" 0x2091005e "U1" (ScInt 1) EmptyString
    "Output rate of the UBX-NAV- TIMEUTC message on port USB";
  mk_cfg "CFG-MSGOUT-UBX_NAV_VELECEF_I2C" 0x2091003d "U1" (ScInt 1) EmptyString
    "Output rate of the UBX-NAV-VELECEF message on port I2C";
  mk_cfg "CFG-MSGOUT-UBX_NAV_VELECEF_SPI" 0x20910041 "U1" (ScInt 1) EmptyString
    "Output rate of the UBX-NAV-VELECEF message on port SPI";
  mk_cfg "CFG-MSGOUT-UBX_NAV_VELECEF_UART1" 0x2091003e "U1" (ScInt 1) EmptyString
    "Output rate of the UBX-NAV-VELECEF message on port UART1";
  mk_cfg "CFG-MSGOUT-UBX_NAV_VELECEF_UART2" 0x2091003f "U1" (ScInt 1) EmptyString
    "Output rate of the UBX-NAV-VELECEF message on port UART2";
  mk_cfg "CFG-MSGOUT-UBX_NAV_VELECEF_USB" 0x20910040 "U1" (ScInt 1) EmptyString
    "Output rate of the UBX-NAV-VELECEF message on port USB";
  mk_cfg "CFG-MSGOUT-UBX_NAV_VELNED_I2C" 0x20910042 "U1" (ScInt 1) EmptyString
    "Output rate of the UBX-NAV-VELNED message on port I2C";
  mk_cfg "CFG-MSGOUT-UBX_NAV_VELNED_SPI" 0x20910046 "U1" (ScInt 1) EmptyString
    "Output rate of the UBX-NAV-VELNED message on port SPI";
  mk_cfg "CFG-MSGOUT-UBX_NAV_VELNED_UART1" 0x20910043 "U1" (ScInt 1) EmptyString
    "Output rate of the UBX-NAV-VELNED message on port UART1";
  mk_cfg "CFG-MSGOUT-UBX_NAV_VELNED_UART2" 0x20910044 "U1" (ScInt 1) EmptyString
    "Output rate of the UBX-NAV-VELNED message on port UART2";
  mk_cfg "CFG-MSGOUT-UBX_NAV_VELNED_USB" 0x20910045 "U1" (ScInt 1) EmptyString
    "Output rate of the UBX-NAV-VELNED message on port USB";
  mk_cfg "CFG-MSGOUT-UBX_RXM_MEASX_I2C" 0x20910204 "U1" (ScInt 1) EmptyString
    "Output rate of the UBX-RXM-MEASX message on port I2C";
  mk_cfg "CFG-MSGOUT-UBX_RXM_MEASX_SPI" 0x20910208 "U1" (ScInt 1) EmptyString
    "Output rate of the UBX-RXM-MEASX message on port SPI";
  mk_cfg "CFG-MSGOUT-UBX_RXM_MEASX_UART1" 0x20910205 "U1" (ScInt 1) EmptyString
    "Output rate of the UBX-RXM-MEASX message on port UART1";
  mk_cfg "CFG-MSGOUT-UBX_RXM_MEASX_UART2" 0x20910206 "U1" (ScInt 1) EmptyString
    "Output rate of the UBX-RXM-MEASX message on port UART2";
  mk_cfg "CFG-MSGOUT-UBX_RXM_MEASX_USB" 0x20910207 "U1" (ScInt 1) EmptyString
    "Output rate of the UBX-RXM-MEASX message on port USB";
  mk_cfg "CFG-MSGOUT-UBX_RXM_RAWX_I2C" 0x209102a4 "U1" (ScInt 1) EmptyString
    "Output rate of the UBX-RXM-RAWX message on port I2C";
  mk_cfg "CFG-MSGOUT-UBX_RXM_RAWX_SPI" 0x209102a8 "U1" (ScInt 1) EmptyString
    "Output rate of the UBX-RXM-RAWX message on port SPI";
  mk_cfg "CFG-MSGOUT-UBX_RXM_RAWX_UART1" 0x209102a5 "U1" (ScInt 1) EmptyString
    "Output rate of the UBX-RXM-RAWX message on port UART1";
  mk_cfg "CFG-MSGOUT-UBX_RXM_RAWX_UART2" 0x209102a6 "U1" (ScInt 1) EmptyString
    "Output rate of the UBX-RXM-RAWX message on port UART2";
  mk_cfg "CFG-MSGOUT-UBX_RXM_RAWX_USB" 0x209102a7 "U1" (ScInt 1) EmptyString
    "Output rate of the UBX-RXM-RAWX message on port USB";
  mk_cfg "CFG-MSGOUT-UBX_RXM_RLM_I2C" 0x2091025e "U1" (ScInt 1) EmptyString
    "Output rate of the UBX-RXM-RLM message on port I2C";
  mk_cfg "CFG-MSGOUT-UBX_RXM_RLM_SPI" 0x20910262 "U1" (ScInt 1) EmptyString
    "Output rate of the UBX-RXM-RLM message on port SPI";
  mk_cfg "CFG-MSGOUT-UBX_RXM_RLM_UART1" 0x2091025f "U1" (ScInt 1) EmptyString
    "Output rate of the UBX-RXM-RLM message on port UART1";
  mk_cfg "CFG-MSGOUT-UBX_RXM_RLM_UART2" 0x20910260 "U1" (ScInt 1) EmptyString
    "Output rate of the UBX-RXM-RLM message on port UART2";
  mk_cfg "CFG-MSGOUT-UBX_RXM_RLM_USB" 0x20910261 "U1" (ScInt 1) EmptyString
    "Output rate of the UBX-RXM-RLM message on port USB";
  mk_cfg "CFG-MSGOUT-UBX_RXM_RTCM_I2C" 0x20910268 "U1" (ScInt 1) EmptyString
    "Output rate of the UBX-RXM-RTCM message on port I2C";
  mk_cfg "CFG-MSGOUT-UBX_RXM_RTCM_SPI" 0x2091026c "U1" (ScInt 1) EmptyString
    "Output rate of the UBX-RXM-RTCM message on port SPI";
  mk_cfg "CFG-MSGOUT-UBX_RXM_RTCM_UART1" 0x20910269 "U1" (ScInt 1) EmptyString
    "Output rate of the UBX-RXM-RTCM message on port UART1";
  mk_cfg "CFG-MSGOUT-UBX_RXM_RTCM_UART2" 0x2091026a "U1" (ScInt 1) EmptyString
    "Output rate of the UBX-RXM-RTCM message on port UART2";
  mk_cfg "CFG-MSGOUT-UBX_RXM_RTCM_USB" 0x2091026b "U1" (ScInt 1) EmptyString
    "Output rate of the UBX-RXM-RTCM message on port USB";
  mk_cfg "CFG-MSGOUT-UBX_RXM_SFRBX_I2C" 0x20910231 "U1" (ScInt 1) EmptyString
    "Output rate of the UBX-RXM-SFRBX message on port I2C";
  mk_cfg "CFG-MSGOUT-UBX_RXM_SFRBX_SPI" 0x20910235 "U1" (ScInt 1) EmptyString
    "Output rate of the UBX-RXM-SFRBX message on port SPI";
  mk_cfg "CFG-MSGOUT-UBX_RXM_SFRBX_UART1" 0x20910232 "U1" (ScInt 1) EmptyString
    "Output rate of the UBX-RXM-SFRBX message on port UART1";
  mk_cfg "CFG-MSGOUT-UBX_RXM_SFRBX_UART2" 0x20910233 "U1" (ScInt 1) EmptyString
    "Output rate of the UBX-RXM-SFRBX message on port UART2";
  mk_cfg "CFG-MSGOUT-UBX_RXM_SFRBX_USB" 0x20910234 "U1" (ScInt 1) EmptyString
    "Output rate of the UBX-RXM-SFRBX message on port USB";
  mk_cfg "CFG-MSGOUT-UBX_TIM_SVIN_I2C" 0x20910097 "U1" (ScInt 1) EmptyString
    "Output rate of the UBX-TIM-SVIN message on port I2C";
  mk_cfg "CFG-MSGOUT-UBX_TIM_SVIN_SPI" 0x2091009b "U1" (ScInt 1) EmptyString
    "Output rate of the UBX-TIM-SVIN message on port SPI";
  mk_cfg "CFG-MSGOUT-UBX_TIM_SVIN_UART1" 0x20910098 "U1" (ScInt 1) EmptyString
    "Output rate of the UBX-TIM-SVIN message on port UART1";
  mk_cfg "CFG-MSGOUT-UBX_TIM_SVIN_UART2" 0x20910099 "U1" (ScInt 1) EmptyString
    "Output rate of the UBX-TIM-SVIN message on port UART2";
  mk_cfg "CFG-MSGOUT-UBX_TIM_SVIN_USB" 0x2091009a "U1" (ScInt 1) EmptyString
    "Output rate of the UBX-TIM-SVIN message on port USB";
  mk_cfg "CFG-MSGOUT-UBX_TIM_TM2_I2C" 0x20910178 "U1" (ScInt 1) EmptyString
    "Output rate of the UBX-TIM-TM2 message on port I2C";
  mk_cfg "CFG-MSGOUT-UBX_TIM_TM2_SPI" 0x2091017c "U1" (ScInt 1) EmptyString
    "Output rate of the UBX-TIM-TM2 message on port SPI";
  mk_cfg "CFG-MSGOUT-UBX_TIM_TM2_UART1" 0x20910179 "U1" (ScInt 1) EmptyString
    "Output rate of the UBX-TIM-TM2 message on port UART1";
  mk_cfg "CFG-MSGOUT-UBX_TIM_TM2_UART2" 0x2091017a "U1" (ScInt 1) EmptyString
    "Output rate of the UBX-TIM-TM2 message on port UART2";
  mk_cfg "CFG-MSGOUT-UBX_TIM_TM2_USB" 0x2091017b "U1" (ScInt 1) EmptyString
    "Output rate of the UBX-TIM-TM2 message on port USB";
  mk_cfg "CFG-MSGOUT-UBX_TIM_TP_I2C" 0x2091017d "U1" (ScInt 1) EmptyString
    "Output rate of the UBX-TIM-TP message on port I2C";
  mk_cfg "CFG-MSGOUT-UBX_TIM_TP_SPI" 0x20910181 "U1" (ScInt 1) EmptyString
    "Output rate of the UBX-TIM-TP message on port SPI";
  mk_cfg "CFG-MSGOUT-UBX_TIM_TP_UART1" 0x2091017e "U1" (ScInt 1) EmptyString
    "Output rate of the UBX-TIM-TP message on port UART1";
  mk_cfg "CFG-MSGOUT-UBX_TIM_TP_UART2" 0x2091017f "U1" (ScInt 1) EmptyString
    "Output rate of the UBX-TIM-TP message on port UART2";
  mk_cfg "CFG-MSGOUT-UBX_TIM_TP_USB" 0x20910180 "U1" (ScInt 1) EmptyString
    "Output rate of the UBX-TIM-TP message on port USB";
  mk_cfg "CFG-MSGOUT-UBX_TIM_VRFY_I2C" 0x20910092 "U1" (ScInt 1) EmptyString
    "Output rate of the UBX-TIM-VRFY message on port I2C";
  mk_cfg "CFG-MSGOUT-UBX_TIM_VRFY_SPI" 0x20910096 "U1" (ScInt 1) EmptyString
    "Output rate of the UBX-TIM-VRFY message on port SPI";
  mk_cfg "CFG-MSGOUT-UBX_TIM_VRFY_UART1" 0x20910093 "U1" (ScInt 1) EmptyString
    "Output rate of the UBX-TIM-VRFY message on port UART1";
  mk_cfg "CFG-MSGOUT-UBX_TIM_VRFY_UART2" 0x20910094 "U1" (ScInt 1) EmptyString
    "Output rate of the UBX-TIM-VRFY message on port UART2";
  mk_cfg "CFG-MSGOUT-UBX_TIM_VRFY_USB" 0x20910095 "U1" (ScInt 1) EmptyString
    "Output rate of the UBX-TIM-VRFY message on port USB";
  mk_cfg "CFG-NAVHPG-DGNSSMODE" 0x20140011 "E1" (ScInt 1) EmptyString
    "Differential corrections mode";
  mk_cfg "CFG-NAVSPG-FIXMODE" 0x20110011 "E1" (ScInt 1) EmptyString
    "Position fix mode";
  mk_cfg "CFG-NAVSPG-INIFIX3D" 0x10110013 "L" (ScInt 1) EmptyString
    "Initial fix must be a 3d fix";
  mk_cfg "CFG-NAVSPG-WKNROLLOVER" 0x30110017 "U2" (ScInt 1) EmptyString
    "GPS week rollover number";
  mk_cfg "CFG-NAVSPG-USE_PPP" 0x10110019 "L" (ScInt 1) EmptyString
    "Use Precise Point Positioning";
  mk_cfg "CFG-NAVSPG-UTCSTANDARD" 0x2011001c "E1" (ScInt 1) EmptyString
    "UTC standard to be used";
  mk_cfg "CFG-NAVSPG-DYNMODEL" 0x20110021 "E1" (ScInt 1) EmptyString
    "Dynamic platform model";
  mk_cfg "CFG-NAVSPG-ACKAIDING" 0x10110025 "L" (ScInt 1) EmptyString
    "Acknowledge assistance input messages";
  mk_cfg "CFG-NAVSPG-USE_USRDAT" 0x10110061 "L" (ScInt 1) EmptyString
    "Use user geodetic datum";
  mk_cfg "CFG-NAVSPG-USRDAT_MAJA" 0x50110062 "R8" (ScInt 1) "m"
    "Geodetic datum semi-major axis";
  mk_cfg "CFG-NAVSPG-USRDAT_FLAT" 0x50110063 "R8" (ScInt 1) EmptyString
    "Geodetic datum 1.0 / flattening";
  mk_cfg "CFG-NAVSPG-USRDAT_DX" 0x40110064 "R4" (ScInt 1) "m"
    "Geodetic datum X axis shift at the orgin";
  mk_cfg "CFG-NAVSPG-USRDAT_DY" 0x40110065 "R4" (ScInt 1) "m"
    "Geodetic datum Y axis shift at the origin";
  mk_cfg "CFG-NAVSPG-USRDAT_DZ" 0x40110066 "R4" (ScInt 1) "m"
    "Geodetic datum Z axis shift at the origin";
  mk_cfg "CFG-NAVSPG-USRDAT_ROTX" 0x40110067 "R4" (ScInt 1) "arcsec"
    "Geodetic datum rotation about the X axis";
  mk_cfg "CFG-NAVSPG-USRDAT_ROTY" 0x40110068 "R4" (ScInt 1) "arcsec"
    "Geodetic datum rotation about the Y axis ()";
  mk_cfg "CFG-NAVSPG-USRDAT_ROTZ" 0x40110069 "R4" (ScInt 1) "arcsec"
    "Geodetic datum rotation about the Z axis";
  mk_cfg "CFG-NAVSPG-USRDAT_SCALE" 0x4011006a "R4" (ScInt 1) "ppm"
    "Geodetic datum scale factor";
  mk_cfg "CFG-NAVSPG-INFIL_MINSVS" 0x201100a1 "U1" (ScInt 1) EmptyString
    "Minimum number of satellites for navigation";
  mk_cfg "CFG-NAVSPG-INFIL_MAXSVS" 0x201100a2 "U1" (ScInt 1) EmptyString
    "Maximum number of satellites for navigation";
  mk_cfg "CFG-NAVSPG-INFIL_MINCNO" 0x201100a3 "U1" (ScInt 1) "dBHz"
    "Minimum satellite signal level for navigation";
  mk_cfg "CFG-NAVSPG-INFIL_MINELEV" 0x201100a4 "I1" (ScInt 1) "deg"
    "Minimum elevation for a GNSS satellite to be used in navigation";
  mk_cfg "CFG-NAVSPG-INFIL_NCNOTHRS" 0x201100aa "U1" (ScInt 1) EmptyString
    "Number of satellites required to have C/N0 above CFG-NAVSPG-INFIL_CNOTHRS for a fix to be attempted";
  mk_cfg "CFG-NAVSPG-INFIL_CNOTHRS" 0x201100ab "U1" (ScInt 1) EmptyString
    "C/N0 threshold for deciding whether to attempt a fix";
  mk_cfg "CFG-NAVSPG-OUTFIL_PDOP" 0x301100b1 "U2" (ScFloat "0.1") EmptyString
    "Output filter position DOP mask (threshold)";
  mk_cfg "CFG-NAVSPG-OUTFIL_TDOP" 0x301100b2 "U2" (ScFloat "0.11") EmptyString
    "Output filter time DOP mask (threshold)";
  mk_cfg "CFG-NAVSPG-OUTFIL_PACC" 0x301100b3 "U2" (ScInt 1) "m"
    "Output filter position accuracy mask (threshold)";
  mk_cfg "CFG-NAVSPG-OUTFIL_TACC" 0x301100b4 "U2" (ScInt 1) "m"
    "Output filter time accuracy mask (threshold)";
  mk_cfg "CFG-NAVSPG-OUTFIL_FACC" 0x301100b5 "U2" (ScFloat "0.01") "m/s"
    "Output filter frequency accuracy mask (threshold)";
  mk_cfg "CFG-NAVSPG-CONSTR_ALT" 0x401100c1 "I4" (ScFloat "0.01") "m"
    "Fixed altitude (mean sea level) for 2D fix mode";
  mk_cfg "CFG-NAVSPG-CONSTR_ALTVAR" 0x401100c2 "U4" (ScFloat "0.0001") "M^2"
    "Fixed altitude variance for 2D mode";
  mk_cfg "CFG-NAVSPG-CONSTR_DGNSSTO" 0x201100c4 "U1" (ScInt 1) "s"
    "DGNSS timeout";
  mk_cfg "CFG-NMEA-PROTVER" 0x20930001 "E1" (ScInt 1) EmptyString
    "NMEA protocol version";
  mk_cfg "CFG-NMEA-MAXSVS" 0x20930002 "E1" (ScInt 1) EmptyString
    "Maximum number of SVs to report per Talker ID";
  mk_cfg "CFG-NMEA-COMPAT" 0x10930003 "L" (ScInt 1) EmptyString
    "Enable compatibility mode";
  mk_cfg "CFG-NMEA-CONSIDER" 0x10930004 "L" (ScInt 1) EmptyString
    "Enable considering mode";
  mk_cfg "CFG-NMEA-LIMIT82" 0x10930005 "L" (ScInt 1) EmptyString
    "Enable strict limit to 82 characters maximum NMEA message length";
  mk_cfg "CFG-NMEA-HIGHPREC" 0x10930006 "L" (ScInt 1) EmptyString
    "Enable high precision mode";
  mk_cfg "CFG-NMEA-SVNUMBERING" 0x20930007 "E1" (ScInt 1) EmptyString
    "Display configuration for SVs that have no value defined in NMEA";
  mk_cfg "CFG-NMEA-FILT_GPS" 0x10930011 "L" (ScInt 1) EmptyString
    "Disable reporting of GPS satellites";
  mk_cfg "CFG-NMEA-FILT_SBAS" 0x10930012 "L" (ScInt 1) EmptyString
    "Disable reporting of SBAS satellites";
  mk_cfg "CFG-NMEA-FILT_QZSS" 0x10930015 "L" (ScInt 1) EmptyString
    "Disable reporting of QZSS satellites";
  mk_cfg "CFG-NMEA-FILT_GLO" 0x10930016 "L" (ScInt 1) EmptyString
    "Disable reporting of GLONASS satellites";
  mk_cfg "CFG-NMEA-FILT_BDS" 0x10930017 "L" (ScInt 1) EmptyString
    "Disable reporting of BeiDou satellites";
  mk_cfg "CFG-NMEA-OUT_INVFIX" 0x10930021 "L" (ScInt 1) EmptyString
    "Enable position output for failed or invalid fixes";
  mk_cfg "CFG-NMEA-OUT_MSKFIX" 0x10930022 "L" (ScInt 1) EmptyString
    "Enable position output for invalid fixes";
  mk_cfg "CFG-NMEA-OUT_INVTIME" 0x10930023 "L" (ScInt 1) EmptyString
    "Enable time output for invalid times";
  mk_cfg "CFG-NMEA-OUT_INVDATE" 0x10930024 "L" (ScInt 1) EmptyString
    "Enable date output for invalid dates";
  mk_cfg "CFG-NMEA-OUT_ONLYGPS" 0x10930025 "L" (ScInt 1) EmptyString
    "Restrict output to GPS satellites only";
  mk_cfg "CFG-NMEA-OUT_FROZENCOG" 0x10930026 "L" (ScInt 1) EmptyString
    "Enable course over ground output even if it is frozen";
  mk_cfg "CFG-NMEA-MAINTALKERID" 0x20930031 "E1" (ScInt 1) EmptyString
    "Main Talker ID";
  mk_cfg "CFG-NMEA-GSVTALKERID" 0x20930032 "E1" (ScInt 1) EmptyString
    "Talker ID for GSV NMEA messages";
  mk_cfg "CFG-NMEA-BDSTALKERID" 0x30930033 "U2" (ScInt 1) EmptyString
    "BeiDou Talker ID";
  mk_cfg "CFG-ODO-USE_ODO" 0x10220001 "L" (ScInt 1) EmptyString
    "Use odometer";
  mk_cfg "CFG-ODO-USE_COG" 0x10220002 "L" (ScInt 1) EmptyString
    "Use low-speed course over ground filter";
  mk_cfg "CFG-ODO-OUTLPVEL" 0x10220003 "L" (ScInt 1) EmptyString
    "Output low-pass filtered velocity";
  mk_cfg "CFG-ODO-OUTLPCOG" 0x10220004 "L" (ScInt 1) EmptyString
    "Output low-pass filtered course over ground (heading)";
  mk_cfg "CFG-ODO-PROFILE" 0x20220005 "E1" (ScInt 1) EmptyString
    "Odometer profile configuration";
  mk_cfg "CFG-ODO-COGMAXSPEED" 0x20220021 "U1" (ScInt 1) "m/s"
    "Upper speed limit for low-speed course over ground filter";
  mk_cfg "CFG-ODO-COGMAXPOSACC" 0x20220022 "U1" (ScInt 1) EmptyString
    "Maximum acceptable position accuracy for computing low-speed  filtered course over ground";
  mk_cfg "CFG-ODO-COGLPGAIN" 0x20220032 EmptyString (ScInt 1) EmptyString
    "Course over ground low-pass filter level (at speed < 8 m/s)";
  mk_cfg "CFG-ODO-VELLPGAIN" 0x20220031 "U1" (ScInt 1) EmptyString
    "Velocity low-pass filter level";
  mk_cfg "CFG-RATE-MEAS" 0x30210001 "U2" (ScFloat "0.001") "s"
    "Nominal time between GNSS measurements";
  mk_cfg "CFG-RATE-NAV" 0x30210002 "U2" (ScInt 1) EmptyString
    "Ratio of number of measurements to number of navigation solutions";
  mk_cfg "CFG-RATE-TIMEREF" 0x20210003 "E1" (ScInt 1) EmptyString
    "Time system to which measurements are aligned";
  mk_cfg "CFG-RINV-DUMP" 0x10c70001 "L" (ScInt 1) EmptyString
    "Dump data at startup";
  mk_cfg "CFG-RINV-BINARY" 0x10c70002 "L" (ScInt 1) EmptyString
    "Data is binary";
  mk_cfg "CFG-RINV-DATA_SIZE" 0x20c70003 "U1" (ScInt 1) EmptyString
    "Size of data";
  mk_cfg "CFG-RINV-CHUNK0" 0x50c70004 "X8" (ScInt 1) EmptyString
    "Data bytes 1-8 (LSB)";
  mk_cfg "CFG-RINV-CHUNK1" 0x50c70005 "X8" (ScInt 1) EmptyString
    "Data bytes 9-16";
  mk_cfg "CFG-RINV-CHUNK2" 0x50c70006 "X8" (ScInt 1) EmptyString
    "Data bytes 17-24";
  mk_cfg "CFG-RINV-CHUNK3" 0x50c70007 "X8" (ScInt 1) EmptyString
    "Data bytes 25-30 (MSB)";
  mk_cfg "CFG-SBAS-USE_TESTMODE" 0x10360002 "L" (ScInt 1) EmptyString
    "Use SBAS data when it is in test mode";
  mk_cfg "CFG-SBAS-USE_RANGING" 0x10360003 "L" (ScInt 1) EmptyString
    "Use SBAS GEOs as a ranging source (for navigation)";
  mk_cfg "CFG-SBAS-USE_DIFFCORR" 0x10360004 "L" (ScInt 1) EmptyString
    "Use SBAS differential corrections";
  mk_cfg "CFG-SBAS-USE_INTEGRITY" 0x10360005 "L" (ScInt 1) EmptyString
    "Use SBAS integrity information";
  mk_cfg "CFG-SBAS-PRNSCANMASK" 0x50360006 "X8" (ScInt 1) EmptyString
    "SBAS PRN search configuration";
  mk_cfg "CFG-SIGNAL-GPS_ENA" 0x1031001f "L" (ScInt 1) EmptyString
    "GPS enable";
  mk_cfg "CFG-SIGNAL-GPS_L1CA_ENA" 0x10310001 "L" (ScInt 1) EmptyString
    "GPS L1C/A";
  mk_cfg "CFG-SIGNAL-GPS_L2C_ENA" 0x10310003 "L" (ScInt 1) EmptyString
    "GPS L2C";
  mk_cfg "CFG-SIGNAL-SBAS_ENA" 0x10310020 "L" (ScInt 1) EmptyString
    "SBAS enable";
  mk_cfg "CFG-SIGNAL-SBAS_L1CA_ENA" 0x10310005 "L" (ScInt 1) EmptyString
    "SBAS L1C/A";
  mk_cfg "CFG-SIGNAL-GAL_ENA" 0x10310021 "L" (ScInt 1) EmptyString
    "Galileo enable";
  mk_cfg "CFG-SIGNAL-GAL_E1_ENA" 0x10310007 "L" (ScInt 1) EmptyString
    "Galileo E1";
  mk_cfg "CFG-SIGNAL-GAL_E5B_ENA" 0x1031000a "L" (ScInt 1) EmptyString
    "Galileo E5b";
  mk_cfg "CFG-SIGNAL-BDS_ENA" 0x10310022 "L" (ScInt 1) EmptyString
    "BeiDou Enable";
  mk_cfg "CFG-SIGNAL-BDS_B1_ENA" 0x1031000d "L" (ScInt 1) EmptyString
    "BeiDou B1I";
  mk_cfg "CFG-SIGNAL-BDS_B2_ENA" 0x1031000e "L" (ScInt 1) EmptyString
    "BeiDou B2I";
  mk_cfg "CFG-SIGNAL-QZSS_ENA" 0x10310024 "L" (ScInt 1) EmptyString
    "QZSS enable";
  mk_cfg "CFG-SIGNAL-QZSS_L1CA_ENA" 0x10310012 "L" (ScInt 1) EmptyString
    "QZSS L1C/A";
  mk_cfg "CFG-SIGNAL-QZSS_L1S_ENA" 0x10310014 "L" (ScInt 1) EmptyString
    "QZSS L1S";
  mk_cfg "CFG-SIGNAL-QZSS_L2C_ENA" 0x10310015 "L" (ScInt 1) EmptyString
    "QZSS L2C";
  mk_cfg "CFG-SIGNAL-GLO_ENA" 0x10310025 "L" (ScInt 1) EmptyString
    "GLONASS enable";
  mk_cfg "CFG-SIGNAL-GLO_L1_ENA" 0x10310018 "L" (ScInt 1) EmptyString
    "GLONASS L1";
  mk_cfg "CFG-SIGNAL-GLO_L2_ENA" 0x1031001a "L" (ScInt 1) EmptyString
    "GLONASS L2";
  mk_cfg "CFG-SPI-MAXFF" 0x20640001 "U1" (ScInt 1) EmptyString
    "Number of bytes containing 0xFF to receive before switching off reception.";
  mk_cfg "CFG-SPI-CPOLARITY" 0x10640002 "L" (ScInt 1) EmptyString
    "Clock polarity select";
  mk_cfg "CFG-SPI-CPHASE" 0x10640003 "L" (ScInt 1) EmptyString
    "Clock phase select";
  mk_cfg "CFG-SPI-EXTENDEDTIMEOUT" 0x10640005 "L" (ScInt 1) EmptyString
    "Flag to disable timeouting the interface after 1.5s";
  mk_cfg "CFG-SPI-ENABLED" 0x10640006 "L" (ScInt 1) EmptyString
    "Flag to indicate if the SPI interface should be enabled";
  mk_cfg "CFG-SPIINPROT-UBX" 0x10790001 "L" (ScInt 1) EmptyString
    "Flag to indicate if UBX should be an input protocol on SPI";
  mk_cfg "CFG-SPIINPROT-NMEA" 0x10790002 "L" (ScInt 1) EmptyString
    "Flag to indicate if NMEA should be an input protocol on SPI";
  mk_cfg "CFG-SPIINPROT-RTCM2X" 0x10790003 "L" (ScInt 1) EmptyString
    "Flag to indicate if RTCM2X should be an input protocol on SPI";
  mk_cfg "CFG-SPIINPROT-RTCM3X" 0x10790004 "L" (ScInt 1) EmptyString
    "Flag to indicate if RTCM3X should be an input protocol on SPI";
  mk_cfg "CFG-SPIOUTPROT-UBX" 0x107a0001 "L" (ScInt 1) EmptyString
    "Flag to indicate if UBX should be an output protocol on SPI";
  mk_cfg "CFG-SPIOUTPROT-NMEA" 0x107a0002 "L" (ScInt 1) EmptyString
    "Flag to indicate if NMEA should be an output protocol on SPI";
  mk_cfg "CFG-SPIOUTPROT-RTCM3X" 0x107a0004 "L" (ScInt 1) EmptyString
    "Flag to indicate if RTCM3X should be an output protocol on SPI";
  mk_cfg "CFG-TMODE-MODE" 0x20030001 "E1" (ScInt 1) EmptyString
    "Receiver mode";
  mk_cfg "CFG-TMODE-POS_TYPE" 0x20030002 "E1" (ScInt 1) EmptyString
    "Determines whether the ARP position is given in ECEF or LAT/LON/HEIGHT?";
  mk_cfg "CFG-TMODE-ECEF_X" 0x40030003 "I4" (ScInt 1) "cm"
    "ECEF X coordinate of the ARP position.";
  mk_cfg "CFG-TMODE-ECEF_Y" 0x40030004 "I4" (ScInt 1) "cm"
    "ECEF Y coordinate of the ARP position.";
  mk_cfg "CFG-TMODE-ECEF_Z" 0x40030005 "I4" (ScInt 1) "cm"
    "ECEF Z coordinate of the ARP position.";
  mk_cfg "CFG-TMODE-ECEF_X_HP" 0x20030006 "I1" (ScFloat "0.1") "mm"
    "High-precision ECEF X coordinate of the ARP position.";
  mk_cfg "CFG-TMODE-ECEF_Y_HP" 0x20030007 "I1" (ScFloat "0.1") "mm"
    "High-precision ECEF Y coordinate of the ARP position.";
  mk_cfg "CFG-TMODE-ECEF_Z_HP" 0x20030008 "I1" (ScFloat "0.1") "mm"
    "High-precision ECEF Z coordinate of the ARP position.";
  mk_cfg "CFG-TMODE-LAT" 0x40030009 "I4" (ScFloat "1e-7") "deg"
    "Latitude of the ARP position.";
  mk_cfg "CFG-TMODE-LON" 0x4003000a "I4" (ScFloat "1e-7") "deg"
    "Longitude of the ARP position.";
  mk_cfg "CFG-TMODE-HEIGHT" 0x4003000b "I4" (ScInt 1) "cm"
    "Height of the ARP position.";
  mk_cfg "CFG-TMODE-LAT_HP" 0x2003000c "I1" (ScFloat "1e-9") "deg"
    "High-precision latitude of the ARP position";
  mk_cfg "CFG-TMODE-LON_HP" 0x2003000d "I1" (ScFloat "1e-9") "deg"
    "High-precision longitude of the ARP position.";
  mk_cfg "CFG-TMODE-HEIGHT_HP" 0x2003000e "I1" (ScFloat "0.1") "mm"
    "High-precision height of the ARP position.";
  mk_cfg "CFG-TMODE-FIXED_POS_ACC" 0x4003000f "U4" (ScFloat "0.1") "mm"
    "Fixed position 3D accuracy";
  mk_cfg "CFG-TMODE-SVIN_MIN_DUR" 0x40030010 "U4" (ScInt 1) "s"
    "Survey-in minimum duration";
  mk_cfg "CFG-TMODE-SVIN_ACC_LIMIT" 0x40030011 "U4" (ScFloat "0.1") "mm"
    "Survey-in position accuracy limit";
  mk_cfg "CFG-TP-PULSE_DEF" 0x20050023 "E1" (ScInt 1) EmptyString
    "Determines whether the time pulse is interpreted as frequency or period?";
  mk_cfg "CFG-TP-PULSE_LENGTH_DEF" 0x20050030 "E1" (ScInt 1) EmptyString
    "Determines whether the time pulse length is interpreted as length[us] or pulse ratio[%]?";
  mk_cfg "CFG-TP-ANT_CABLEDELAY" 0x30050001 "I2" (ScFloat "0.000000001") "s"
    "Antenna cable delay";
  mk_cfg "CFG-TP-PERIOD_TP1" 0x40050002 "U4" (ScFloat "0.000001") "s"
    "Time pulse period (TP1)";
  mk_cfg "CFG-TP-PERIOD_LOCK_TP1" 0x40050003 "U4" (ScFloat "0.000001") "s"
    "Time pulse period when locked to GNSS time (TP1)";
  mk_cfg "CFG-TP-FREQ_TP1" 0x40050024 "U4" (ScInt 1) "Hz"
    "Time pulse frequency (TP1)";
  mk_cfg "CFG-TP-FREQ_LOCK_TP1" 0x40050025 "U4" (ScInt 1) "Hz"
    "Time pulse frequency when locked to GNSS time (TP1)";
  mk_cfg "CFG-TP-LEN_TP1" 0x40050004 "U4" (ScFloat "0.000001") "s"
    "Time pulse length (TP1)";
  mk_cfg "CFG-TP-LEN_LOCK_TP1" 0x40050005 "U4" (ScFloat "0.000001") "s"
    "Time pulse length when locked to GNSS time (TP1)";
  mk_cfg "CFG-TP-DUTY_TP1" 0x5005002a "R8" (ScInt 1) "%"
    "Time pulse duty cycle (TP1)";
  mk_cfg "CFG-TP-DUTY_LOCK_TP1" 0x5005002b "R8" (ScInt 1) "%"
    "Time pulse duty cycle when locked to GNSS time (TP1)";
  mk_cfg "CFG-TP-USER_DELAY_TP1" 0x40050006 "I4" (ScFloat "0.000000001") "s"
    "User configurable time pulse delay (TP1)";
  mk_cfg "CFG-TP-TP1_ENA" 0x10050007 "L" (ScInt 1) EmptyString
    "Enable the first timepulse";
  mk_cfg "CFG-TP-SYNC_GNSS_TP1" 0x10050008 "L" (ScInt 1) EmptyString
    "Sync time pulse to GNSS time or local clock (TP1)";
  mk_cfg "CFG-TP-USE_LOCKED_TP1" 0x10050009 "L" (ScInt 1) EmptyString
    "Use locked parameters when possible (TP1)";
  mk_cfg "CFG-TP-ALIGN_TO_TOW_TP1" 0x1005000a "L" (ScInt 1) EmptyString
    "Align time pulse to top of second (TP1)";
  mk_cfg "CFG-TP-POL_TP1" 0x1005000b "L" (ScInt 1) EmptyString
    "Set time pulse polarity (TP1)";
  mk_cfg "CFG-TP-TIMEGRID_TP1" 0x2005000c "E1" (ScInt 1) EmptyString
    "Time grid to use (TP1)";
  mk_cfg "CFG-TP-PERIOD_TP2" 0x4005000d "U4" (ScFloat "0.000001") "s"
    "Time pulse period (TP2)";
  mk_cfg "CFG-TP-PERIOD_LOCK_TP2" 0x4005000e "U4" (ScFloat "0.000001") "s"
    "Time pulse period when locked to GNSS time (TP2)";
  mk_cfg "CFG-TP-FREQ_TP2" 0x40050026 "U4" (ScInt 1) "Hz"
    "Time pulse frequency (TP2)";
  mk_cfg "CFG-TP-FREQ_LOCK_TP2" 0x40050027 "U4" (ScInt 1) "Hz"
    "Time pulse frequency when locked to GNSS time (TP2)";
  mk_cfg "CFG-TP-LEN_TP2" 0x4005000f "U4" (ScFloat "0.000001") "s"
    "Time pulse length (TP2)";
  mk_cfg "CFG-TP-LEN_LOCK_TP2" 0x40050010 "U4" (ScFloat "0.000001") "s"
    "Time pulse length when locked to GNSS time (TP2)";
  mk_cfg "CFG-TP-DUTY_TP2" 0x5005002c "R8" (ScInt 1) "%"
    "Time pulse duty cycle (TP2)";
  mk_cfg "CFG-TP-DUTY_LOCK_TP2" 0x5005002d "R8" (ScInt 1) "%"
    "Time pulse duty cycle when locked to GNSS time (TP2)";
  mk_cfg "CFG-TP-USER_DELAY_TP2" 0x40050011 "I4" (ScFloat "0.000000001") "s"
    "User configurable time pulse delay (TP2)";
  mk_cfg "CFG-TP-TP2_ENA" 0x10050012 "L" (ScInt 1) EmptyString
    "Enable the second timepulse";
  mk_cfg "CFG-TP-SYNC_GNSS_TP2" 0x10050013 "L" (ScInt 1) EmptyString
    "Sync time pulse to GNSS time or local clock (TP2)";
  mk_cfg "CFG-TP-USE_LOCKED_TP2" 0x10050014 "L" (ScInt 1) EmptyString
    "Use locked parameters when possible (TP2)";
  mk_cfg "CFG-TP-ALIGN_TO_TOW_TP2" 0x10050015 "L" (ScInt 1) EmptyString
    "Align time pulse to top of second (TP2)";
  mk_cfg "CFG-TP-POL_TP2" 0x10050016 "L" (ScInt 1) EmptyString
    "Set time pulse polarity (TP2)";
  mk_cfg "CFG-TP-TIMEGRID_TP2" 0x20050017 "E1" (ScInt 1) EmptyString
    "Time grid to use (TP2)";
  mk_cfg "CFG-UART1-BAUDRATE" 0x40520001 "U4" (ScInt 1) EmptyString
    "The baud rate that should be configured on the UART1";
  mk_cfg "CFG-UART1-STOPBITS" 0x20520002 "E1" (ScInt 1) EmptyString
    "Number of stopbits that should be used on UART1";
  mk_cfg "CFG-UART1-DATABITS" 0x20520003 "E1" (ScInt 1) EmptyString
    "Number of databits that should be used on UART1";
  mk_cfg "CFG-UART1-PARITY" 0x20520004 "E1" (ScInt 1) EmptyString
    "Parity mode that should be used on UART1";
  mk_cfg "CFG-UART1-ENABLED" 0x10520005 "L" (ScInt 1) EmptyString
    "Flag to indicate if the UART1 should be enabled";
  mk_cfg "CFG-UART1INPROT-UBX" 0x10730001 "L" (ScInt 1) EmptyString
    "Flag to indicate if UBX should be an input protocol on UART1";
  mk_cfg "CFG-UART1INPROT-NMEA" 0x10730002 "L" (ScInt 1) EmptyString
    "Flag to indicate if NMEA should be an input protocol on UART1";
  mk_cfg "CFG-UART1INPROT-RTCM2X" 0x10730003 "L" (ScInt 1) EmptyString
    "Flag to indicate if RTCM2X should be an input protocol on UART1";
  mk_cfg "CFG-UART1INPROT-RTCM3X" 0x10730004 "L" (ScInt 1) EmptyString
    "Flag to indicate if RTCM3X should be an input protocol on UART1";
  mk_cfg "CFG-UART1OUTPROT-UBX" 0x10740001 "L" (ScInt 1) EmptyString
    "Flag to indicate if UBX should be an output protocol on UART1";
  mk_cfg "CFG-UART1OUTPROT-NMEA" 0x10740002 "L" (ScInt 1) EmptyString
    "Flag to indicate if NMEA should be an output protocol on UART1";
  mk_cfg "CFG-UART1OUTPROT-RTCM3X" 0x10740004 "L" (ScInt 1) EmptyString
    "Flag to indicate if RTCM3X should be an output protocol on UART1";
  mk_cfg "CFG-UART2-BAUDRATE" 0x40530001 "U4" (ScInt 1) EmptyString
    "The baud rate that should be configured on the UART2";
  mk_cfg "CFG-UART2-STOPBITS" 0x20530002 "E1" (ScInt 1) EmptyString
    "Number of stopbits that should be used on UART2";
  mk_cfg "CFG-UART2-DATABITS" 0x20530003 "E1" (ScStr "1") EmptyString
    "Number of databits that should be used on UART2";
  mk_cfg "CFG-UART2-PARITY" 0x20530004 "E1" (ScStr "1") EmptyString
    "Parity mode that should be used on UART2";
  mk_cfg "CFG-UART2-ENABLED" 0x10530005 "L" (ScStr "1") EmptyString
    "Flag to indicate if the UART2 should be enabled";
  mk_cfg "CFG-UART2-REMAP" 0x10530006 "L" (ScStr "1") EmptyString
    "UART2 Remapping";
  mk_cfg "CFG-UART2INPROT-UBX" 0x10750001 "L" (ScInt 1) EmptyString
    "Flag to indicate if UBX should be an input protocol on UART2";
  mk_cfg "CFG-UART2INPROT-NMEA" 0x10750002 "L" (ScInt 1) EmptyString
    "Flag to indicate if NMEA should be an input protocol on UART2";
  mk_cfg "CFG-UART2INPROT-RTCM2X" 0x10750003 "L" (ScInt 1) EmptyString
    "Flag to indicate if RTCM2X should be an input protocol on UART2";
  mk_cfg "CFG-UART2INPROT-RTCM3X" 0x10750004 "L" (ScInt 1) EmptyString
    "Flag to indicate if RTCM3X should be an input protocol on UART2";
  mk_cfg "CFG-UART2OUTPROT-UBX" 0x10760001 "L" (ScInt 1) EmptyString
    "Flag to indicate if UBX should be an output protocol on UART2";
  mk_cfg "CFG-UART2OUTPROT-NMEA" 0x10760002 "L" (ScInt 1) EmptyString
    "Flag to indicate if NMEA should be an output protocol on UART2";
  mk_cfg "CFG-UART2OUTPROT-RTCM3X" 0x10760004 "L" (ScInt 1) EmptyString
    "Flag to indicate if RTCM3X should be an output protocol on UART2";
  mk_cfg "CFG-USB-ENABLED" 0x10650001 "L" (ScInt 1) EmptyString
    "Flag to indicate if the USB interface should be enabled";
  mk_cfg "CFG-USB-SELFPOW" 0x10650002 "L" (ScInt 1) EmptyString
    "Self-Powered device";
  mk_cfg "CFG-USB-VENDOR_ID" 0x3065000a "U2" (ScInt 1) EmptyString
    "Vendor ID";
  mk_cfg "CFG-USB-PRODUCT_ID" 0x3065000b "U2" (ScInt 1) EmptyString
    "Product ID";
  mk_cfg "CFG-USB-POWER" 0x3065000c "U2" (ScInt 1) "mA"
    "Power consumption";
  mk_cfg "CFG-USB-VENDOR_STR0" 0x5065000d "X8" (ScInt 1) EmptyString
    "Vendor string characters 0-7";
  mk_cfg "CFG-USB-VENDOR_STR1" 0x5065000e "X8" (ScInt 1) EmptyString
    "Vendor string characters 8-15";
  mk_cfg "CFG-USB-VENDOR_STR2" 0x5065000f "X8" (ScInt 1) EmptyString
    "Vendor string characters 16-23";
  mk_cfg "CFG-USB-VENDOR_STR3" 0x50650010 "X8" (ScInt 1) EmptyString
    "Vendor string characters 24-31";
  mk_cfg "CFG-USB-PRODUCT_STR0" 0x50650011 "X8" (ScInt 1) EmptyString
    "Product string characters 0-7";
  mk_cfg "CFG-USB-PRODUCT_STR1" 0x50650012 "X8" (ScInt 1) EmptyString
    "Product string characters 8-15";
  mk_cfg "CFG-USB-PRODUCT_STR2" 0x50650013 "X8" (ScInt 1) EmptyString
    "Product string characters 16-23";
  mk_cfg "CFG-USB-PRODUCT_STR3" 0x50650014 "X8" (ScInt 1) EmptyString
    "Product string characters 24-31";
  mk_cfg "CFG-USB-SERIAL_NO_STR0" 0x50650015 "X8" (ScInt 1) EmptyString
    "Serial number string characters 0-7";
  mk_cfg "CFG-USB-SERIAL_NO_STR1" 0x50650016 "X8" (ScInt 1) EmptyString
    "Serial number string characters 8-15";
  mk_cfg "CFG-USB-SERIAL_NO_STR2" 0x50650017 "X8" (ScInt 1) EmptyString
    "Serial number string characters 16-23";
  mk_cfg "CFG-USB-SERIAL_NO_STR3" 0x50650018 "X8" (ScInt 1) EmptyString
    "Serial number string characters 24-31";
  mk_cfg "CFG-USBINPROT-UBX" 0x10770001 "L" (ScInt 1) EmptyString
    "Flag to indicate if UBX should be an input protocol on USB";
  mk_cfg "CFG-USBINPROT-NMEA" 0x10770002 "L" (ScInt 1) EmptyString
    "Flag to indicate if NMEA should be an input protocol on USB";
  mk_cfg "CFG-USBINPROT-RTCM2X" 0x10770003 "L" (ScInt 1) EmptyString
    "Flag to indicate if RTCM2X should be an input protocol on USB";
  mk_cfg "CFG-USBINPROT-RTCM3X" 0x10770004 "L" (ScInt 1) EmptyString
    "Flag to indicate if RTCM3X should be an input protocol on USB";
  mk_cfg "CFG-USBOUTPROT-UBX" 0x10780001 "L" (ScInt 1) EmptyString
    "Flag to indicate if UBX should be an output protocol on USB";
  mk_cfg "CFG-USBOUTPROT-NMEA" 0x10780002 "L" (ScInt 1) EmptyString
    "Flag to indicate if NMEA should be an output protocol on USB";
  mk_cfg "CFG-USBOUTPROT-RTCM3X" 0x10780004 "L" (ScInt 1) EmptyString
    "Flag to indicate if RTCM3X should be an output protocol on USB"
].

(** Monadic sequencing of Python statements that may raise. *)
#[export] Instance outcome_bind : MBind outcome := fun A B k m =>
  match m with
  | Returned a => k a
  | Raised e => Raised e
  | Hangs => Hangs
  end.

(** Name resolution inside [cfg_by_key]. Its local names are [self], [key],
    [item], [name], [map] and [size]; [ubxtool.py] binds no module-level
    [ket], and it is no builtin. Reading an unbound name raises
    [NameError]. *)
Definition cfg_by_key_names (key : Z) : gmap string Z := {[ "key" := key ]}.

Definition read_name (env : gmap string Z) (x : string) : outcome Z :=
  match env !! x with
  | Some v => Returned v
  | None => Raised (NameError x)
  end.

(** [for item in self.cfgs: if item[1] == key: return item] *)
Fixpoint cfg_scan_key (items : list cfg_item) (key : Z) : option cfg_item :=
  match items with
  | [] => None
  | item :: rest =>
      if cfg_key item =? key then Some item else cfg_scan_key rest key
  end.

(** The local dict [map] of [cfg_by_key]. *)
Definition cfg_size_map : gmap Z string :=
  list_to_map [(0, "Z0"); (1, "L"); (2, "U1"); (3, "U2");
               (4, "U4"); (5, "U8"); (6, "Z6"); (7, "Z7")].

(** [def cfg_by_key(self, key)] *)
Definition cfg_by_key (key : Z) : outcome cfg_item :=
  match cfg_scan_key cfgs key with
  | Some item => Returned item
  | None =>
      (* name = "CFG-%u-%u" % ((key >> 16) & 0xff, ket & 0xff) *)
      let env := cfg_by_key_names key in
      k1 ← read_name env "key";
      k2 ← read_name env "ket";
      let name := "CFG-" +:+ pretty (Z.land (Z.shiftr k1 16) 0xff)
                  +:+ "-" +:+ pretty (Z.land k2 0xff) in
      let size := Z.land (Z.shiftr key 28) 0x07 in
      match cfg_size_map !! size with
      | Some ty => Returned (mk_cfg name key ty (ScInt 1) "Unk" "Unknown")
      | None => Raised (KeyError (pretty size))
      end
  end.

(** [def cfg_by_name(self, name)]; [None] is Python's [None]. *)
Fixpoint cfg_scan_name (items : list cfg_item) (name : string) : option cfg_item :=
  match items with
  | [] => None
  | item :: rest =>
      if String.eqb (cfg_name item) name then Some item
      else cfg_scan_name rest name
  end.

Definition cfg_by_name (name : string) : option cfg_item :=
  cfg_scan_name cfgs name.

(** ** Strings and number formatting *)

Definition nl : string := String (ascii_of_nat 10) EmptyString.

(** [chr(c)] for a code point below 256. *)
Definition chr (c : Z) : ascii := ascii_of_N (Z.to_N c).

Definition hex_digit (d : N) : ascii :=
  ascii_of_N (if (d <? 10)%N then 48 + d else 87 + d)%N.

Fixpoint hex_go (fuel : nat) (n : N) (acc : string) : string :=
  match fuel with
  | O => acc
  | S fuel' =>
      if (n =? 0)%N then acc
      else hex_go fuel' (n / 16)%N (String (hex_digit (n mod 16)%N) acc)
  end.

(** The hexadecimal digits of [n], lower case, no prefix: ['%x' % n]. *)
Definition hex_N (n : N) : string :=
  if (n =? 0)%N then "0" else hex_go (N.size_nat n) n EmptyString.

(** ['%x' % z] *)
Definition fmt_x (z : Z) : string :=
  if z <? 0 then "-" +:+ hex_N (Z.to_N (- z)) else hex_N (Z.to_N z).

(** ['%#x' % z] *)
Definition fmt_hash_x (z : Z) : string :=
  if z <? 0 then "-0x" +:+ hex_N (Z.to_N (- z)) else "0x" +:+ hex_N (Z.to_N z).

(** ['%02x' % z] and ['{:02x}'.format(z)]: at least two characters,
    padded with zeros on the left. *)
Definition fmt_02x (z : Z) : string :=
  let s := fmt_x z in
  if (String.length s <? 2)%nat then "0" +:+ s else s.

(** ['%d' % z], ['%u' % z] and ['%s' % z] of an int. *)
Definition fmt_d (z : Z) : string := pretty z.

(** [int(s, 2)] on a string of binary digits. *)
Fixpoint int_base2_go (s : string) (acc : Z) : Z :=
  match s with
  | EmptyString => acc
  | String a s' =>
      int_base2_go s' (2 * acc + (if Ascii.eqb a "1"%char then 1 else 0))
  end.
Definition int_base2 (s : string) : Z := int_base2_go s 0.

(** [pat in s] on strings. *)
Fixpoint str_contains (pat s : string) : bool :=
  String.prefix pat s ||
  match s with
  | EmptyString => false
  | String _ s' => str_contains pat s'
  end.

(** ** struct.unpack_from with a little-endian standard-size format *)

Inductive fmt_code : Type :=
  | fmt_B | fmt_b | fmt_H | fmt_h | fmt_L | fmt_l.

Definition fmt_size (f : fmt_code) : nat :=
  match f with
  | fmt_B | fmt_b => 1
  | fmt_H | fmt_h => 2
  | fmt_L | fmt_l => 4
  end.

Definition fmt_signed (f : fmt_code) : bool :=
  match f with
  | fmt_b | fmt_h | fmt_l => true
  | fmt_B | fmt_H | fmt_L => false
  end.

Definition fmt_of_ascii (a : ascii) : option fmt_code :=
  if Ascii.eqb a "B" then Some fmt_B
  else if Ascii.eqb a "b" then Some fmt_b
  else if Ascii.eqb a "H" then Some fmt_H
  else if Ascii.eqb a "h" then Some fmt_h
  else if Ascii.eqb a "L" then Some fmt_L
  else if Ascii.eqb a "l" then Some fmt_l
  else None.

Fixpoint parse_codes (s : string) : option (list fmt_code) :=
  match s with
  | EmptyString => Some []
  | String a s' =>
      f ← fmt_of_ascii a; fs ← parse_codes s'; Some (f :: fs)
  end.

(** A format is ['<'] followed by the field codes. *)
Definition parse_fmt (s : string) : option (list fmt_code) :=
  match s with
  | String "<" s' => parse_codes s'
  | _ => None
  end.

(** Little-endian unsigned value of a run of bytes. *)
Definition le_uint (bs : list Z) : Z :=
  foldr (fun b acc => b + 256 * acc) 0 bs.

(** Two's complement reading of an [n]-byte unsigned value. *)
Definition to_signed (n : nat) (u : Z) : Z :=
  if u <? 2 ^ (8 * Z.of_nat n - 1) then u else u - 2 ^ (8 * Z.of_nat n).

Fixpoint unpack_fields (fs : list fmt_code) (bs : list Z) : list Z :=
  match fs with
  | [] => []
  | f :: fs' =>
      let n := fmt_size f in
      let u := le_uint (take n bs) in
      (if fmt_signed f then to_signed n u else u)
        :: unpack_fields fs' (drop n bs)
  end.

Definition calcsize (fs : list fmt_code) : Z :=
  Z.of_nat (sum_list (fmt_size <$> fs)).

(** [struct.unpack_from(fmt, buf, offset)] for [offset >= 0]: raises
    [struct.error] when fewer than [calcsize(fmt)] bytes follow [offset]. *)
Definition unpack_from (fmt : string) (buf : list Z) (offset : Z)
  : outcome (list Z) :=
  match parse_fmt fmt with
  | None => Raised StructError
  | Some fs =>
      if len buf - offset <? calcsize fs then Raised StructError
      else Returned (unpack_fields fs (drop (Z.to_nat offset) buf))
  end.

(** ** Payload decoders *)

(** A Python float is represented by the expression that computes it: the
    arithmetic of binary64 and of [round] is left uninterpreted. [FOfInt] is
    the implicit conversion of an int operand, [FLit] a literal with its
    source text. *)
Inductive pyfloat : Type :=
  | FOfInt (z : Z)
  | FLit (literal : string)
  | FAdd (x y : pyfloat)
  | FMul (x y : pyfloat)
  | FRound (x : pyfloat) (ndigits : Z).

Inductive pyval : Type :=
  | PyInt (z : Z)
  | PyBool (b : bool)
  | PyStr (s : string)
  | PyFloat (f : pyfloat)
  | PyNone.

(** What a payload decoder returns: a string or a dict of fields. *)
Inductive payload_msg : Type :=
  | MsgStr (s : string)
  | MsgDict (d : gmap string pyval).

(** [int * float] and [int + float] *)
Definition int_mul_lit (z : Z) (literal : string) : pyfloat :=
  FMul (FOfInt z) (FLit literal).
Definition int_add_float (z : Z) (f : pyfloat) : pyfloat :=
  FAdd (FOfInt z) f.

(** [True if x & mask else False] *)
Definition flag (x mask : Z) : pyval := PyBool (negb (Z.land x mask =? 0)).

(** [d[k1] = v1; d[k2] = v2; ...] in order. *)
Definition assign_all (d : gmap string pyval) (kvs : list (string * pyval))
  : gmap string pyval :=
  foldl (fun d kv => <[kv.1 := kv.2]> d) d kvs.

(** [def nav_hpposecef(self, buf)] *)
Definition nav_hpposecef (buf : list Z) : outcome payload_msg :=
  let m_len := len buf in
  if 0 =? m_len then Returned (MsgStr " Poll request")
  else if 28 <? m_len then Returned (MsgStr (" Bad Length " +:+ fmt_d m_len))
  else
    u ← unpack_from "<BBBBLlllbbbbL" buf 0;
    match u with
    | [u0; u1; u2; u3; u4; u5; u6; u7; u8; u9; u10; u11; u12] =>
        Returned (MsgStr (
          "  version " +:+ fmt_d u0 +:+ " reserved1 " +:+ fmt_d u1 +:+ " "
          +:+ fmt_d u2 +:+ " " +:+ fmt_d u3 +:+ " iTOW:" +:+ fmt_d u4 +:+ nl
          +:+ "  ecef: X " +:+ fmt_d u5 +:+ " Y " +:+ fmt_d u6 +:+ " Z "
          +:+ fmt_d u7 +:+ nl
          +:+ "  ecefHP: X " +:+ fmt_d u8 +:+ " Y " +:+ fmt_d u9 +:+ " Z "
          +:+ fmt_d u10 +:+ nl
          +:+ "  reserved2 " +:+ fmt_d u11 +:+ " pAcc:" +:+ fmt_d u12))
    | _ => Raised ValueError
    end.

(** [def nav_hpposllh(self, buf)] *)
Definition nav_hpposllh (buf : list Z) : outcome payload_msg :=
  let m_len := len buf in
  if 0 =? m_len then Returned (MsgStr " Poll request")
  else if 36 >? m_len then Returned (MsgStr (" Bad Length " +:+ fmt_d m_len))
  else
    u ← unpack_from "<BBBBLllllbbbbLL" buf 0;
    match u with
    | [version; _; _; _; iTow; lon; lat; height; hMSL;
       lonHp; latHp; heightHp; hMSLHp; hAcc; vAcc] =>
        let hpposllh_data := assign_all ∅ [
          ("version", PyInt version); ("iTow", PyInt iTow);
          ("lon", PyInt lon); ("lat", PyInt lat);
          ("height", PyInt height); ("hMSL", PyInt hMSL);
          ("lonHp", PyInt lonHp); ("latHp", PyInt latHp);
          ("heightHp", PyInt heightHp); ("hMSLHp", PyInt hMSLHp);
          ("hAcc", PyInt hAcc); ("vAcc", PyInt vAcc);
          (* Scale values *)
          ("prec_lon", PyFloat (FRound
             (FMul (int_add_float lon (int_mul_lit lonHp "1E-2")) (FLit "1E-7")) 9));
          ("prec_lat", PyFloat (FRound
             (FMul (int_add_float lat (int_mul_lit latHp "1E-2")) (FLit "1E-7")) 9));
          (* Scale values and convert to meter *)
          ("prec_height", PyFloat (FRound
             (FMul (int_add_float height (int_mul_lit heightHp "1E-1")) (FLit "1E-3")) 4));
          ("prec_hMSL", PyFloat (FRound
             (FMul (int_add_float hMSL (int_mul_lit hMSLHp "1E-1")) (FLit "1E-3")) 4))
        ] in
        Returned (MsgDict hpposllh_data)
    | _ => Raised ValueError
    end.

(** The local dict [fix_type] of [nav_pvt]. *)
Definition fix_type : gmap string string :=
  list_to_map [("0", "no fix"); ("1", "dead reckoning only"); ("2", "2D-fix");
               ("3", "3D-fix"); ("4", "GNSS + dead reckoning combined");
               ("5", "time only fix")].

(** [fix_type.get(str(n))] *)
Definition fix_type_get (n : Z) : pyval :=
  match fix_type !! fmt_d n with
  | Some s => PyStr s
  | None => PyNone
  end.

(** [round(x*lit, n)] for an int [x]. *)
Definition scaled (x : Z) (literal : string) (ndigits : Z) : pyval :=
  PyFloat (FRound (int_mul_lit x literal) ndigits).

(** [def nav_pvt(self, buf)] *)
Definition nav_pvt (buf : list Z) : outcome payload_msg :=
  let m_len := len buf in
  if 0 =? m_len then Returned (MsgStr " Poll request")
  else if 84 >? m_len then Returned (MsgStr (" Bad Length " +:+ fmt_d m_len))
  else
    u ← unpack_from "<LHBBBBBBLlBBBBllllLLlllllLLHHHH" buf 0;
    match u with
    | [iTow; year; month; day; hour; minute; second; valid; tAcc; nano;
       fixType; flags; flags2; numSV; lon; lat; height; hMSL; hAcc; vAcc;
       velN; velE; velD; gSpeed; headMot; sAcc; headAcc; pDOP; reserved1;
       _; _] =>
        let pvt_data := assign_all ∅ [
          ("iTow", PyInt iTow); ("year", PyInt year); ("month", PyInt month);
          ("day", PyInt day); ("hour", PyInt hour); ("minute", PyInt minute);
          ("second", PyInt second); ("valid", PyInt valid);
          ("tAcc", PyInt tAcc); ("nano", PyInt nano);
          ("fixType", PyInt fixType); ("flags", PyInt flags);
          ("flags2", PyInt flags2); ("numSV", PyInt numSV);
          ("lon", PyInt lon); ("lat", PyInt lat); ("height", PyInt height);
          ("hMSL", PyInt hMSL); ("hAcc", PyInt hAcc); ("vAcc", PyInt vAcc);
          ("velN", PyInt velN); ("velE", PyInt velE); ("velD", PyInt velD);
          ("gSpeed", PyInt gSpeed); ("headMot", PyInt headMot);
          ("sAcc", PyInt sAcc); ("headAcc", PyInt headAcc);
          ("pDOP", PyInt pDOP); ("reserved1", PyInt reserved1);
          (* Scale values *)
          ("lon", scaled lon "1E-7" 7);
          ("lat", scaled lat "1E-7" 7);
          (* convert millimeter to meter *)
          ("height", scaled height "1E-3" 3);
          ("hMSL", scaled hMSL "1E-3" 3);
          ("hAcc", scaled hAcc "1E-3" 3);
          ("vAcc", scaled vAcc "1E-3" 3);
          ("velN", scaled velN "1E-3" 3);
          ("velE", scaled velE "1E-3" 3);
          ("velD", scaled velD "1E-3" 3);
          ("gSpeed", scaled gSpeed "1E-3" 3);
          ("sAcc", scaled sAcc "1E-3" 3);
          ("headMot", scaled headMot "1E-5" 5);
          ("headAcc", scaled headAcc "1E-5" 5);
          ("pDOP", scaled pDOP "1E-2" 2);
          ("fixeType_str", fix_type_get fixType);
          (* Validity flags *)
          ("validDate", flag valid (int_base2 "00000001"));
          ("validTime", flag valid (int_base2 "00000010"));
          ("fullyResolved", flag valid (int_base2 "00000100"));
          ("validMAg", flag valid (int_base2 "00001000"));
          (* flags flags *)
          ("gnssFixOK", flag flags (int_base2 "00000001"));
          ("diffSoln", flag flags (int_base2 "00000010"));
          ("headVehValid", flag flags (int_base2 "00100000"));
          ("carrSoln", if Z.land flags (int_base2 "01000000") =? 0
                       then PyBool false else PyStr "Float");
          ("carrSoln", if Z.land flags (int_base2 "10000000") =? 0
                       then PyBool false else PyStr "Fixed");
          (* flags2 flags *)
          ("confirmedAvai", flag flags (int_base2 "00100000"));
          ("confirmedDate", flag flags (int_base2 "01000000"));
          ("confirmedTime", flag flags (int_base2 "10000000"))
        ] in
        if 92 <=? m_len then
          (* version 15 *)
          u ← unpack_from "<lhH" buf 81;
          match u with
          | [headVeh; magDec; magAcc] =>
              let pvt_data := assign_all pvt_data [
                ("headVeh", PyInt headVeh); ("magDec", PyInt magDec);
                ("magAcc", PyInt magAcc);
                ("headVeh", scaled headVeh "1E-5" 5);
                ("magDec", scaled magDec "1E-2" 2);
                ("magAcc", scaled magAcc "1E-2" 2)
              ] in
              Returned (MsgDict pvt_data)
          | _ => Raised ValueError
          end
        else Returned (MsgDict pvt_data)
    | _ => Raised ValueError
    end.

(** ** Message dispatch table: ubx.classes and the per-class id tables *)

(** The payload decoders the id tables refer to. *)
Inductive decoder : Type :=
  | dec_ack_ack
  | dec_cfg_prt
  | dec_cfg_msg
  | dec_cfg_rst
  | dec_cfg_cfg
  | dec_cfg_ant
  | dec_cfg_sbas
  | dec_cfg_usb
  | dec_cfg_navx5
  | dec_cfg_nav5
  | dec_cfg_tp5
  | dec_cfg_tmode2
  | dec_cfg_gnss
  | dec_cfg_pms
  | dec_cfg_valset
  | dec_cfg_valget
  | dec_cfg_valdel
  | dec_inf_error
  | dec_inf_warning
  | dec_inf_notice
  | dec_inf_test
  | dec_inf_debug
  | dec_mon_io
  | dec_mon_ver
  | dec_mon_comms
  | dec_nav_posecef
  | dec_nav_posllh
  | dec_nav_status
  | dec_nav_dop
  | dec_nav_sol
  | dec_nav_pvt
  | dec_nav_velecef
  | dec_nav_velned
  | dec_nav_hpposecef
  | dec_nav_hpposllh
  | dec_nav_timegps
  | dec_nav_timeutc
  | dec_nav_clock
  | dec_nav_timeglo
  | dec_nav_timebds
  | dec_nav_timegal
  | dec_nav_timels
  | dec_nav_svinfo
  | dec_nav_dgps
  | dec_nav_sbas
  | dec_nav_sat
  | dec_nav_geofence
  | dec_nav_svin
  | dec_nav_sig
  | dec_nav_eoe
  | dec_rxm_raw
  | dec_rxm_sfrb
  | dec_rxm_sfrbx
  | dec_rxm_measx
  | dec_rxm_rawx
  | dec_rxm_svsi
  | dec_sec_uniqid
  | dec_tim_tp
  | dec_tim_tm2
  | dec_tim_svin.

(** An entry of an id table: the optional keys ['str'], ['dec'], ['name']. *)
Record id_entry : Type := mk_id {
  id_str : option string;
  id_dec : option decoder;
  id_name : option string
}.

(** An entry of [classes]: the optional keys ['str'] and ['ids']. *)
Record class_entry : Type := mk_class {
  class_str : option string;
  class_ids : option (gmap Z id_entry)
}.

Definition ack_ids : gmap Z id_entry := list_to_map [
  (0, mk_id (Some "NAK") (Some dec_ack_ack) (Some "UBX-ACK-NAK"));
  (1, mk_id (Some "ACK") (Some dec_ack_ack) (Some "UBX-ACK-ACK"))
].

Definition cfg_ids : gmap Z id_entry := list_to_map [
  (0, mk_id (Some "PRT") (Some dec_cfg_prt) (Some "UBX-CFG-PRT"));
  (1, mk_id (Some "MSG") (Some dec_cfg_msg) (Some "UBX-CFG-MSG"));
  (2, mk_id (Some "INF") (None) (Some "UBX-CFG-INF"));
  (4, mk_id (Some "RST") (Some dec_cfg_rst) (Some "UBX-CFG-RST"));
  (6, mk_id (Some "DAT") (None) (Some "UBX-CFG-DAT"));
  (8, mk_id (Some "RATE") (None) (Some "UBX-CFG-RATE"));
  (9, mk_id (Some "CFG") (Some dec_cfg_cfg) (Some "UBX-CFG-CFG"));
  (0x11, mk_id (Some "RXM") (None) (Some "UBX-CFG-RXM"));
  (0x13, mk_id (Some "ANT") (Some dec_cfg_ant) (Some "UBX-CFG-ANT"));
  (0x16, mk_id (Some "SBAS") (Some dec_cfg_sbas) (Some "UBX-CFG-SBAS"));
  (0x17, mk_id (Some "NMEA") (None) (Some "UBX-CFG-NMEA"));
  (0x1b, mk_id (Some "USB") (Some dec_cfg_usb) (Some "UBX-CFG-USB"));
  (0x1e, mk_id (Some "ODO") (None) (Some "UBX-CFG-ODO"));
  (0x23, mk_id (Some "NAVX5") (Some dec_cfg_navx5) (Some "UBX-CFG-NAVX5"));
  (0x24, mk_id (Some "NAV5") (Some dec_cfg_nav5) (Some "UBX-CFG-NAV5"));
  (0x31, mk_id (Some "TP5") (Some dec_cfg_tp5) (Some "UBX-CFG-TP5"));
  (0x34, mk_id (Some "RINV") (None) (Some "UBX-CFG-RINV"));
  (0x39, mk_id (Some "ITFM") (None) (Some "UBX-CFG-ITFM"));
  (0x3b, mk_id (Some "PM2") (None) (Some "UBX-CFG-PM2"));
  (0x3d, mk_id (Some "TMODE2") (Some dec_cfg_tmode2) (Some "UBX-CFG-TMODE2"));
  (0x3e, mk_id (Some "GNSS") (Some dec_cfg_gnss) (Some "UBX-CFG-GNSS"));
  (0x47, mk_id (Some "LOGFILTER") (None) (Some "UBX-CFG-LOGFILTER"));
  (0x53, mk_id (Some "TXSLOT") (None) (Some "UBX-CFG-TXSLOT"));
  (0x57, mk_id (Some "PWR") (None) (Some "UBX-CFG-PWR"));
  (0x5c, mk_id (Some "HNR") (None) (Some "UBX-CFG-HNR"));
  (0x60, mk_id (Some "ESRC") (None) (Some "UBX-CFG-ESRC"));
  (0x61, mk_id (Some "DOSC") (None) (Some "UBX-CFG-OSC"));
  (0x62, mk_id (Some "SMGR") (None) (Some "UBX-CFG-SMGR"));
  (0x69, mk_id (Some "GEOFENCE") (None) (Some "UBX-CFG-GEOFENCE"));
  (0x70, mk_id (Some "DGNSS") (None) (Some "UBX-CFG-DGNSS"));
  (0x71, mk_id (Some "TMODE3") (None) (Some "UBX-CFG-TMODE3"));
  (0x84, mk_id (Some "FIXSEED") (None) (Some "UBX-CFG-FIXSEED"));
  (0x85, mk_id (Some "DYNSEED") (None) (Some "UBX-CFG-DYNSEED"));
  (0x86, mk_id (Some "PMS") (Some dec_cfg_pms) (Some "UBX-CFG-PMS"));
  (0x8a, mk_id (Some "VALSET") (Some dec_cfg_valset) (Some "UBX-CFG-VALSET"));
  (0x8b, mk_id (Some "VALGET") (Some dec_cfg_valget) (Some "UBX-CFG-VALGET"));
  (0x8c, mk_id (Some "VALDEL") (Some dec_cfg_valdel) (Some "UBX-CFG-VALDEL"))
].

Definition inf_ids : gmap Z id_entry := list_to_map [
  (0x0, mk_id (Some "ERROR") (Some dec_inf_error) (Some "UBX-INF-ERROR"));
  (0x1, mk_id (Some "WARNING") (Some dec_inf_warning) (Some "UBX-INF-WARNING"));
  (0x2, mk_id (Some "NOTICE") (Some dec_inf_notice) (Some "UBX-INF-NOTICE"));
  (0x3, mk_id (Some "TEST") (Some dec_inf_test) (Some "UBX-INF-TEST"));
  (0x4, mk_id (Some "DEBUG") (Some dec_inf_debug) (Some "UBX-INF-DEBUG"))
].

Definition mon_ids : gmap Z id_entry := list_to_map [
  (2, mk_id (Some "IO") (Some dec_mon_io) (Some "UBX-MON-IO"));
  (4, mk_id (Some "VER") (Some dec_mon_ver) (Some "UBX-MON-VER"));
  (6, mk_id (Some "MSGPP") (None) (Some "UBX-MON-MSGPP"));
  (7, mk_id (Some "RXBUF") (None) (Some "UBX-MON-RXBUF"));
  (8, mk_id (Some "TXBUF") (None) (Some "UBX-MON-TXBUF"));
  (9, mk_id (Some "HW") (None) (Some "UBX-MON-HW"));
  (0x0b, mk_id (Some "HW2") (None) (Some "UBX-MON-HW2"));
  (0x21, mk_id (Some "RXR") (None) (Some "UBX-MON-RXR"));
  (0x27, mk_id (Some "PATCH") (None) (Some "UBX-MON-PATCH"));
  (0x28, mk_id (Some "GNSS") (None) (Some "UBX-MON-GNSS"));
  (0x2e, mk_id (Some "SMGR") (None) (Some "UBX-MON-SMGR"));
  (0x36, mk_id (Some "COMMS") (Some dec_mon_comms) (Some "UBX-MON-COMMS"));
  (0x37, mk_id (Some "HW3") (None) (Some "UBX-MON-HW3"));
  (0x38, mk_id (Some "RF") (None) (Some "UBX-MON-RF"))
].

Definition nav_ids : gmap Z id_entry := list_to_map [
  (1, mk_id (Some "POSECEF") (Some dec_nav_posecef) (Some "UBX-NAV-POSECEF"));
  (2, mk_id (Some "POSLLH") (Some dec_nav_posllh) (Some "UBX-NAV-POSLLH"));
  (3, mk_id (Some "STATUS") (Some dec_nav_status) (Some "UBX-NAV-STATUS"));
  (0x4, mk_id (Some "DOP") (Some dec_nav_dop) (Some "UBX-NAV-DOP"));
  (0x5, mk_id (Some "ATT") (None) (Some "UBX-NAV-ATT"));
  (0x6, mk_id (Some "SOL") (Some dec_nav_sol) (Some "UBX-NAV-SOL"));
  (0x7, mk_id (Some "PVT") (Some dec_nav_pvt) (Some "UBX-NAV-PVT"));
  (0x9, mk_id (Some "ODO") (None) (Some "UBX-NAV-ODO"));
  (0x10, mk_id (Some "RESETODO") (None) (Some "UBX-NAV-RESETODO"));
  (0x11, mk_id (Some "VELECEF") (Some dec_nav_velecef) (Some "UBX-NAV-VELECEF"));
  (0x12, mk_id (Some "VELNED") (Some dec_nav_velned) (Some "UBX-NAV-VELNED"));
  (0x13, mk_id (Some "HPPOSECEF") (Some dec_nav_hpposecef) (Some "UBX-NAV-HPPOSECEF"));
  (0x14, mk_id (Some "HPPOSLLH") (Some dec_nav_hpposllh) (Some "UBX-NAV-HPPOSLLH"));
  (0x20, mk_id (Some "TIMEGPS") (Some dec_nav_timegps) (Some "UBX-NAV-TIMEGPS"));
  (0x21, mk_id (Some "TIMEUTC") (Some dec_nav_timeutc) (Some "UBX-NAV-TIMEUTC"));
  (0x22, mk_id (Some "CLOCK") (Some dec_nav_clock) (Some "UBX-NAV-CLOCK"));
  (0x23, mk_id (Some "TIMEGLO") (Some dec_nav_timeglo) (Some "UBX-NAV-TIMEGLO"));
  (0x24, mk_id (Some "TIMEBDS") (Some dec_nav_timebds) (Some "UBX-NAV-TIMEBDS"));
  (0x25, mk_id (Some "TIMEGAL") (Some dec_nav_timegal) (Some "UBX-NAV-TIMEGAL"));
  (0x26, mk_id (Some "TIMELS") (Some dec_nav_timels) (Some "UBX-NAV-TIMELS"));
  (0x30, mk_id (Some "SVINFO") (Some dec_nav_svinfo) (Some "UBX-NAV-SVINFO"));
  (0x31, mk_id (Some "DGPS") (Some dec_nav_dgps) (Some "UBX-NAV-DGPS"));
  (0x32, mk_id (Some "SBAS") (Some dec_nav_sbas) (Some "UBX-NAV-SBAS"));
  (0x34, mk_id (Some "ORB") (None) (Some "UBX-NAV-ORB"));
  (0x35, mk_id (Some "SAT") (Some dec_nav_sat) (Some "UBX-NAV-SAT"));
  (0x39, mk_id (Some "GEOFENCE") (Some dec_nav_geofence) (Some "UBX-NAV-GEOFENCE"));
  (0x3B, mk_id (Some "SVIN") (Some dec_nav_svin) (Some "UBX-NAV-SVIN"));
  (0x3C, mk_id (Some "RELPOSNED") (None) (Some "UBX-NAV-RELPOSNED"));
  (0x43, mk_id (Some "SIG") (Some dec_nav_sig) (Some "UBX-NAV-SIG"));
  (0x60, mk_id (Some "AOPSTATUS") (None) (Some "UBX-NAV-AOPSTATUS"));
  (0x61, mk_id (Some "EOE") (Some dec_nav_eoe) (Some "UBX-NAV-EOE"))
].

Definition rtcm_ids : gmap Z id_entry := list_to_map [
  (5, mk_id (Some "1005") (None) (None));
  (0x4a, mk_id (Some "1074") (None) (None));
  (0x4d, mk_id (Some "1077") (None) (None));
  (0x54, mk_id (Some "1084") (None) (None));
  (0x57, mk_id (Some "1087") (None) (None));
  (0x61, mk_id (Some "1097") (None) (None));
  (0x7c, mk_id (Some "1124") (None) (None));
  (0x7f, mk_id (Some "1127") (None) (None));
  (0xe6, mk_id (Some "1230") (None) (None));
  (0xfd, mk_id (Some "4072-1") (None) (None));
  (0xfe, mk_id (Some "4072-0") (None) (None))
].

Definition nmea_ids : gmap Z id_entry := list_to_map [
  (0, mk_id (Some "GGA") (None) (None));
  (1, mk_id (Some "GLL") (None) (None));
  (2, mk_id (Some "GSA") (None) (None));
  (3, mk_id (Some "GSV") (None) (None));
  (4, mk_id (Some "RMC") (None) (None));
  (5, mk_id (Some "VTG") (None) (None));
  (6, mk_id (Some "GRS") (None) (None));
  (7, mk_id (Some "GST") (None) (None));
  (8, mk_id (Some "ZDA") (None) (None));
  (9, mk_id (Some "GBS") (None) (None));
  (0x0a, mk_id (Some "DTM") (None) (None));
  (0x0d, mk_id (Some "GNS") (None) (None));
  (0x0f, mk_id (Some "VLW") (None) (None));
  (0x40, mk_id (Some "GPQ") (None) (None));
  (0x41, mk_id (Some "TXT") (None) (None));
  (0x42, mk_id (Some "GNQ") (None) (None));
  (0x43, mk_id (Some "GLQ") (None) (None));
  (0x44, mk_id (Some "GBQ") (None) (None));
  (0x45, mk_id (Some "GAQ") (None) (None))
].

Definition rxm_ids : gmap Z id_entry := list_to_map [
  (0x10, mk_id (Some "RAW") (Some dec_rxm_raw) (Some "UBX-RXM-RAW"));
  (0x11, mk_id (Some "SFRB") (Some dec_rxm_sfrb) (Some "UBX-RXM-SFRB"));
  (0x13, mk_id (Some "SFRBX") (Some dec_rxm_sfrbx) (Some "UBX-RXM-SFRBX"));
  (0x14, mk_id (Some "MEASX") (Some dec_rxm_measx) (Some "UBX-RXM-MEASX"));
  (0x15, mk_id (Some "RAWX") (Some dec_rxm_rawx) (Some "UBX-RXM-RAWX"));
  (0x20, mk_id (Some "SVSI") (Some dec_rxm_svsi) (Some "UBX-RXM-SVSI"));
  (0x32, mk_id (Some "RTCM") (None) (Some "UBX-RXM-RTCM"));
  (0x41, mk_id (Some "PMREQ") (None) (Some "UBX-RXM-PMREQ"));
  (0x59, mk_id (Some "RLM") (None) (Some "UBX-RXM-RLM"));
  (0x61, mk_id (Some "IMES") (None) (Some "UBX-RXM-IMES"))
].

Definition sec_ids : gmap Z id_entry := list_to_map [
  (0x01, mk_id (Some "SIGN") (None) (Some "UBX-SEC-SIGN"));
  (0x03, mk_id (Some "UNIQID") (Some dec_sec_uniqid) (Some "UBX-SEC-UNIQID"))
].

Definition tim_ids : gmap Z id_entry := list_to_map [
  (1, mk_id (Some "TP") (Some dec_tim_tp) (Some "UBX-TIM-TP"));
  (3, mk_id (Some "TM2") (Some dec_tim_tm2) (Some "UBX-TIM-TM2"));
  (4, mk_id (Some "SVIN") (Some dec_tim_svin) (Some "UBX-TIM-SVIN"));
  (6, mk_id (Some "VRFY") (None) (Some "UBX-TIM-VRFY"));
  (0x11, mk_id (Some "DOSC") (None) (Some "UBX-TIM-DOSC"));
  (0x12, mk_id (Some "TOS") (None) (Some "UBX-TIM-TOS"));
  (0x13, mk_id (Some "SMEAS") (None) (Some "UBX-TIM-SMEAS"));
  (0x15, mk_id (Some "VCOCAL") (None) (Some "UBX-TIM-VCOCAL"));
  (0x16, mk_id (Some "FCHG") (None) (Some "UBX-TIM-FCHG"));
  (0x17, mk_id (Some "HOC") (None) (Some "UBX-TIM-HOC"))
].

Definition classes : gmap Z class_entry := list_to_map [
  (0x01, mk_class (Some "NAV") (Some nav_ids));
  (0x02, mk_class (Some "RXM") (Some rxm_ids));
  (0x04, mk_class (Some "INF") (Some inf_ids));
  (0x05, mk_class (Some "ACK") (Some ack_ids));
  (0x06, mk_class (Some "CFG") (Some cfg_ids));
  (0x09, mk_class (Some "UPD") (None));
  (0x0A, mk_class (Some "MON") (Some mon_ids));
  (0x0B, mk_class (Some "ATD") (None));
  (0x0D, mk_class (Some "TIM") (Some tim_ids));
  (0x10, mk_class (Some "ESF") (None));
  (0x13, mk_class (Some "MGA") (None));
  (0x21, mk_class (Some "LOG") (None));
  (0x27, mk_class (Some "SEC") (Some sec_ids));
  (0x28, mk_class (Some "HNR") (None));
  (0xf0, mk_class (Some "NMEA") (Some nmea_ids));
  (0xf5, mk_class (Some "RTCM") (Some rtcm_ids))
].

(** [def class_id_s(self, m_class, m_id)] *)
Definition class_id_s (m_class m_id : Z) : string :=
  let s := "Class: " in
  match classes !! m_class with
  | None => s +:+ fmt_hash_x m_class +:+ " ID: " +:+ fmt_hash_x m_id
  | Some this_class =>
      let s :=
        match class_str this_class with
        | Some s_class => s +:+ s_class +:+ "(" +:+ fmt_hash_x m_class +:+ ") "
        | None => s +:+ fmt_hash_x m_class +:+ " "
        end in
      let id_s :=
        match class_ids this_class with
        | Some ids =>
            match ids !! m_id with
            | Some entry => id_str entry
            | None => None
            end
        | None => None
        end in
      match id_s with
      | Some s_id => s +:+ "ID: " +:+ s_id +:+ "(" +:+ fmt_hash_x m_id +:+ ")"
      | None => s +:+ "ID: " +:+ fmt_hash_x m_id
      end
  end.

(** ** Packet encoder: ubx.make_pkt *)

(** [struct.pack_into('<BBH', msg, 0, a, b, h)]: [struct.error] when an
    argument does not fit its field. *)
Definition pack_into_BBH (msg : list Z) (a b h : Z) : outcome (list Z) :=
  if byteb a && byteb b && (0 <=? h) && (h <? 65536) then
    Returned (<[3%nat := h / 256]> (<[2%nat := h mod 256]>
             (<[1%nat := b]> (<[0%nat := a]> msg))))
  else Raised StructError.

(** The loop [while i < m_len: msg[i + 4] = m_data[i]; i += 1], where
    [rest] is [m_data[i:]]. Storing an int outside [range(256)] into a
    bytearray raises [ValueError]. *)
Fixpoint copy_payload (rest : list Z) (i : nat) (msg : list Z)
  : outcome (list Z) :=
  match rest with
  | [] => Returned msg
  | d :: rest' =>
      if byteb d then copy_payload rest' (S i) (<[(i + 4)%nat := d]> msg)
      else Raised ValueError
  end.

(** [def make_pkt(self, m_class, m_id, m_data)] *)
Definition make_pkt (m_class m_id : Z) (m_data : list Z) : outcome (list Z) :=
  let m_len := len m_data in
  (* build core message *)
  let msg := replicate (Z.to_nat (m_len + 6)) 0 in
  msg ← pack_into_BBH msg m_class m_id m_len;
  (* copy payload into message buffer *)
  msg ← copy_payload m_data 0 msg;
  (* add checksum *)
  let chk := checksum msg (m_len + 4) in
  let m_chk := [chk.1; chk.2] in
  let header := [0xb5; 0x62] in
  Returned (header ++ slice_to msg (m_len + 4) ++ m_chk).

(** ** Frame decoder: ubx.decode_msg *)

Definition PROG_NAME : string := "ubxtool".
Definition VERB_DECODE : Z := 2.
Definition VERB_RAW : Z := 4.

Inductive mode : Type :=
  | BASE | HEADER1 | HEADER2 | CLASS | ID | LEN1 | PAYLOAD | CSUM1 | CSUM2
  | NMEA | COMMENT | JSON | RTCM3_1 | RTCM3_2 | RTCM3_PAYLOAD.

(** The state is a string in the source. *)
Definition mode_name (m : mode) : string :=
  match m with
  | BASE => "BASE" | HEADER1 => "HEADER1" | HEADER2 => "HEADER2"
  | CLASS => "CLASS" | ID => "ID" | LEN1 => "LEN1" | PAYLOAD => "PAYLOAD"
  | CSUM1 => "CSUM1" | CSUM2 => "CSUM2" | NMEA => "NMEA"
  | COMMENT => "COMMENT" | JSON => "JSON" | RTCM3_1 => "RTCM3_1"
  | RTCM3_2 => "RTCM3_2" | RTCM3_PAYLOAD => "RTCM3_PAYLOAD"
  end.

(** The second component of the returned tuple: the int [0], a text line,
    the raw fallback string, or the dict [{'type': ..., 'msg': ...}]. *)
Inductive result : Type :=
  | RInt (z : Z)
  | RStr (s : string)
  | RDict (type : string) (msg : payload_msg).

(** The local variables of [decode_msg] and the two output streams (each
    element is the text of one write). [rtcm_type] is the local [type],
    unbound until an RTCM3 packet completes. *)
Record dstate : Type := mk_dstate {
  state : mode;
  consumed : Z;
  comment : string;
  m_class : Z;
  m_id : Z;
  m_len : Z;
  m_raw : list Z;
  m_payload : list Z;
  m_ck_a : Z;
  m_ck_b : Z;
  rtcm_type : option Z;
  stdout : list string;
  stderr : list string
}.

Definition set_state (x : mode) (s : dstate) : dstate :=
  mk_dstate x (consumed s) (comment s) (m_class s) (m_id s) (m_len s)
    (m_raw s) (m_payload s) (m_ck_a s) (m_ck_b s) (rtcm_type s)
    (stdout s) (stderr s).
Definition set_consumed (x : Z) (s : dstate) : dstate :=
  mk_dstate (state s) x (comment s) (m_class s) (m_id s) (m_len s)
    (m_raw s) (m_payload s) (m_ck_a s) (m_ck_b s) (rtcm_type s)
    (stdout s) (stderr s).
Definition set_comment (x : string) (s : dstate) : dstate :=
  mk_dstate (state s) (consumed s) x (m_class s) (m_id s) (m_len s)
    (m_raw s) (m_payload s) (m_ck_a s) (m_ck_b s) (rtcm_type s)
    (stdout s) (stderr s).
Definition set_m_class (x : Z) (s : dstate) : dstate :=
  mk_dstate (state s) (consumed s) (comment s) x (m_id s) (m_len s)
    (m_raw s) (m_payload s) (m_ck_a s) (m_ck_b s) (rtcm_type s)
    (stdout s) (stderr s).
Definition set_m_id (x : Z) (s : dstate) : dstate :=
  mk_dstate (state s) (consumed s) (comment s) (m_class s) x (m_len s)
    (m_raw s) (m_payload s) (m_ck_a s) (m_ck_b s) (rtcm_type s)
    (stdout s) (stderr s).
Definition set_m_len (x : Z) (s : dstate) : dstate :=
  mk_dstate (state s) (consumed s) (comment s) (m_class s) (m_id s) x
    (m_raw s) (m_payload s) (m_ck_a s) (m_ck_b s) (rtcm_type s)
    (stdout s) (stderr s).
Definition set_m_raw (x : list Z) (s : dstate) : dstate :=
  mk_dstate (state s) (consumed s) (comment s) (m_class s) (m_id s) (m_len s)
    x (m_payload s) (m_ck_a s) (m_ck_b s) (rtcm_type s)
    (stdout s) (stderr s).
Definition set_m_payload (x : list Z) (s : dstate) : dstate :=
  mk_dstate (state s) (consumed s) (comment s) (m_class s) (m_id s) (m_len s)
    (m_raw s) x (m_ck_a s) (m_ck_b s) (rtcm_type s)
    (stdout s) (stderr s).
Definition set_m_ck_a (x : Z) (s : dstate) : dstate :=
  mk_dstate (state s) (consumed s) (comment s) (m_class s) (m_id s) (m_len s)
    (m_raw s) (m_payload s) x (m_ck_b s) (rtcm_type s)
    (stdout s) (stderr s).
Definition set_m_ck_b (x : Z) (s : dstate) : dstate :=
  mk_dstate (state s) (consumed s) (comment s) (m_class s) (m_id s) (m_len s)
    (m_raw s) (m_payload s) (m_ck_a s) x (rtcm_type s)
    (stdout s) (stderr s).
Definition set_rtcm_type (x : option Z) (s : dstate) : dstate :=
  mk_dstate (state s) (consumed s) (comment s) (m_class s) (m_id s) (m_len s)
    (m_raw s) (m_payload s) (m_ck_a s) (m_ck_b s) x
    (stdout s) (stderr s).

(** [print(text)] *)
Definition print (text : string) (s : dstate) : dstate :=
  mk_dstate (state s) (consumed s) (comment s) (m_class s) (m_id s) (m_len s)
    (m_raw s) (m_payload s) (m_ck_a s) (m_ck_b s) (rtcm_type s)
    (stdout s ++ [text +:+ nl]) (stderr s).

(** [sys.stderr.write(text)] *)
Definition stderr_write (text : string) (s : dstate) : dstate :=
  mk_dstate (state s) (consumed s) (comment s) (m_class s) (m_id s) (m_len s)
    (m_raw s) (m_payload s) (m_ck_a s) (m_ck_b s) (rtcm_type s)
    (stdout s) (stderr s ++ [text]).

(** [x.extend([c])] *)
Definition extend (x : list Z) (c : Z) : list Z := x ++ [c].

(** [sep.join(parts)] *)
Fixpoint join (sep : string) (parts : list string) : string :=
  match parts with
  | [] => EmptyString
  | [p] => p
  | p :: ps => p +:+ sep +:+ join sep ps
  end.

(** The text written to stderr on a checksum mismatch. *)
Definition checksum_failed (ck_a ck_b : Z) (chk : Z * Z) : string :=
  PROG_NAME +:+ ": ERROR checksum failed,was (" +:+ fmt_d ck_a +:+ ","
  +:+ fmt_d ck_b +:+ ") s/b (" +:+ fmt_d chk.1 +:+ ", " +:+ fmt_d chk.2
  +:+ ")" +:+ nl.

(** The JSON prefix of a gpsd error report, [{"class":"ERROR"]. *)
Definition dquote : string := String (ascii_of_nat 34) EmptyString.
Definition json_error_tag : string :=
  "{" +:+ dquote +:+ "class" +:+ dquote +:+ ":" +:+ dquote +:+ "ERROR"
  +:+ dquote.

(** One pass of the loop body either goes on with the next byte
    ([continue], or the end of the body) or leaves the function. *)
Inductive flow : Type :=
  | Continue (s : dstate)
  | Stop (s : dstate) (o : outcome (Z * result)).

Section DecodeMsg.

(** [opts['verbosity']] *)
Variable verbosity : Z.

(** The payload decoders that format their fields into a string; they
    write to neither stream. *)
Variable other_dec : decoder -> list Z -> outcome payload_msg.

(** [dec(self, m_payload)] *)
Definition call_dec (dec : decoder) (buf : list Z) : outcome payload_msg :=
  match dec with
  | dec_nav_pvt => nav_pvt buf
  | dec_nav_hpposllh => nav_hpposllh buf
  | dec_nav_hpposecef => nav_hpposecef buf
  | _ => other_dec dec buf
  end.

(** The end of the [CSUM2] branch: [s_payload] from the dispatch table. *)
Definition dispatch (m_class m_id m_len : Z) (m_payload : list Z)
  : outcome result :=
  let s_payload := RStr (join EmptyString ((fun x => fmt_02x x +:+ " ") <$> m_payload)) in
  let x_payload := join "," (fmt_02x <$> m_payload) in
  match classes !! m_class with
  | None => Returned s_payload
  | Some this_class =>
      match class_ids this_class with
      | None => Returned s_payload
      | Some ids =>
          match ids !! m_id with
          | None => Returned s_payload
          | Some entry =>
              match id_dec entry with
              | Some dec =>
                  match id_name entry with
                  | None => Raised (KeyError "name")
                  | Some name =>
                      msg ← call_dec dec m_payload;
                      Returned (RDict name msg)
                  end
              | None =>
                  Returned (RStr (class_id_s m_class m_id +:+ ", len "
                                  +:+ fmt_hash_x m_len +:+ ", raw "
                                  +:+ x_payload))
              end
          end
      end
  end.

(** The trace printed for each byte at verbosity [VERB_RAW] and above. *)
Definition trace (c : Z) (s : dstate) : dstate :=
  if VERB_RAW <=? verbosity then
    if (32 <=? c) && (126 >=? c) then
      print ("state: " +:+ mode_name (state s) +:+ " char "
             +:+ String (chr c) EmptyString +:+ " (" +:+ fmt_hash_x c +:+ ")") s
    else
      print ("state: " +:+ mode_name (state s) +:+ " char " +:+ fmt_hash_x c) s
  else s.

Definition is_eol (c : Z) : bool := (10 =? c) || (13 =? c).

(** The body of [for this_byte in out:]. *)
Definition step (s : dstate) (this_byte : Z) : flow :=
  let s := set_consumed (consumed s + 1) s in
  let c := this_byte in
  let s := trace c s in
  match state s with
  | BASE =>
      (* start fresh *)
      let s := set_comment EmptyString s in
      let s := set_m_class 0 s in
      let s := set_m_id 0 s in
      let s := set_m_len 0 s in
      let s := set_m_raw [] s in
      let s := set_m_payload [] s in
      let s := set_m_ck_a 0 s in
      let s := set_m_ck_b 0 s in
      let s := if 0xb5 =? c then set_state HEADER1 s else s in
      let s := if 36 =? c then set_comment "$" (set_state NMEA s) else s in
      if 123 =? c then Continue (set_comment "{" (set_state JSON s))
      else if 35 =? c then Continue (set_comment "#" (set_state COMMENT s))
      else if 0xd3 =? c then Continue (set_comment "#" (set_state RTCM3_1 s))
      else if is_eol c then Stop s (Returned (1, RInt 0))
      else Continue s
  | COMMENT | JSON =>
      if is_eol c then
        let s :=
          if str_contains json_error_tag (comment s) then print (comment s) s
          else if VERB_DECODE <=? verbosity then print (comment s) s
          else s in
        Stop s (Returned (consumed s, RStr (comment s)))
      else Continue (set_comment (comment s +:+ String (chr c) EmptyString) s)
  | NMEA =>
      if is_eol c then
        let s :=
          if VERB_DECODE <=? verbosity then print (comment s +:+ nl) s
          else s in
        Stop s (Returned (consumed s, RStr (comment s)))
      else Continue (set_comment (comment s +:+ String (chr c) EmptyString) s)
  | RTCM3_1 =>
      (* high 6 bits must be zero *)
      if negb (0 =? Z.land c 0xfc) then Continue (set_state BASE s)
      else
        let s := set_m_len (Z.shiftl c 8) s in
        let s := set_state RTCM3_2 s in
        Continue (set_m_raw (extend (m_raw s) c) s)
  | RTCM3_2 =>
      let s := set_m_len (Z.lor (m_len s) (Z.land 0xff c)) s in
      (* add 3 for checksum *)
      let s := set_m_len (m_len s + 3) s in
      let s := set_state RTCM3_PAYLOAD s in
      Continue (set_m_raw (extend (m_raw s) c) s)
  | RTCM3_PAYLOAD =>
      let s := set_m_len (m_len s - 1) s in
      let s := set_m_raw (extend (m_raw s) c) s in
      let s := set_m_payload (extend (m_payload s) c) s in
      if 0 =? m_len s then
        let s := set_state BASE s in
        match m_payload s !! 0%nat, m_payload s !! 1%nat with
        | Some p0, Some p1 =>
            let type := Z.shiftl p0 4 in
            let type := Z.lor type (Z.land 0x0f (Z.shiftr p1 4)) in
            let s := set_rtcm_type (Some type) s in
            let s :=
              if VERB_DECODE <=? verbosity
              then print ("RTCM3 packet: type " +:+ fmt_d type +:+ nl) s
              else s in
            Continue s
        | _, _ => Stop s (Raised IndexError)
        end
      else Continue s
  | HEADER1 =>
      if 98 =? c then Continue (set_state HEADER2 s)
      else (* give up *) Continue (set_state BASE s)
  | HEADER2 =>
      let s := set_state CLASS s in
      let s := set_m_class c s in
      Continue (set_m_raw (extend (m_raw s) c) s)
  | CLASS =>
      let s := set_state ID s in
      let s := set_m_id c s in
      Continue (set_m_raw (extend (m_raw s) c) s)
  | ID =>
      let s := set_state LEN1 s in
      let s := set_m_len c s in
      Continue (set_m_raw (extend (m_raw s) c) s)
  | LEN1 =>
      let s := set_m_raw (extend (m_raw s) c) s in
      let s := set_m_len (m_len s + 256 * c) s in
      if 0 =? m_len s then Continue (set_state CSUM1 s)
      else Continue (set_state PAYLOAD s)
  | PAYLOAD =>
      let s := set_m_raw (extend (m_raw s) c) s in
      let s := set_m_payload (extend (m_payload s) c) s in
      if len (m_payload s) =? m_len s then Continue (set_state CSUM1 s)
      else Continue s
  | CSUM1 =>
      let s := set_state CSUM2 s in
      Continue (set_m_ck_a c s)
  | CSUM2 =>
      let s := set_state BASE s in
      let s := set_m_ck_b c s in
      (* check checksum *)
      let chk := checksum (m_raw s) (len (m_raw s)) in
      let s :=
        if negb (chk.1 =? m_ck_a s) || negb (chk.2 =? m_ck_b s)
        then stderr_write (checksum_failed (m_ck_a s) (m_ck_b s) chk) s
        else s in
      Stop s (s_payload ← dispatch (m_class s) (m_id s) (m_len s) (m_payload s);
              Returned (consumed s, s_payload))
  end.

(** The loop [for this_byte in out:], as far as it runs: it ends with
    [Continue] when the bytes are used up, and with [Stop] at the first
    [return] or exception. *)
Fixpoint loop (s : dstate) (out : list Z) : flow :=
  match out with
  | [] => Continue s
  | this_byte :: out' =>
      match step s this_byte with
      | Continue s' => loop s' out'
      | Stop s' o => Stop s' o
      end
  end.

(** The locals before the first byte: [state = 'BASE'], [consumed = 0];
    the others are assigned by the first pass through the [BASE] branch. *)
Definition initial : dstate :=
  mk_dstate BASE 0 EmptyString 0 0 0 [] [] 0 0 None [] [].

(** [def decode_msg(self, out, msg=None)]: the final locals and streams,
    and what the call does. Falling out of the loop returns [(0, 0)]. *)
Definition decode_msg (out : list Z) : dstate * outcome (Z * result) :=
  match loop initial out with
  | Continue s => (s, Returned (0, RInt 0))
  | Stop s o => (s, o)
  end.

End DecodeMsg.

(** ** Frames and observations used by the statements *)

(** A UBX frame with payload [P] and stored checksum bytes [a], [b]. *)
Definition ubx_raw (c i : Z) (P : list Z) : list Z :=
  [c; i; len P mod 256; len P / 256] ++ P.

Definition ubx_frame (c i : Z) (P : list Z) (a b : Z) : list Z :=
  [0xb5; 0x62] ++ ubx_raw c i P ++ [a; b].

(** The 10-bit length announced by the two bytes after [0xD3]. *)
Definition rtcm3_length (b1 b2 : Z) : Z :=
  Z.lor (Z.shiftl b1 8) (Z.land 0xff b2).

(** The top 12 bits of two bytes. *)
Definition top12 (p0 p1 : Z) : Z :=
  Z.lor (Z.shiftl p0 4) (Z.land 0x0f (Z.shiftr p1 4)).

(** The complete frames of the four kinds the decoder recognizes. *)
Inductive frame : list Z -> Prop :=
  | frame_ubx c i P a b :
      len P < 65536 ->
      frame (ubx_frame c i P a b)
  | frame_line lead body eol :
      lead = 36 \/ lead = 123 \/ lead = 35 ->
      Forall (fun c => is_eol c = false) body ->
      is_eol eol = true ->
      frame (lead :: body ++ [eol])
  | frame_rtcm3 b1 b2 P :
      is_byte b1 -> is_byte b2 ->
      Z.land b1 0xfc = 0 ->
      len P = rtcm3_length b1 b2 + 3 ->
      frame (0xd3 :: b1 :: b2 :: P).

(** The entry of the dispatch table for a (class, id) pair, if any. *)
Definition lookup_entry (m_class m_id : Z) : option id_entry :=
  match classes !! m_class with
  | Some this_class =>
      match class_ids this_class with
      | Some ids => ids !! m_id
      | None => None
      end
  | None => None
  end.

(** The state without what was printed. *)
Definition silence (s : dstate) : dstate :=
  mk_dstate (state s) (consumed s) (comment s) (m_class s) (m_id s) (m_len s)
    (m_raw s) (m_payload s) (m_ck_a s) (m_ck_b s) (rtcm_type s)
    [] (stderr s).

Definition silence_flow (f : flow) : flow :=
  match f with
  | Continue s => Continue (silence s)
  | Stop s o => Stop (silence s) o
  end.

(** The checksum of the frame with class [c], id [i] and payload [P]. *)
Definition ubx_checksum (c i : Z) (P : list Z) : Z * Z :=
  checksum (ubx_raw c i P) (len (ubx_raw c i P)).

(** The locals, the streams and the outcome at the end of a complete UBX
    frame that starts the buffer. *)
Definition ubx_final (c i : Z) (P : list Z) (a b : Z) : dstate :=
  let chk := ubx_checksum c i P in
  mk_dstate BASE (8 + len P) EmptyString c i (len P) (ubx_raw c i P) P a b
    None []
    (if negb (chk.1 =? a) || negb (chk.2 =? b)
     then [checksum_failed a b chk] else []).

(** The decoder registered for a (class, id) pair, if any. *)
Definition lookup_dec (m_class m_id : Z) : option decoder :=
  match lookup_entry m_class m_id with
  | Some entry => id_dec entry
  | None => None
  end.

(** [opts['verbosity']] as the module sets it. *)
Definition VERB_NONE : Z := 1.

(** An instance of the string-formatting decoders for closed examples. *)
Definition poll_only_dec (dec : decoder) (buf : list Z) : outcome payload_msg :=
  Returned (MsgStr " Poll request").

(** The text of a run of bytes: [chr] of each. *)
Definition chars (bs : list Z) : string :=
  foldr (fun c s => String (chr c) s) EmptyString bs.

(** The three states that accumulate a line of text. *)
Definition text_mode (st : mode) : Prop :=
  st = NMEA \/ st = COMMENT \/ st = JSON.

(** ** Fields of a payload *)

(** The [n]-byte little-endian field at [offset], unsigned or signed. *)
Definition le_field (signed : bool) (n offset : nat) (buf : list Z) : Z :=
  let u := le_uint (take n (drop offset buf)) in
  if signed then to_signed n u else u.

(** The value the last assignment to key [k] in a run of assignments
    leaves, [acc] if there is none. *)
Fixpoint assoc_last (k : string) (kvs : list (string * pyval))
  (acc : option pyval) : option pyval :=
  match kvs with
  | [] => acc
  | kv :: kvs' =>
      assoc_last k kvs' (if String.eqb kv.1 k then Some kv.2 else acc)
  end.

(** ** Bytes the decoder skips *)

(** A byte that starts nothing in state [BASE]: no lead-in of a frame and
    no line terminator. *)
Definition is_noise (c : Z) : bool :=
  negb ((0xb5 =? c) || (36 =? c) || (123 =? c) || (35 =? c) || (0xd3 =? c)
        || is_eol c).

(** Prefixes that the loop reads from [BASE] back to [BASE] without a
    result: noise bytes, a [0xB5] that is not followed by ['b'], a [0xD3]
    followed by a byte with one of its six high bits set, and complete
    RTCM3 frames. *)
Inductive skipped : list Z -> Prop :=
  | skipped_nil : skipped []
  | skipped_noise c g :
      is_noise c = true -> skipped g -> skipped (c :: g)
  | skipped_bad_header x g :
      x <> 98 -> skipped g -> skipped (0xb5 :: x :: g)
  | skipped_bad_rtcm3 x g :
      Z.land x 0xfc <> 0 -> skipped g -> skipped (0xd3 :: x :: g)
  | skipped_rtcm3 b1 b2 P g :
      0 <= b1 -> Z.land b1 0xfc = 0 -> len P = rtcm3_length b1 b2 + 3 ->
      skipped g -> skipped (0xd3 :: b1 :: b2 :: P ++ g).

(** The diagnostic a frame with stored checksum bytes [a], [b] adds to
    stderr: none when they are the computed ones. *)
Definition checksum_diag (c i : Z) (P : list Z) (a b : Z) : list string :=
  let chk := ubx_checksum c i P in
  if negb (chk.1 =? a) || negb (chk.2 =? b)
  then [checksum_failed a b chk] else [].

(** ** Callers of the decoder: the read loops of test.py and ubx_convert.py *)

(** [x[n:]] *)
Definition slice_from {A} (x : list A) (n : Z) : list A :=
  if n <? 0 then drop (Z.to_nat (len x + n)) x else drop (Z.to_nat n) x.

(** [x[a:b]] for [0 <= a <= b] *)
Definition slice {A} (x : list A) (a b : Z) : list A :=
  take (Z.to_nat (b - a)) (drop (Z.to_nat a) x).

Section Callers.

Variable verbosity : Z.
Variable other_dec : decoder -> list Z -> outcome payload_msg.

(** The loop of [ubx_read] (test.py; the same loop reads an ordinary file
    in [gps_io.read]):
    [while True: consumed, data = decode_msg(out); gnss_data.append(data);
     out = out[consumed:]; if 0 >= consumed: return gnss_data].
    [fuel] bounds the number of passes; [None] when it runs out. What the
    calls print is not followed. *)
Fixpoint ubx_read_loop (fuel : nat) (out : list Z) (gnss_data : list result)
  : option (outcome (list result)) :=
  match fuel with
  | O => None
  | S fuel' =>
      match (decode_msg verbosity other_dec out).2 with
      | Returned (consumed, data) =>
          let gnss_data := gnss_data ++ [data] in
          let out := slice_from out consumed in
          if 0 >=? consumed then Some (Returned gnss_data)
          else ubx_read_loop fuel' out gnss_data
      | Raised e => Some (Raised e)
      | Hangs => Some Hangs
      end
  end.

(** [isinstance(data, dict) and data['type'] in type_filter] *)
Definition in_filter (type_filter : list string) (data : result) : bool :=
  match data with
  | RDict type _ => bool_decide (type ∈ type_filter)
  | _ => false
  end.

(** The loop of [ubx_read_generator] (test2.py, ubx_convert.py): the
    decoder sees the window [out[start:start+8192]]; the values yielded, in
    order. [type_filter] is [None] or a tuple of type names. *)
Fixpoint ubx_read_generator_loop (fuel : nat) (out : list Z)
  (type_filter : option (list string)) (start consumed : Z)
  (yielded : list result) : option (outcome (list result)) :=
  match fuel with
  | O => None
  | S fuel' =>
      let start := start + consumed in
      match (decode_msg verbosity other_dec
               (slice out start (start + 8192))).2 with
      | Returned (consumed, data) =>
          let yielded :=
            match type_filter with
            | None => yielded ++ [data]
            | Some tf =>
                if in_filter tf data then yielded ++ [data] else yielded
            end in
          if 0 >=? consumed then Some (Returned yielded)
          else ubx_read_generator_loop fuel' out type_filter start consumed
                 yielded
      | Raised e => Some (Raised e)
      | Hangs => Some Hangs
      end
  end.

End Callers.

(** A stream of UBX frames, each after some bytes: the items are
    [(g, (c, i, P), (a, b))]. *)
Definition stream_item : Type := list Z * (Z * Z * list Z) * (Z * Z).

Definition item_bytes (it : stream_item) : list Z :=
  let '(g, (c, i, P), (a, b)) := it in g ++ ubx_frame c i P a b.

Definition stream_bytes (items : list stream_item) : list Z :=
  concat (item_bytes <$> items).

(** An item of a stream decodes to [r]: its leading bytes are skipped, its
    payload fits in 16 bits, and the dispatch of its class, id and payload
    returns [r]. *)
Definition item_decodes (other_dec : decoder -> list Z -> outcome payload_msg)
  (it : stream_item) (r : result) : Prop :=
  let '(g, (c, i, P), _) := it in
  skipped g /\ len P < 65536
  /\ dispatch other_dec c i (len P) P = Returned r.

(** What the generator yields for the results [rs] and the final [0]:
    all of them without a filter, the dicts of a listed type with one. *)
Definition yields (tf : option (list string)) (rs : list result)
  : list result :=
  match tf with
  | None => rs ++ [RInt 0]
  | Some f => List.filter (in_filter f) rs
  end.

(** ** Sums over a run of bytes *)

(** The sum of the bytes. *)
Definition byte_sum (cs : list Z) : Z := foldr Z.add 0 cs.

(** The sum of the bytes, each weighted by the number of bytes from it to
    the end (itself included). *)
Fixpoint weighted_sum (cs : list Z) : Z :=
  match cs with
  | [] => 0
  | c :: cs' => (1 + len cs') * c + weighted_sum cs'
  end.

(** The range of a field of [struct]: [0 <= v < 256^n] unsigned,
    [-256^n/2 <= v < 256^n/2] signed. *)
Definition in_field_range (f : fmt_code) (v : Z) : Prop :=
  let bits := 8 * Z.of_nat (fmt_size f) in
  if fmt_signed f then - 2 ^ (bits - 1) <= v < 2 ^ (bits - 1)
  else 0 <= v < 2 ^ bits.

(** ** Value types of the configuration items: ubx.item_to_type *)

(** The local dict [cfg_types]: (size, pack format, i/u/f) by value type. *)
Definition cfg_types : gmap string (Z * string * string) :=
  list_to_map [
    ("E1", (1, "<B", "u"));
    ("E2", (2, "<H", "u"));
    ("E4", (4, "<L", "u"));
    ("I1", (1, "<b", "i"));
    ("I2", (2, "<h", "i"));
    ("I4", (4, "<l", "i"));
    ("I8", (8, "<q", "i"));
    ("L", (1, "<B", "u"));
    ("R4", (4, "<f", "f"));
    ("R8", (2, "<d", "f"));
    ("U1", (1, "<B", "u"));
    ("U2", (2, "<H", "u"));
    ("U4", (4, "<L", "u"));
    ("U8", (8, "<Q", "u"));
    ("X1", (1, "<B", "u"));
    ("X2", (2, "<H", "u"));
    ("X4", (4, "<L", "u"));
    ("X8", (8, "<Q", "u"))
  ].

(** The local dict [key_map]: the guess from the size bits of the key. *)
Definition key_map : gmap Z (Z * string * string) :=
  list_to_map [
    (0, (1, "<B", "u"));
    (1, (1, "<B", "u"));
    (2, (1, "<B", "u"));
    (3, (2, "<H", "u"));
    (4, (4, "<L", "u"));
    (5, (8, "<B", "u"));
    (6, (1, "<B", "u"));
    (7, (1, "<B", "u"))
  ].

(** [def item_to_type(self, item)] *)
Definition item_to_type (item : cfg_item) : outcome (Z * string * string) :=
  let key := cfg_key item in
  let val_type := cfg_type item in
  match cfg_types !! val_type with
  | Some cfg_type => Returned cfg_type
  | None =>
      let key_size := Z.land (Z.shiftr key 28) 0x07 in
      match key_map !! key_size with
      | Some cfg_type => Returned cfg_type
      | None => Raised (KeyError (pretty key_size))
      end
  end.

(** The size in bytes that the size bits of a key stand for. *)
Definition key_size_bytes (key : Z) : option Z :=
  match key_map !! Z.land (Z.shiftr key 28) 0x07 with
  | Some t => Some t.1.1
  | None => None
  end.

(** ** The grouping generator of ubx_convert.py: iTow_group_generator *)

(** What the body of the generator raises. *)
Inductive gen_exn : Type :=
  | TypeError
  | AttributeError.

(** How the generator ends: exhausted, or by an exception. *)
Inductive gen_end : Type :=
  | Exhausted
  | GenRaised (e : gen_exn).

(** A value of the dict [sentences_group]: an iTow or a message. *)
Inductive group_val : Type :=
  | GTow (v : pyval)
  | GMsg (m : payload_msg).

Definition int_of_bool (b : bool) : Z := if b then 1 else 0.

Section Groups.

(** [==] between floats and between a float and an int; the floats are
    not interpreted. *)
Variable float_eq : pyfloat -> pyfloat -> bool.
Variable float_eq_int : pyfloat -> Z -> bool.

(** [x == y] on the values of a message dict. *)
Definition py_eq (x y : pyval) : bool :=
  match x, y with
  | PyInt a, PyInt b => a =? b
  | PyInt a, PyBool b => a =? int_of_bool b
  | PyBool a, PyInt b => int_of_bool a =? b
  | PyBool a, PyBool b => int_of_bool a =? int_of_bool b
  | PyFloat f, PyFloat g => float_eq f g
  | PyFloat f, PyInt b => float_eq_int f b
  | PyInt a, PyFloat g => float_eq_int g a
  | PyFloat f, PyBool b => float_eq_int f (int_of_bool b)
  | PyBool a, PyFloat g => float_eq_int g (int_of_bool a)
  | PyStr s, PyStr t => String.eqb s t
  | PyNone, PyNone => true
  | _, _ => false
  end.

(** [sentence['msg'].get('iTow')], with [sentence['type']] and
    [sentence['msg']]: subscripting the int [0] or a string with ['msg']
    raises [TypeError], and a string has no [get]. *)
Definition sentence_iTow (sentence : result)
  : gen_exn + (string * payload_msg * pyval) :=
  match sentence with
  | RInt _ => inl TypeError
  | RStr _ => inl TypeError
  | RDict type msg =>
      match msg with
      | MsgStr _ => inl AttributeError
      | MsgDict d => inr (type, msg, default PyNone (d !! "iTow"))
      end
  end.

Definition is_None (v : pyval) : bool :=
  match v with PyNone => true | _ => false end.

(** The first loop: up to the first sentence with an iTow. It gives
    [timestamp], [sentences_group] and the sentences not yet read. *)
Fixpoint first_iTow (ss : list result)
  : gen_exn + option (pyval * gmap string group_val * list result) :=
  match ss with
  | [] => inr None
  | sentence :: rest =>
      match sentence_iTow sentence with
      | inl e => inl e
      | inr (type, msg, new_iTow) =>
          if negb (is_None new_iTow) then
            inr (Some (new_iTow,
                       <[type := GMsg msg]> (<["iTow" := GTow new_iTow]> ∅),
                       rest))
          else first_iTow rest
      end
  end.

(** The second loop: the groups yielded, each as it is when it is
    yielded, and how the generator ends. *)
Fixpoint group_loop (timestamp : pyval)
  (sentences_group : gmap string group_val) (ss : list result)
  : list (gmap string group_val) * gen_end :=
  match ss with
  | [] => ([], Exhausted)
  | sentence :: rest =>
      match sentence_iTow sentence with
      | inl e => ([], GenRaised e)
      | inr (type, msg, new_iTow) =>
          if is_None new_iTow || py_eq new_iTow timestamp then
            group_loop timestamp (<[type := GMsg msg]> sentences_group) rest
          else
            let r := group_loop new_iTow
                       (<[type := GMsg msg]> (<["iTow" := GTow new_iTow]> ∅))
                       rest in
            (sentences_group :: r.1, r.2)
      end
  end.

(** [def iTow_group_generator(ubx_file_path, type_filter)], on the
    sentences [ss] that [ubx_read_generator] yields before it is
    exhausted. *)
Definition iTow_group_generator (ss : list result)
  : list (gmap string group_val) * gen_end :=
  match first_iTow ss with
  | inl e => ([], GenRaised e)
  | inr None => ([], Exhausted)
  | inr (Some (timestamp, sentences_group, rest)) =>
      group_loop timestamp sentences_group rest
  end.

End Groups.

(** The messages of one epoch: its iTow, and the types and dicts of its
    messages in order. *)
Definition epoch : Type := Z * list (string * gmap string pyval).

Definition epoch_sentences (e : epoch) : list result :=
  (fun m => RDict m.1 (MsgDict m.2)) <$> e.2.

(** The first message of an epoch carries its iTow, the others carry it
    or none. *)
Definition epoch_ok (e : epoch) : Prop :=
  match e.2 with
  | [] => False
  | m :: others =>
      m.2 !! "iTow" = Some (PyInt e.1)
      /\ Forall (fun m' => m'.2 !! "iTow" = None
                           \/ m'.2 !! "iTow" = Some (PyInt e.1)) others
  end.

(** The group of an epoch: its iTow, and for each type the last message
    of this type. *)
Definition epoch_group (e : epoch) : gmap string group_val :=
  foldl (fun g m => <[m.1 := GMsg (MsgDict m.2)]> g)
    {[ "iTow" := GTow (PyInt e.1) ]} e.2.
(** * Properties *)

Lemma byteb_spec c : byteb c = true <-> is_byte c.
Proof. unfold byteb, is_byte. rewrite andb_true_iff, Z.leb_le, Z.ltb_lt. tauto. Qed.

Lemma land_0xff (x : Z) : Z.land x 0xff = x mod 256.
Proof. change 0xff with (Z.ones 8). rewrite Z.land_ones by lia. reflexivity. Qed.

Lemma slice_to_len {A} (msg : list A) : slice_to msg (len msg) = msg.
Proof.
  unfold slice_to, len.
  destruct (Z.ltb_spec (Z.of_nat (length msg)) 0); [lia|].
  rewrite Nat2Z.id. apply firstn_all.
Qed.

Lemma checksum_loop_mod (cs : list Z) : forall a b,
  fold_left checksum_spec_step cs (a mod 256, b mod 256)
  = (fst (checksum_loop cs a b) mod 256, snd (checksum_loop cs a b) mod 256).
Proof.
  induction cs as [|c cs IH]; intros a b; simpl; [reflexivity|].
  rewrite <- IH. f_equal. unfold checksum_spec_step. simpl.
  rewrite Zplus_mod_idemp_l. f_equal.
  rewrite Zplus_mod_idemp_l, Zplus_mod_idemp_r. reflexivity.
Qed.

(** C7. For every byte sequence, [checksum] (which masks the two sums once,
    at the end) returns the pair obtained by folding the step
    [ck_a = (ck_a + c) mod 256; ck_b = (ck_b + ck_a) mod 256] over the bytes
    in order, starting from [(0, 0)]. *)
Theorem checksum_refines_spec (msg : list Z) :
  checksum msg (len msg) = checksum_spec msg.
Proof.
  unfold checksum, checksum_spec. rewrite slice_to_len.
  pose proof (checksum_loop_mod msg 0 0) as H.
  change (0 mod 256) with 0 in H. rewrite H.
  destruct (checksum_loop msg 0 0) as [a b]. simpl.
  rewrite !land_0xff. reflexivity.
Qed.

(** ** The scanning loop *)

Ltac rec_simpl :=
  cbn [state consumed comment m_class m_id m_len m_raw m_payload m_ck_a
       m_ck_b rtcm_type stdout stderr
       set_state set_consumed set_comment set_m_class set_m_id set_m_len
       set_m_raw set_m_payload set_m_ck_a set_m_ck_b set_rtcm_type
       print stderr_write silence silence_flow].

Ltac split_branches :=
  repeat (rec_simpl;
          match goal with
          | |- context [if ?b then _ else _] => destruct b
          | |- context [match ?l !! ?k with _ => _ end] => destruct (l !! k)
          end);
  rec_simpl.

Section LoopFacts.

Variable other_dec : decoder -> list Z -> outcome payload_msg.

Lemma silence_idem s : silence (silence s) = silence s.
Proof. reflexivity. Qed.

Lemma Continue_inj s1 s2 : Continue s1 = Continue s2 -> s1 = s2.
Proof. intros H. congruence. Qed.

Lemma Stop_inj s1 o1 s2 o2 : Stop s1 o1 = Stop s2 o2 -> s1 = s2 /\ o1 = o2.
Proof. intros H. split; congruence. Qed.

(** What is printed never influences the control flow, the locals or
    stderr: the loop body can be studied at verbosity 0 on a silent state. *)
Lemma step_silent v s c :
  silence_flow (step v other_dec s c)
  = silence_flow (step 0 other_dec (silence s) c).
Proof.
  destruct s as [st n cm cl i l raw pay a b ty so se].
  unfold step, trace.
  change (VERB_RAW <=? 0) with false.
  change (VERB_DECODE <=? 0) with false.
  destruct st; split_branches; reflexivity.
Qed.

Lemma loop_silent bs : forall v s,
  silence_flow (loop v other_dec s bs)
  = silence_flow (loop 0 other_dec (silence s) bs).
Proof.
  induction bs as [|c bs IH]; intros v s; simpl; [reflexivity|].
  pose proof (step_silent v s c) as H.
  destruct (step v other_dec s c) as [s1|s1 o1],
           (step 0 other_dec (silence s) c) as [s2|s2 o2];
    simpl in H; try discriminate; [|exact H].
  apply Continue_inj in H. rewrite (IH v s1), (IH 0 s2), H. reflexivity.
Qed.

Lemma decode_msg_silent v buf :
  (decode_msg v other_dec buf).2 = (decode_msg 0 other_dec buf).2
  /\ silence (decode_msg v other_dec buf).1
     = silence (decode_msg 0 other_dec buf).1.
Proof.
  unfold decode_msg.
  pose proof (loop_silent buf v initial) as H.
  change (silence initial) with initial in H.
  destruct (loop v other_dec initial buf),
           (loop 0 other_dec initial buf); simpl in H; try discriminate.
  - apply Continue_inj in H. auto.
  - apply Stop_inj in H as [H ->]. auto.
Qed.

Lemma loop_app v p : forall s q,
  loop v other_dec s (p ++ q)
  = match loop v other_dec s p with
    | Continue s' => loop v other_dec s' q
    | Stop s' o => Stop s' o
    end.
Proof.
  induction p as [|c p IH]; intros s q; simpl; [reflexivity|].
  destruct (step v other_dec s c); [apply IH | reflexivity].
Qed.

(** A [return] is final: when the loop runs through a buffer, it runs
    through each of its prefixes. *)
Lemma loop_prefix v p q s s' :
  loop v other_dec s (p ++ q) = Continue s' ->
  exists s'', loop v other_dec s p = Continue s''.
Proof.
  rewrite loop_app. destruct (loop v other_dec s p); [eauto | discriminate].
Qed.

(** Only the [CSUM2] branch writes to stderr, and it leaves the loop. *)
Lemma step_continue_stderr v s c s' :
  step v other_dec s c = Continue s' -> stderr s' = stderr s.
Proof.
  destruct s as [st n cm cl i l raw pay a b ty so se].
  unfold step, trace.
  destruct st; split_branches;
    intros H; try discriminate; apply Continue_inj in H; rewrite <- H;
    reflexivity.
Qed.

Lemma loop_continue_stderr v bs : forall s s',
  loop v other_dec s bs = Continue s' -> stderr s' = stderr s.
Proof.
  induction bs as [|c bs IH]; intros s s'; simpl.
  - intros [= <-]. reflexivity.
  - destruct (step v other_dec s c) as [s1|] eqn:E; [|discriminate].
    intros H. rewrite (IH _ _ H). eapply step_continue_stderr, E.
Qed.

End LoopFacts.


(** *** Lengths *)

Lemma len_nil {A} : len (@nil A) = 0.
Proof. reflexivity. Qed.

Lemma len_cons {A} (x : A) l : len (x :: l) = 1 + len l.
Proof. unfold len. simpl length. lia. Qed.

Lemma len_app {A} (l1 l2 : list A) : len (l1 ++ l2) = len l1 + len l2.
Proof. unfold len. rewrite length_app. lia. Qed.

Lemma len_nonneg {A} (l : list A) : 0 <= len l.
Proof. unfold len. lia. Qed.

(** *** A UBX frame, branch by branch (verbosity 0, nothing printed) *)

Ltac run_step :=
  unfold step, trace;
  cbn -[Z.add Z.mul Z.sub Z.eqb Z.land Z.lor Z.shiftl Z.shiftr
        len checksum dispatch checksum_failed lookup is_eol str_contains
        String.append].

Section UbxFrame.

Variable other_dec : decoder -> list Z -> outcome payload_msg.

Lemma loop_ubx_header5 c i lo :
  loop 0 other_dec initial [0xb5; 0x62; c; i; lo]
  = Continue (mk_dstate LEN1 5 EmptyString c i lo [c; i; lo] []
                0 0 None [] []).
Proof. reflexivity. Qed.

Lemma step_LEN1 n cls id lo raw hi :
  step 0 other_dec
    (mk_dstate LEN1 n EmptyString cls id lo raw [] 0 0 None [] []) hi
  = Continue (mk_dstate (if 0 =? lo + 256 * hi then CSUM1 else PAYLOAD)
                (n + 1) EmptyString cls id (lo + 256 * hi) (raw ++ [hi]) []
                0 0 None [] []).
Proof. run_step. destruct (0 =? lo + 256 * hi); reflexivity. Qed.

Lemma loop_ubx_header c i lo hi :
  loop 0 other_dec initial [0xb5; 0x62; c; i; lo; hi]
  = Continue (mk_dstate (if 0 =? lo + 256 * hi then CSUM1 else PAYLOAD)
                6 EmptyString c i (lo + 256 * hi) [c; i; lo; hi] []
                0 0 None [] []).
Proof.
  change [181; 98; c; i; lo; hi] with ([181; 98; c; i; lo] ++ [hi]).
  rewrite loop_app, loop_ubx_header5.
  cbn [loop]. rewrite step_LEN1. reflexivity.
Qed.

Lemma step_PAYLOAD n cls id L raw pay c :
  step 0 other_dec
    (mk_dstate PAYLOAD n EmptyString cls id L raw pay 0 0 None [] []) c
  = Continue (mk_dstate (if len (pay ++ [c]) =? L then CSUM1 else PAYLOAD)
                (n + 1) EmptyString cls id L (raw ++ [c]) (pay ++ [c])
                0 0 None [] []).
Proof.
  run_step. unfold extend. destruct (len (pay ++ [c]) =? L); reflexivity.
Qed.

Lemma loop_ubx_payload L cls id q : forall n raw pay,
  len pay < L -> len pay + len q <= L ->
  loop 0 other_dec
    (mk_dstate PAYLOAD n EmptyString cls id L raw pay 0 0 None [] []) q
  = Continue (mk_dstate (if len (pay ++ q) =? L then CSUM1 else PAYLOAD)
                (n + len q) EmptyString cls id L (raw ++ q) (pay ++ q)
                0 0 None [] []).
Proof.
  induction q as [|c q IH]; intros n raw pay Hlt Hle.
  - rewrite (app_nil_r pay), (app_nil_r raw).
    change (len (@nil Z)) with 0. replace (n + 0) with n by lia. cbn [loop].
    destruct (Z.eqb_spec (len pay) L); [lia | reflexivity].
  - rewrite len_cons in Hle. pose proof (len_nonneg q) as Hq.
    cbn [loop]. rewrite step_PAYLOAD.
    rewrite (cons_middle c pay q), (cons_middle c raw q), !app_assoc.
    assert (len (pay ++ [c]) = len pay + 1) as E1
      by (rewrite len_app, len_cons, len_nil; lia).
    destruct (Z.eqb_spec (len (pay ++ [c])) L) as [E|E].
    + assert (q = []) as -> by (destruct q; [reflexivity | rewrite len_cons in Hle; pose proof (len_nonneg q); lia]).
      cbn [loop].
      rewrite (app_nil_r (pay ++ [c])), (app_nil_r (raw ++ [c])).
      change (len [c]) with 1.
      destruct (Z.eqb_spec (len (pay ++ [c])) L); [|lia].
      first [reflexivity | do 2 f_equal; lia].
    + rewrite IH by lia.
      rewrite len_cons. first [reflexivity | do 2 f_equal; lia].
Qed.

Lemma step_CSUM1 n cls id L raw pay a :
  step 0 other_dec
    (mk_dstate CSUM1 n EmptyString cls id L raw pay 0 0 None [] []) a
  = Continue (mk_dstate CSUM2 (n + 1) EmptyString cls id L raw pay
                a 0 None [] []).
Proof. reflexivity. Qed.

Lemma step_CSUM2 n cls id L raw pay a b :
  step 0 other_dec
    (mk_dstate CSUM2 n EmptyString cls id L raw pay a 0 None [] []) b
  = Stop (mk_dstate BASE (n + 1) EmptyString cls id L raw pay a b None []
            (if negb ((checksum raw (len raw)).1 =? a)
                || negb ((checksum raw (len raw)).2 =? b)
             then [checksum_failed a b (checksum raw (len raw))] else []))
      (s_payload ← dispatch other_dec cls id L pay;
       Returned (n + 1, s_payload)).
Proof.
  run_step. destruct (negb _ || negb _); reflexivity.
Qed.

Lemma loop_ubx_frame c i P a b :
  len P < 65536 ->
  loop 0 other_dec initial (ubx_frame c i P a b)
  = Stop (ubx_final c i P a b)
      (s_payload ← dispatch other_dec c i (len P) P;
       Returned (8 + len P, s_payload)).
Proof.
  intros HP. pose proof (len_nonneg P) as H0.
  assert (len P mod 256 + 256 * (len P / 256) = len P) as HL
    by (pose proof (Z.div_mod (len P) 256); lia).
  unfold ubx_frame, ubx_final, ubx_checksum, ubx_raw.
  change ([181; 98] ++ ([c; i; len P mod 256; len P / 256] ++ P) ++ [a; b])
    with ([181; 98; c; i; len P mod 256; len P / 256] ++ (P ++ [a; b])).
  rewrite loop_app, loop_ubx_header, HL.
  destruct (Z.eqb_spec 0 (len P)) as [E|E].
  - assert (P = []) as ->
      by (destruct P; [reflexivity | rewrite len_cons in E; pose proof (len_nonneg P); lia]).
    cbn [app loop]. rewrite step_CSUM1. cbn [loop]. rewrite step_CSUM2.
    reflexivity.
  - rewrite loop_app, loop_ubx_payload by (change (len (@nil Z)) with 0; lia).
    rewrite app_nil_l, Z.eqb_refl.
    cbn [loop]. rewrite step_CSUM1. cbn [loop]. rewrite step_CSUM2.
    replace (6 + len P + 1 + 1) with (8 + len P) by lia.
    reflexivity.
Qed.

End UbxFrame.

(** ** The packet encoder *)

Lemma copy_payload_app rest : forall i pre mid post,
  length pre = (i + 4)%nat -> length mid = length rest ->
  copy_payload rest i (pre ++ mid ++ post)
  = if forallb byteb rest then Returned (pre ++ rest ++ post)
    else Raised ValueError.
Proof.
  induction rest as [|d rest IH]; intros i pre mid post Hpre Hmid.
  - destruct mid; [reflexivity | discriminate].
  - destruct mid as [|x mid]; [discriminate|]. simpl.
    destruct (byteb d); [|reflexivity]. simpl.
    rewrite <- Hpre.
    replace (length pre) with (length pre + 0)%nat by lia.
    rewrite insert_app_r. cbn [insert list_insert app].
    assert (length (pre ++ [d]) = (S i + 4)%nat) as Hpre'
      by (rewrite length_app; simpl; lia).
    assert (length mid = length rest) as Hmid' by (simpl in Hmid; lia).
    pose proof (IH (S i) (pre ++ [d]) mid post Hpre' Hmid') as H.
    rewrite <- !app_assoc in H. exact H.
Qed.

Lemma make_pkt_returned c i P pkt :
  make_pkt c i P = Returned pkt ->
  len P < 65536
  /\ pkt = ubx_frame c i P (ubx_checksum c i P).1 (ubx_checksum c i P).2.
Proof.
  unfold make_pkt, pack_into_BBH.
  destruct (byteb c && byteb i && (0 <=? len P) && (len P <? 65536)) eqn:E;
    [|discriminate].
  apply andb_prop in E as [_ E]. apply Z.ltb_lt in E.
  replace (Z.to_nat (len P + 6)) with (4 + (length P + 2))%nat
    by (unfold len; lia).
  rewrite replicate_add. cbn [replicate Nat.add app].
  rewrite replicate_add. cbn [mbind outcome_bind].
  change (<[3%nat:=?d]> (<[2%nat:=?l]> (<[1%nat:=?y]> (<[0%nat:=?x]> (0 :: 0 :: 0 :: 0 :: ?t)))))
    with ([x; y; l; d] ++ t).
  rewrite (copy_payload_app P 0 [c; i; len P mod 256; len P / 256]
             (replicate (length P) 0) (replicate 2 0))
    by (rewrite ?length_replicate; reflexivity).
  destruct (forallb byteb P); [|discriminate].
  cbn [mbind outcome_bind]. intros [= <-]. split; [exact E|].
  assert (slice_to (c :: i :: len P mod 256 :: len P / 256 :: P ++ [0; 0])
            (len P + 4) = ubx_raw c i P) as Hs.
  { unfold slice_to, ubx_raw. pose proof (len_nonneg P).
    destruct (Z.ltb_spec (len P + 4) 0); [lia|].
    change (c :: i :: len P mod 256 :: len P / 256 :: P ++ [0; 0])
      with (([c; i; len P mod 256; len P / 256] ++ P) ++ [0; 0]).
    apply take_app_length'.
    rewrite length_app. unfold len. simpl. lia. }
  unfold ubx_frame, ubx_checksum, checksum.
  rewrite Hs, slice_to_len. reflexivity.
Qed.

(** ** Decoding a complete UBX frame *)

Section UbxDecode.

Variable verbosity : Z.
Variable other_dec : decoder -> list Z -> outcome payload_msg.

(** A complete UBX frame at the start of the buffer, at any verbosity:
    the outcome is that of the dispatch, with [consumed] the length of the
    frame, and the locals and stderr are those of [ubx_final]. *)
Lemma decode_msg_ubx_frame c i P a b :
  len P < 65536 ->
  (decode_msg verbosity other_dec (ubx_frame c i P a b)).2
  = (s_payload ← dispatch other_dec c i (len P) P;
     Returned (8 + len P, s_payload))
  /\ silence (decode_msg verbosity other_dec (ubx_frame c i P a b)).1
     = ubx_final c i P a b.
Proof.
  intros HP.
  destruct (decode_msg_silent other_dec verbosity (ubx_frame c i P a b))
    as [-> ->].
  unfold decode_msg. rewrite loop_ubx_frame by exact HP. split; reflexivity.
Qed.

Lemma ubx_final_checksum_ok c i P :
  stderr (ubx_final c i P (ubx_checksum c i P).1 (ubx_checksum c i P).2) = [].
Proof. unfold ubx_final. simpl. rewrite !Z.eqb_refl. reflexivity. Qed.

Lemma ubx_final_checksum_bad c i P a b :
  (a, b) <> ubx_checksum c i P ->
  stderr (ubx_final c i P a b) = [checksum_failed a b (ubx_checksum c i P)].
Proof.
  intros H. unfold ubx_final. simpl.
  destruct (ubx_checksum c i P) as [x y]. simpl.
  destruct (Z.eqb_spec x a) as [->|]; [|reflexivity].
  destruct (Z.eqb_spec y b) as [->|]; [congruence | reflexivity].
Qed.

(** C4. For every complete UBX frame whose stored checksum bytes differ
    from the checksum computed over class, id, length and payload,
    [decode_msg] writes the checksum-failure diagnostic to stderr (the one
    line [ubxtool: ERROR checksum failed,was (a,b) s/b (x, y)], with the
    stored and the computed bytes in decimal) and still dispatches the
    payload: locals, consumed count and outcome are those of the same frame
    with a valid checksum (which writes nothing), so the mismatch itself is
    never fatal and never raises. *)
Theorem checksum_mismatch_not_fatal c i P a b :
  len P < 65536 ->
  (a, b) <> ubx_checksum c i P ->
  let bad := decode_msg verbosity other_dec (ubx_frame c i P a b) in
  let good := decode_msg verbosity other_dec
                (ubx_frame c i P (ubx_checksum c i P).1 (ubx_checksum c i P).2) in
  stderr bad.1
  = ["ubxtool: ERROR checksum failed,was (" +:+ fmt_d a +:+ ","
     +:+ fmt_d b +:+ ") s/b (" +:+ fmt_d (ubx_checksum c i P).1 +:+ ", "
     +:+ fmt_d (ubx_checksum c i P).2 +:+ ")" +:+ nl]
  /\ stderr good.1 = []
  /\ bad.2 = good.2
  /\ bad.2 = (s_payload ← dispatch other_dec c i (len P) P;
              Returned (8 + len P, s_payload))
  /\ (m_class bad.1, m_id bad.1, m_payload bad.1) = (c, i, P).
Proof.
  intros HP Hne bad good.
  destruct (decode_msg_ubx_frame c i P a b HP) as [Ho Hs].
  destruct (decode_msg_ubx_frame c i P (ubx_checksum c i P).1
              (ubx_checksum c i P).2 HP) as [Ho' Hs'].
  fold bad in Ho, Hs. fold good in Ho', Hs'.
  repeat split.
  - change (stderr bad.1) with (stderr (silence bad.1)). rewrite Hs.
    rewrite ubx_final_checksum_bad by exact Hne. reflexivity.
  - change (stderr good.1) with (stderr (silence good.1)). rewrite Hs'.
    apply ubx_final_checksum_ok.
  - congruence.
  - exact Ho.
  - change (m_class bad.1, m_id bad.1, m_payload bad.1)
      with (m_class (silence bad.1), m_id (silence bad.1),
            m_payload (silence bad.1)).
    rewrite Hs. reflexivity.
Qed.

(** C1 (amended). For every class byte [c], id byte [i] and payload [P]
    that [make_pkt] accepts, and for which the dispatch of [(c, i, P)]
    returns [r] (the decoder registered for the pair, if any, returns),
    [decode_msg] on [make_pkt(c, i, P)] returns [(6 + len(P) + 2, r)], the
    class, id and payload it parsed are [(c, i, P)], and it writes no
    checksum diagnostic. *)
Theorem decode_make_pkt c i P pkt r :
  make_pkt c i P = Returned pkt ->
  dispatch other_dec c i (len P) P = Returned r ->
  let d := decode_msg verbosity other_dec pkt in
  d.2 = Returned (6 + len P + 2, r)
  /\ (m_class d.1, m_id d.1, m_payload d.1) = (c, i, P)
  /\ stderr d.1 = [].
Proof.
  intros Hpkt Hr d.
  apply make_pkt_returned in Hpkt as [HP ->].
  destruct (decode_msg_ubx_frame c i P (ubx_checksum c i P).1
              (ubx_checksum c i P).2 HP) as [Ho Hs].
  fold d in Ho, Hs. repeat split.
  - rewrite Ho, Hr. replace (6 + len P + 2) with (8 + len P) by lia.
    reflexivity.
  - change (m_class d.1, m_id d.1, m_payload d.1)
      with (m_class (silence d.1), m_id (silence d.1), m_payload (silence d.1)).
    rewrite Hs. reflexivity.
  - change (stderr d.1) with (stderr (silence d.1)). rewrite Hs.
    apply ubx_final_checksum_ok.
Qed.

(** C5 (amended). For every frame built by [make_pkt] (so with a valid
    checksum) whose (class, id) pair has no registered payload decoder,
    [decode_msg] returns the consumed count and a string: when the id is
    listed in the id table of its class, the label of [class_id_s], the
    payload length in hex and the payload bytes in hex, comma-separated;
    when the class is not registered, has no id table, or the table does
    not list the id, only the payload bytes in hex, each followed by a
    space. *)
Theorem raw_fallback c i P pkt :
  make_pkt c i P = Returned pkt ->
  lookup_dec c i = None ->
  (decode_msg verbosity other_dec pkt).2
  = Returned (6 + len P + 2,
      RStr match lookup_entry c i with
           | Some _ =>
               class_id_s c i +:+ ", len " +:+ fmt_hash_x (len P)
               +:+ ", raw " +:+ join "," (fmt_02x <$> P)
           | None => join EmptyString ((fun x => fmt_02x x +:+ " ") <$> P)
           end).
Proof.
  intros Hpkt Hdec.
  apply make_pkt_returned in Hpkt as [HP ->].
  destruct (decode_msg_ubx_frame c i P (ubx_checksum c i P).1
              (ubx_checksum c i P).2 HP) as [-> _].
  replace (6 + len P + 2) with (8 + len P) by lia.
  unfold lookup_dec, lookup_entry in *. unfold dispatch.
  destruct (classes !! c) as [this_class|]; [|reflexivity].
  destruct (class_ids this_class) as [ids|]; [|reflexivity].
  destruct (ids !! i) as [entry|]; [|reflexivity].
  rewrite Hdec. reflexivity.
Qed.

End UbxDecode.

(** *** Concrete frames *)

(** C1, where the claim fails. [make_pkt(0x01, 0x13, b'\x00')] is a frame
    for UBX-NAV-HPPOSECEF with a one-byte payload: the decoder raises
    [struct.error], and so does [decode_msg]. And the frames for (3, 1) and
    (3, 2) with an empty payload give the same result, which mentions
    neither class nor id. *)
Lemma decode_make_pkt_counterexample :
  make_pkt 1 0x13 [0] = Returned [181; 98; 1; 19; 1; 0; 0; 21; 84]
  /\ (decode_msg VERB_NONE poll_only_dec [181; 98; 1; 19; 1; 0; 0; 21; 84]).2
     = Raised StructError
  /\ make_pkt 3 1 [] = Returned [181; 98; 3; 1; 0; 0; 4; 15]
  /\ make_pkt 3 2 [] = Returned [181; 98; 3; 2; 0; 0; 5; 18]
  /\ (decode_msg VERB_NONE poll_only_dec [181; 98; 3; 1; 0; 0; 4; 15]).2
     = Returned (8, RStr EmptyString)
  /\ (decode_msg VERB_NONE poll_only_dec [181; 98; 3; 2; 0; 0; 5; 18]).2
     = Returned (8, RStr EmptyString).
Proof. vm_compute. repeat split. Qed.

Lemma decode_make_pkt_witness :
  let d := decode_msg VERB_NONE poll_only_dec
             [181; 98; 6; 2; 3; 0; 1; 2; 255; 13; 75] in
  d.2 = Returned (6 + len [1; 2; 255] + 2,
                  RStr "Class: CFG(0x6) ID: INF(0x2), len 0x3, raw 01,02,ff")
  /\ (m_class d.1, m_id d.1, m_payload d.1) = (6, 2, [1; 2; 255])
  /\ stderr d.1 = [].
Proof.
  apply (decode_make_pkt VERB_NONE poll_only_dec 6 2 [1; 2; 255]);
    vm_compute; reflexivity.
Defined.

(** The CFG-INF frame [B5 62 06 02 01 00 07 00 00]: the computed checksum
    is (16, 48), the stored one (0, 0). *)
Lemma checksum_mismatch_not_fatal_witness :
  (let bad := decode_msg VERB_NONE poll_only_dec (ubx_frame 6 2 [7] 0 0) in
   let good := decode_msg VERB_NONE poll_only_dec
                 (ubx_frame 6 2 [7] (ubx_checksum 6 2 [7]).1
                    (ubx_checksum 6 2 [7]).2) in
   stderr bad.1
   = ["ubxtool: ERROR checksum failed,was (" +:+ fmt_d 0 +:+ ","
      +:+ fmt_d 0 +:+ ") s/b (" +:+ fmt_d (ubx_checksum 6 2 [7]).1 +:+ ", "
      +:+ fmt_d (ubx_checksum 6 2 [7]).2 +:+ ")" +:+ nl]
   /\ stderr good.1 = []
   /\ bad.2 = good.2
   /\ bad.2 = (s_payload ← dispatch poll_only_dec 6 2 (len [7]) [7];
               Returned (8 + len [7], s_payload))
   /\ (m_class bad.1, m_id bad.1, m_payload bad.1) = (6, 2, [7]))
  /\ stderr (decode_msg VERB_NONE poll_only_dec
               [0xb5; 0x62; 6; 2; 1; 0; 7; 0; 0]).1
     = ["ubxtool: ERROR checksum failed,was (0,0) s/b (16, 48)"
        +:+ String "010"%char EmptyString]
  /\ (decode_msg VERB_NONE poll_only_dec
        [0xb5; 0x62; 6; 2; 1; 0; 7; 0; 0]).2
     = Returned (9, RStr "Class: CFG(0x6) ID: INF(0x2), len 0x1, raw 07").
Proof.
  split; [|split; vm_compute; reflexivity].
  apply (checksum_mismatch_not_fatal VERB_NONE poll_only_dec 6 2 [7] 0 0).
  - vm_compute. reflexivity.
  - vm_compute. discriminate.
Defined.

(** C5, where the claim fails: class 3 is not registered, and the result
    of a checksum-verified frame for (3, 1) is the bare hex payload; the
    label of [class_id_s] is no part of it. *)
Lemma raw_fallback_counterexample :
  make_pkt 3 1 [0xab] = Returned [181; 98; 3; 1; 1; 0; 171; 176; 193]
  /\ lookup_dec 3 1 = None
  /\ (decode_msg VERB_NONE poll_only_dec [181; 98; 3; 1; 1; 0; 171; 176; 193]).2
     = Returned (9, RStr "ab ")
  /\ class_id_s 3 1 = "Class: 0x3 ID: 0x1"
  /\ str_contains (class_id_s 3 1) "ab " = false.
Proof. vm_compute. repeat split. Qed.

Lemma raw_fallback_witness :
  (decode_msg VERB_NONE poll_only_dec [181; 98; 6; 2; 3; 0; 1; 2; 255; 13; 75]).2
  = Returned (6 + len [1; 2; 255] + 2,
      RStr match lookup_entry 6 2 with
           | Some _ =>
               class_id_s 6 2 +:+ ", len " +:+ fmt_hash_x (len [1; 2; 255])
               +:+ ", raw " +:+ join "," (fmt_02x <$> [1; 2; 255])
           | None =>
               join EmptyString ((fun x => fmt_02x x +:+ " ") <$> [1; 2; 255])
           end).
Proof.
  apply (raw_fallback VERB_NONE poll_only_dec 6 2 [1; 2; 255]);
    vm_compute; reflexivity.
Defined.

(** ** RTCM3 frames, text lines and partial frames *)

Lemma string_app_assoc (s1 s2 s3 : string) :
  (s1 +:+ s2) +:+ s3 = s1 +:+ (s2 +:+ s3).
Proof.
  induction s1 as [|a s1 IH]; [reflexivity|].
  change (String a ((s1 +:+ s2) +:+ s3) = String a (s1 +:+ s2 +:+ s3)).
  f_equal. exact IH.
Qed.

Lemma string_app_empty_r (s : string) : s +:+ EmptyString = s.
Proof.
  induction s as [|a s IH]; [reflexivity|].
  change (String a (s +:+ EmptyString) = String a s).
  f_equal. exact IH.
Qed.

Section OtherFrames.

Variable other_dec : decoder -> list Z -> outcome payload_msg.

(** *** RTCM3 *)

Lemma rtcm3_length_nonneg b1 b2 : 0 <= b1 -> 0 <= rtcm3_length b1 b2.
Proof.
  intros H. unfold rtcm3_length. apply Z.lor_nonneg. split.
  - apply Z.shiftl_nonneg, H.
  - apply Z.land_nonneg. left. lia.
Qed.

Lemma loop_rtcm3_header b1 b2 :
  Z.land b1 0xfc = 0 ->
  loop 0 other_dec initial [0xd3; b1; b2]
  = Continue (mk_dstate RTCM3_PAYLOAD 3 "#" 0 0 (rtcm3_length b1 b2 + 3)
                [b1; b2] [] 0 0 None [] []).
Proof.
  intros H.
  change [211; b1; b2] with ([211] ++ [b1; b2]).
  rewrite loop_app.
  change (loop 0 other_dec initial [211])
    with (Continue (mk_dstate RTCM3_1 1 "#" 0 0 0 [] [] 0 0 None [] [])).
  cbn [loop]. run_step. rewrite H. reflexivity.
Qed.

Lemma step_RTCM3_PAYLOAD n L raw pay ty c :
  L - 1 <> 0 ->
  step 0 other_dec
    (mk_dstate RTCM3_PAYLOAD n "#" 0 0 L raw pay 0 0 ty [] []) c
  = Continue (mk_dstate RTCM3_PAYLOAD (n + 1) "#" 0 0 (L - 1)
                (raw ++ [c]) (pay ++ [c]) 0 0 ty [] []).
Proof.
  intros H. run_step. destruct (Z.eqb_spec 0 (L - 1)); [lia | reflexivity].
Qed.

Lemma step_RTCM3_PAYLOAD_last n raw pay ty c p0 p1 T :
  pay ++ [c] = p0 :: p1 :: T ->
  step 0 other_dec
    (mk_dstate RTCM3_PAYLOAD n "#" 0 0 1 raw pay 0 0 ty [] []) c
  = Continue (mk_dstate BASE (n + 1) "#" 0 0 0 (raw ++ [c]) (pay ++ [c])
                0 0 (Some (top12 p0 p1)) [] []).
Proof.
  intros H. run_step. unfold extend. rewrite H. reflexivity.
Qed.

Lemma loop_rtcm3_payload q : forall n L raw pay ty,
  len q < L ->
  loop 0 other_dec
    (mk_dstate RTCM3_PAYLOAD n "#" 0 0 L raw pay 0 0 ty [] []) q
  = Continue (mk_dstate RTCM3_PAYLOAD (n + len q) "#" 0 0 (L - len q)
                (raw ++ q) (pay ++ q) 0 0 ty [] []).
Proof.
  induction q as [|c q IH]; intros n L raw pay ty Hlt.
  - rewrite (app_nil_r raw), (app_nil_r pay). change (len (@nil Z)) with 0.
    replace (n + 0) with n by lia. replace (L - 0) with L by lia. reflexivity.
  - rewrite len_cons in Hlt. pose proof (len_nonneg q) as Hq.
    cbn [loop]. rewrite step_RTCM3_PAYLOAD by lia.
    rewrite IH by lia.
    rewrite (cons_middle c raw q), (cons_middle c pay q), !app_assoc, len_cons.
    replace (n + 1 + len q) with (n + (1 + len q)) by lia.
    replace (L - 1 - len q) with (L - (1 + len q)) by lia.
    reflexivity.
Qed.

(** A complete RTCM3 frame brings the loop back to [BASE], with [type]
    bound to the top 12 bits of the first two payload bytes, and the loop
    goes on. *)
Lemma loop_rtcm3_frame b1 b2 P :
  0 <= b1 -> Z.land b1 0xfc = 0 ->
  len P = rtcm3_length b1 b2 + 3 ->
  exists p0 p1 T,
    P = p0 :: p1 :: T
    /\ loop 0 other_dec initial (0xd3 :: b1 :: b2 :: P)
       = Continue (mk_dstate BASE (3 + len P) "#" 0 0 0 (b1 :: b2 :: P) P
                     0 0 (Some (top12 p0 p1)) [] []).
Proof.
  intros Hb1 Hland HP.
  pose proof (rtcm3_length_nonneg b1 b2 Hb1) as HL.
  destruct P as [|p0 [|p1 T]];
    [change (len (@nil Z)) with 0 in HP; lia
    | change (len [p0]) with 1 in HP; lia |].
  exists p0, p1, T. split; [reflexivity|].
  destruct (exists_last (l := p0 :: p1 :: T)) as [P' [c HPc]]; [discriminate|].
  rewrite HPc in *. rewrite len_app in *. change (len [c]) with 1 in *.
  change (211 :: b1 :: b2 :: P' ++ [c]) with ([211; b1; b2] ++ P' ++ [c]).
  rewrite loop_app, loop_rtcm3_header by exact Hland.
  rewrite loop_app, loop_rtcm3_payload by lia.
  replace (rtcm3_length b1 b2 + 3 - len P') with 1 by lia.
  cbn [loop]. rewrite (step_RTCM3_PAYLOAD_last _ _ _ _ _ p0 p1 T)
    by (rewrite app_nil_l; symmetry; exact HPc).
  rewrite app_nil_l. do 2 f_equal. lia.
Qed.

(** *** Text lines: NMEA sentences, comments and JSON *)

Lemma step_text st n cm c :
  text_mode st -> is_eol c = false ->
  step 0 other_dec (mk_dstate st n cm 0 0 0 [] [] 0 0 None [] []) c
  = Continue (mk_dstate st (n + 1) (cm +:+ String (chr c) EmptyString)
                0 0 0 [] [] 0 0 None [] []).
Proof.
  intros [->|[->| ->]] H; run_step; rewrite H; reflexivity.
Qed.

Lemma loop_text st body : forall n cm,
  text_mode st -> Forall (fun c => is_eol c = false) body ->
  loop 0 other_dec (mk_dstate st n cm 0 0 0 [] [] 0 0 None [] []) body
  = Continue (mk_dstate st (n + len body) (cm +:+ chars body)
                0 0 0 [] [] 0 0 None [] []).
Proof.
  induction body as [|c body IH]; intros n cm Hst Hb.
  - cbn [loop chars foldr]. change (len (@nil Z)) with 0.
    replace (n + 0) with n by lia.
    rewrite string_app_empty_r. reflexivity.
  - inversion Hb as [|? ? Hc Hb']; subst.
    cbn [loop]. rewrite step_text by assumption.
    rewrite IH by assumption. rewrite len_cons, string_app_assoc.
    replace (n + 1 + len body) with (n + (1 + len body)) by lia.
    reflexivity.
Qed.

Lemma loop_lead lead :
  lead = 36 \/ lead = 123 \/ lead = 35 ->
  exists st, text_mode st
    /\ loop 0 other_dec initial [lead]
       = Continue (mk_dstate st 1 (String (chr lead) EmptyString)
                     0 0 0 [] [] 0 0 None [] []).
Proof.
  intros [->|[->| ->]].
  - exists NMEA. split; [left; reflexivity | reflexivity].
  - exists JSON. split; [right; right; reflexivity | reflexivity].
  - exists COMMENT. split; [right; left; reflexivity | reflexivity].
Qed.

End OtherFrames.

(** ** What an RTCM3 frame prints *)

Ltac run_step_at v :=
  unfold step, trace;
  replace (VERB_RAW <=? v) with false
    by (symmetry; apply Z.leb_gt; assumption);
  cbn -[Z.add Z.mul Z.sub Z.eqb Z.leb Z.land Z.lor Z.shiftl Z.shiftr
        len checksum dispatch checksum_failed lookup is_eol str_contains
        String.append VERB_DECODE].

Section Rtcm3Stdout.

Variable other_dec : decoder -> list Z -> outcome payload_msg.
Variable v : Z.

(** Below [VERB_RAW] no byte is traced, and the frame prints nothing
    before its last byte. *)
Lemma loop_rtcm3_header_at b1 b2 :
  v < VERB_RAW -> Z.land b1 0xfc = 0 ->
  loop v other_dec initial [0xd3; b1; b2]
  = Continue (mk_dstate RTCM3_PAYLOAD 3 "#" 0 0 (rtcm3_length b1 b2 + 3)
                [b1; b2] [] 0 0 None [] []).
Proof.
  intros Hv H. cbn [loop].
  assert (step v other_dec initial 0xd3
          = Continue (mk_dstate RTCM3_1 1 "#" 0 0 0 [] [] 0 0 None [] []))
    as -> by (run_step_at v; reflexivity).
  assert (step v other_dec
            (mk_dstate RTCM3_1 1 "#" 0 0 0 [] [] 0 0 None [] []) b1
          = Continue (mk_dstate RTCM3_2 2 "#" 0 0 (Z.shiftl b1 8) [b1] []
                        0 0 None [] []))
    as -> by (run_step_at v; rewrite H; reflexivity).
  run_step_at v. reflexivity.
Qed.

Lemma step_RTCM3_PAYLOAD_at n L raw pay ty c :
  v < VERB_RAW -> L - 1 <> 0 ->
  step v other_dec
    (mk_dstate RTCM3_PAYLOAD n "#" 0 0 L raw pay 0 0 ty [] []) c
  = Continue (mk_dstate RTCM3_PAYLOAD (n + 1) "#" 0 0 (L - 1)
                (raw ++ [c]) (pay ++ [c]) 0 0 ty [] []).
Proof.
  intros Hv H. run_step_at v.
  destruct (Z.eqb_spec 0 (L - 1)); [lia | reflexivity].
Qed.

Lemma step_RTCM3_PAYLOAD_last_at n raw pay ty c p0 p1 T :
  v < VERB_RAW -> pay ++ [c] = p0 :: p1 :: T ->
  step v other_dec
    (mk_dstate RTCM3_PAYLOAD n "#" 0 0 1 raw pay 0 0 ty [] []) c
  = Continue (mk_dstate BASE (n + 1) "#" 0 0 0 (raw ++ [c]) (pay ++ [c])
                0 0 (Some (top12 p0 p1))
                (if VERB_DECODE <=? v
                 then [("RTCM3 packet: type " +:+ fmt_d (top12 p0 p1) +:+ nl) +:+ nl]
                 else [])
                []).
Proof.
  intros Hv H. run_step_at v. unfold extend. rewrite H.
  cbn [lookup list_lookup].
  destruct (VERB_DECODE <=? v); reflexivity.
Qed.

Lemma loop_rtcm3_payload_at q : forall n L raw pay ty,
  v < VERB_RAW -> len q < L ->
  loop v other_dec
    (mk_dstate RTCM3_PAYLOAD n "#" 0 0 L raw pay 0 0 ty [] []) q
  = Continue (mk_dstate RTCM3_PAYLOAD (n + len q) "#" 0 0 (L - len q)
                (raw ++ q) (pay ++ q) 0 0 ty [] []).
Proof.
  induction q as [|c q IH]; intros n L raw pay ty Hv Hlt.
  - rewrite (app_nil_r raw), (app_nil_r pay). change (len (@nil Z)) with 0.
    replace (n + 0) with n by lia. replace (L - 0) with L by lia. reflexivity.
  - rewrite len_cons in Hlt. pose proof (len_nonneg q) as Hq.
    cbn [loop]. rewrite step_RTCM3_PAYLOAD_at by (assumption || lia).
    rewrite IH by (assumption || lia).
    rewrite (cons_middle c raw q), (cons_middle c pay q), !app_assoc, len_cons.
    replace (n + 1 + len q) with (n + (1 + len q)) by lia.
    replace (L - 1 - len q) with (L - (1 + len q)) by lia.
    reflexivity.
Qed.

(** Below [VERB_RAW], what a complete RTCM3 frame leaves on stdout: the
    line with its type at [VERB_DECODE] and above, nothing below. *)
Lemma loop_rtcm3_frame_at b1 b2 P p0 p1 T :
  v < VERB_RAW ->
  0 <= b1 -> Z.land b1 0xfc = 0 ->
  len P = rtcm3_length b1 b2 + 3 ->
  P = p0 :: p1 :: T ->
  exists s,
    loop v other_dec initial (0xd3 :: b1 :: b2 :: P) = Continue s
    /\ stdout s
       = if VERB_DECODE <=? v
         then [("RTCM3 packet: type " +:+ fmt_d (top12 p0 p1) +:+ nl) +:+ nl]
         else [].
Proof.
  intros Hv Hb1 Hland HP HPeq.
  pose proof (rtcm3_length_nonneg b1 b2 Hb1) as HL.
  destruct (exists_last (l := P)) as [P' [c HPc]]; [rewrite HPeq; discriminate|].
  rewrite HPc in HP. rewrite len_app in HP. change (len [c]) with 1 in HP.
  rewrite HPc.
  change (211 :: b1 :: b2 :: P' ++ [c]) with ([211; b1; b2] ++ P' ++ [c]).
  rewrite loop_app, loop_rtcm3_header_at by assumption.
  rewrite loop_app, loop_rtcm3_payload_at by (assumption || lia).
  replace (rtcm3_length b1 b2 + 3 - len P') with 1 by lia.
  cbn [loop]. rewrite (step_RTCM3_PAYLOAD_last_at _ _ _ _ _ p0 p1 T)
    by (try assumption; rewrite app_nil_l, <- HPc; exact HPeq).
  eexists. split; reflexivity.
Qed.

(** At any verbosity, the last byte of the frame prints the line with
    the type at [VERB_DECODE] and above, after what was printed before, and
    prints no such line below. *)
Lemma step_RTCM3_PAYLOAD_last_stdout s c p0 p1 T :
  state s = RTCM3_PAYLOAD -> m_len s = 1 ->
  m_payload s ++ [c] = p0 :: p1 :: T ->
  exists s' tr,
    step v other_dec s c = Continue s'
    /\ stdout s'
       = tr ++ (if VERB_DECODE <=? v
                then [("RTCM3 packet: type " +:+ fmt_d (top12 p0 p1) +:+ nl) +:+ nl]
                else []).
Proof.
  destruct s as [st n cm cl i l raw pay a b ty so se].
  cbn [state m_len m_payload]. intros -> -> H.
  unfold step, trace.
  destruct (VERB_RAW <=? v); [destruct ((32 <=? c) && (126 >=? c))|];
    rec_simpl; change (0 =? 1 - 1) with true; cbv iota; rec_simpl;
    unfold extend; rewrite H; cbn [lookup list_lookup]; rec_simpl;
    destruct (VERB_DECODE <=? v); rec_simpl;
    do 2 eexists; (split; [reflexivity|]);
    first [reflexivity | rewrite app_nil_r; reflexivity].
Qed.

End Rtcm3Stdout.

(** ** Frames at any verbosity *)

Section AnyVerbosity.

Variable verbosity : Z.
Variable other_dec : decoder -> list Z -> outcome payload_msg.

Lemma loop_continue_verbose p s0 :
  loop 0 other_dec initial p = Continue s0 ->
  exists s, loop verbosity other_dec initial p = Continue s
            /\ silence s = silence s0.
Proof.
  intros H. pose proof (loop_silent other_dec p verbosity initial) as Hs.
  change (silence initial) with initial in Hs. rewrite H in Hs.
  destruct (loop verbosity other_dec initial p) as [s|s o];
    simpl in Hs; [|discriminate].
  apply Continue_inj in Hs. eauto.
Qed.

(** What a complete RTCM3 frame leaves on stdout: at [VERB_DECODE] and
    above the line with the type, after the traces of the bytes (there are
    none below [VERB_RAW]); below [VERB_DECODE] nothing. *)
Lemma loop_rtcm3_frame_stdout b1 b2 P p0 p1 T s :
  0 <= b1 -> Z.land b1 0xfc = 0 ->
  len P = rtcm3_length b1 b2 + 3 ->
  P = p0 :: p1 :: T ->
  loop verbosity other_dec initial (0xd3 :: b1 :: b2 :: P) = Continue s ->
  exists tr,
    stdout s
    = tr ++ (if VERB_DECODE <=? verbosity
             then [("RTCM3 packet: type " +:+ fmt_d (top12 p0 p1) +:+ nl)
                   +:+ nl]
             else [])
    /\ (verbosity < VERB_RAW -> tr = []).
Proof.
  intros Hb1 Hland HP HPeq Hs.
  destruct (Z.ltb_spec verbosity VERB_RAW) as [Hv|Hv].
  - destruct (loop_rtcm3_frame_at other_dec verbosity b1 b2 P p0 p1 T
                Hv Hb1 Hland HP HPeq) as (s' & Hs' & Hout).
    rewrite Hs in Hs'. apply Continue_inj in Hs'. subst s'.
    exists []. split; [exact Hout | reflexivity].
  - pose proof (rtcm3_length_nonneg b1 b2 Hb1) as HL.
    destruct (exists_last (l := P)) as [P' [c HPc]];
      [rewrite HPeq; discriminate|].
    rewrite HPc in HP. rewrite len_app in HP. change (len [c]) with 1 in HP.
    assert (loop 0 other_dec initial (0xd3 :: b1 :: b2 :: P')
            = Continue (mk_dstate RTCM3_PAYLOAD (3 + len P') "#" 0 0 1
                          ([b1; b2] ++ P') P' 0 0 None [] [])) as H0.
    { change (211 :: b1 :: b2 :: P') with ([211; b1; b2] ++ P').
      rewrite loop_app, loop_rtcm3_header by exact Hland.
      rewrite loop_rtcm3_payload by lia.
      replace (rtcm3_length b1 b2 + 3 - len P') with 1 by lia.
      reflexivity. }
    destruct (loop_continue_verbose _ _ H0) as (s1 & Hs1 & Hsil).
    rewrite HPc in Hs.
    change (211 :: b1 :: b2 :: P' ++ [c])
      with ((211 :: b1 :: b2 :: P') ++ [c]) in Hs.
    rewrite loop_app, Hs1 in Hs. cbn [loop] in Hs.
    destruct (step_RTCM3_PAYLOAD_last_stdout other_dec verbosity s1 c p0 p1 T)
      as (s' & tr & Hstep & Hout).
    + change (state s1) with (state (silence s1)). rewrite Hsil. reflexivity.
    + change (m_len s1) with (m_len (silence s1)). rewrite Hsil. reflexivity.
    + change (m_payload s1) with (m_payload (silence s1)). rewrite Hsil.
      cbn [m_payload silence]. rewrite <- HPc. exact HPeq.
    + rewrite Hstep in Hs. apply Continue_inj in Hs. subst s'.
      exists tr. split; [exact Hout | lia].
Qed.

(** C2 (amended). For every buffer that holds a complete RTCM3 frame
    ([0xD3], a byte with its six high bits zero, the low length byte, then
    the announced length plus 3 bytes), [decode_msg] does not return when
    the counted length reaches 0: the loop is back in state [BASE] with all
    bytes of the frame counted, [type] bound to the top 12 bits of the first
    two payload bytes, and it goes on with the bytes that follow; on the
    frame alone the call returns [(0, 0)]. The type is printed only at
    verbosity [VERB_DECODE] and above: below, the call prints nothing; from
    [VERB_DECODE] on, the line [RTCM3 packet: type N] and an empty line are
    the last thing printed, and below [VERB_RAW] the only thing. *)
Theorem rtcm3_frame_not_returned b1 b2 P :
  0 <= b1 -> Z.land b1 0xfc = 0 ->
  len P = rtcm3_length b1 b2 + 3 ->
  exists s p0 p1,
    decode_msg verbosity other_dec (0xd3 :: b1 :: b2 :: P)
    = (s, Returned (0, RInt 0))
    /\ state s = BASE
    /\ consumed s = len (0xd3 :: b1 :: b2 :: P)
    /\ m_payload s = P
    /\ P !! 0%nat = Some p0 /\ P !! 1%nat = Some p1
    /\ rtcm_type s = Some (top12 p0 p1)
    /\ (verbosity < VERB_DECODE -> stdout s = [])
    /\ (VERB_DECODE <= verbosity ->
        exists tr,
          stdout s
          = tr ++ [("RTCM3 packet: type " +:+ fmt_d (top12 p0 p1) +:+ nl)
                   +:+ nl]
          /\ (verbosity < VERB_RAW -> tr = []))
    /\ forall rest,
         loop verbosity other_dec initial ((0xd3 :: b1 :: b2 :: P) ++ rest)
         = loop verbosity other_dec s rest.
Proof.
  intros Hb1 Hland HP.
  destruct (loop_rtcm3_frame other_dec b1 b2 P Hb1 Hland HP)
    as (p0 & p1 & T & HPeq & Hloop).
  destruct (loop_continue_verbose _ _ Hloop) as (s & Hs & Hsil).
  destruct (loop_rtcm3_frame_stdout b1 b2 P p0 p1 T s Hb1 Hland HP HPeq Hs)
    as (tr & Hout & Htr).
  exists s, p0, p1. unfold decode_msg. rewrite Hs.
  split; [reflexivity|].
  split; [change (state s) with (state (silence s)); rewrite Hsil; reflexivity|].
  split.
  { change (consumed s) with (consumed (silence s)). rewrite Hsil.
    cbn [consumed silence]. rewrite !len_cons. lia. }
  split; [change (m_payload s) with (m_payload (silence s)); rewrite Hsil; reflexivity|].
  split; [rewrite HPeq; reflexivity|].
  split; [rewrite HPeq; reflexivity|].
  split; [change (rtcm_type s) with (rtcm_type (silence s)); rewrite Hsil; reflexivity|].
  split.
  { intros Hlow. rewrite Hout.
    destruct (Z.leb_spec VERB_DECODE verbosity) as [Hge|_]; [lia|].
    rewrite Htr by (unfold VERB_DECODE, VERB_RAW in *; lia). reflexivity. }
  split.
  { intros Hge. exists tr. split; [|exact Htr]. rewrite Hout.
    destruct (Z.leb_spec VERB_DECODE verbosity) as [_|Hlt]; [reflexivity | lia]. }
  intros rest. rewrite loop_app, Hs. reflexivity.
Qed.

(** Each complete frame, without its last byte, is read to its end
    without a [return]. *)
Lemma frame_all_but_last f :
  frame f ->
  exists f' x s0, f = f' ++ [x] /\ loop 0 other_dec initial f' = Continue s0.
Proof.
  intros [c i P a b HP | lead body eol Hlead Hbody Heol | b1 b2 P Hb1 Hb2 Hland HP].
  - pose proof (len_nonneg P) as H0.
    assert (len P mod 256 + 256 * (len P / 256) = len P) as HL
      by (pose proof (Z.div_mod (len P) 256); lia).
    exists ([0xb5; 0x62; c; i; len P mod 256; len P / 256] ++ P ++ [a]), b.
    assert (exists s0,
      loop 0 other_dec initial
        ([0xb5; 0x62; c; i; len P mod 256; len P / 256] ++ P ++ [a])
      = Continue s0) as [s0 Hs0].
    { rewrite loop_app, loop_ubx_header, HL.
      destruct (Z.eqb_spec 0 (len P)) as [E|E].
      + assert (P = []) as ->
          by (destruct P; [reflexivity | rewrite len_cons in E; pose proof (len_nonneg P); lia]).
        cbn [app loop]. rewrite step_CSUM1. eexists. reflexivity.
      + rewrite loop_app, loop_ubx_payload by (change (len (@nil Z)) with 0; lia).
        rewrite app_nil_l, Z.eqb_refl. cbn [loop]. rewrite step_CSUM1.
        eexists. reflexivity. }
    exists s0. split; [|exact Hs0].
    unfold ubx_frame, ubx_raw. cbn [app]. rewrite <- !app_assoc. reflexivity.
  - destruct (loop_lead other_dec lead Hlead) as (st & Hst & Hl).
    exists (lead :: body), eol. eexists. split; [reflexivity|].
    change (lead :: body) with ([lead] ++ body).
    rewrite loop_app, Hl. apply loop_text; assumption.
  - destruct Hb1 as [Hb1 _].
    pose proof (rtcm3_length_nonneg b1 b2 Hb1) as HL.
    destruct (exists_last (l := P)) as [P' [c HPc]].
    { intros ->. change (len (@nil Z)) with 0 in HP. lia. }
    subst P. rewrite len_app in HP. change (len [c]) with 1 in HP.
    exists (0xd3 :: b1 :: b2 :: P'), c. eexists. split; [reflexivity|].
    change (211 :: b1 :: b2 :: P') with ([211; b1; b2] ++ P').
    rewrite loop_app, loop_rtcm3_header by exact Hland.
    apply loop_rtcm3_payload. lia.
Qed.

(** C6. For every buffer that holds only the first [k < total] bytes of a
    frame (UBX with any payload length up to 0xFFFF, text line, or RTCM3),
    [decode_msg] reads the whole buffer and returns [(0, 0)]: it raises
    nothing, writes nothing to stderr, and returns no result before the
    last byte of the frame is there. *)
Theorem partial_frame_needs_more f k :
  frame f -> (k < length f)%nat ->
  (decode_msg verbosity other_dec (take k f)).2 = Returned (0, RInt 0)
  /\ stderr (decode_msg verbosity other_dec (take k f)).1 = [].
Proof.
  intros Hf Hk.
  destruct (frame_all_but_last f Hf) as (f' & x & s0 & -> & Hloop).
  rewrite length_app in Hk. simpl in Hk.
  rewrite take_app_le by lia.
  rewrite <- (take_drop k f') in Hloop.
  apply loop_prefix in Hloop as [s1 Hs1].
  destruct (loop_continue_verbose _ _ Hs1) as (s & Hs & _).
  unfold decode_msg. rewrite Hs. split; [reflexivity|].
  apply (loop_continue_stderr other_dec verbosity _ _ _ Hs).
Qed.

End AnyVerbosity.

(** C2, where the claim fails: a complete RTCM3 frame of type 1005 (two
    payload bytes and three CRC bytes); the call returns [(0, 0)], so no
    byte is reported as scanned and no frame is returned. *)
Lemma rtcm3_frame_counterexample :
  (decode_msg VERB_NONE poll_only_dec [0xd3; 0; 2; 0x3e; 0xd0; 1; 2; 3]).2
  = Returned (0, RInt 0)
  /\ top12 0x3e 0xd0 = 1005.
Proof. vm_compute. split; reflexivity. Qed.

(** The frame of type 1005 at verbosity [VERB_DECODE], where its type is
    printed, and what the same call prints at [VERB_NONE]. *)
Lemma rtcm3_frame_not_returned_witness :
  (exists s p0 p1,
    decode_msg VERB_DECODE poll_only_dec (0xd3 :: 0 :: 2 :: [0x3e; 0xd0; 1; 2; 3])
    = (s, Returned (0, RInt 0))
    /\ state s = BASE
    /\ consumed s = len (0xd3 :: 0 :: 2 :: [0x3e; 0xd0; 1; 2; 3])
    /\ m_payload s = [0x3e; 0xd0; 1; 2; 3]
    /\ [0x3e; 0xd0; 1; 2; 3] !! 0%nat = Some p0
    /\ [0x3e; 0xd0; 1; 2; 3] !! 1%nat = Some p1
    /\ rtcm_type s = Some (top12 p0 p1)
    /\ (VERB_DECODE < VERB_DECODE -> stdout s = [])
    /\ (VERB_DECODE <= VERB_DECODE ->
        exists tr,
          stdout s
          = tr ++ [("RTCM3 packet: type " +:+ fmt_d (top12 p0 p1) +:+ nl)
                   +:+ nl]
          /\ (VERB_DECODE < VERB_RAW -> tr = []))
    /\ forall rest,
         loop VERB_DECODE poll_only_dec initial
           ((0xd3 :: 0 :: 2 :: [0x3e; 0xd0; 1; 2; 3]) ++ rest)
         = loop VERB_DECODE poll_only_dec s rest)
  /\ stdout (decode_msg VERB_DECODE poll_only_dec
               [0xd3; 0; 2; 0x3e; 0xd0; 1; 2; 3]).1
     = ["RTCM3 packet: type 1005"
        +:+ String "010"%char (String "010"%char EmptyString)]
  /\ stdout (decode_msg VERB_NONE poll_only_dec
               [0xd3; 0; 2; 0x3e; 0xd0; 1; 2; 3]).1
     = [].
Proof.
  split; [|split; vm_compute; reflexivity].
  apply (rtcm3_frame_not_returned VERB_DECODE poll_only_dec 0 2
           [0x3e; 0xd0; 1; 2; 3]).
  - lia.
  - reflexivity.
  - reflexivity.
Defined.

(** The buffer [B5 62 01 07 00 01], sixteen bytes and a carriage return:
    the header announces 0x0100 payload bytes, the buffer has seventeen. *)
Lemma partial_frame_needs_more_witness :
  take 23 (ubx_frame 1 7 (replicate 16 0xaa ++ [13] ++ replicate 239 0) 0 0)
  = [0xb5; 0x62; 1; 7; 0x00; 0x01] ++ replicate 16 0xaa ++ [13]
  /\ (decode_msg VERB_NONE poll_only_dec
        (take 23 (ubx_frame 1 7 (replicate 16 0xaa ++ [13] ++ replicate 239 0) 0 0))).2
     = Returned (0, RInt 0)
  /\ stderr (decode_msg VERB_NONE poll_only_dec
        (take 23 (ubx_frame 1 7 (replicate 16 0xaa ++ [13] ++ replicate 239 0) 0 0))).1
     = [].
Proof.
  split; [vm_compute; reflexivity|].
  apply (partial_frame_needs_more VERB_NONE poll_only_dec
           (ubx_frame 1 7 (replicate 16 0xaa ++ [13] ++ replicate 239 0) 0 0) 23).
  - apply frame_ubx. vm_compute. reflexivity.
  - vm_compute. lia.
Defined.

(** ** Payload decoders *)

Lemma assign_all_lookup kvs : forall d k,
  assign_all d kvs !! k = assoc_last k kvs (d !! k).
Proof.
  induction kvs as [|[k' v] kvs IH]; intros d k; [reflexivity|].
  cbn [assign_all foldl assoc_last fst snd].
  change (foldl _ (<[k':=v]> d) kvs) with (assign_all (<[k':=v]> d) kvs).
  rewrite IH. f_equal. rewrite lookup_insert.
  destruct (String.eqb_spec k' k) as [->|Hne].
  - rewrite decide_True by reflexivity. reflexivity.
  - rewrite decide_False by exact Hne. reflexivity.
Qed.

Lemma unpack_from_ok fmt fs buf offset :
  parse_fmt fmt = Some fs ->
  0 <= offset -> calcsize fs <= len buf - offset ->
  unpack_from fmt buf offset
  = Returned (unpack_fields fs (drop (Z.to_nat offset) buf)).
Proof.
  intros Hf H0 Hle. unfold unpack_from. rewrite Hf.
  destruct (Z.ltb_spec (len buf - offset) (calcsize fs)); [lia | reflexivity].
Qed.

Lemma unpack_from_short fmt fs buf offset :
  parse_fmt fmt = Some fs ->
  len buf - offset < calcsize fs ->
  unpack_from fmt buf offset = Raised StructError.
Proof.
  intros Hf Hlt. unfold unpack_from. rewrite Hf.
  destruct (Z.ltb_spec (len buf - offset) (calcsize fs)); [reflexivity | lia].
Qed.

Lemma le_uint_byte_at buf n x :
  buf !! n = Some x -> le_field false 1 n buf = x.
Proof.
  intros H. unfold le_field. rewrite (drop_S _ _ _ H).
  unfold le_uint. simpl. lia.
Qed.

Lemma land_pow2_testbit x n :
  0 <= n -> (Z.land x (2 ^ n) =? 0) = negb (Z.testbit x n).
Proof.
  intros Hn.
  destruct (Z.testbit x n) eqn:E; simpl.
  - apply Z.eqb_neq. intros H0.
    assert (Z.testbit (Z.land x (2 ^ n)) n = true) as Ht
      by (rewrite Z.land_spec, E, Z.pow2_bits_true by lia; reflexivity).
    rewrite H0, Z.bits_0 in Ht. discriminate.
  - apply Z.eqb_eq. apply Z.bits_inj'. intros m Hm.
    rewrite Z.land_spec, Z.bits_0.
    destruct (Z.eq_dec m n) as [->|Hne].
    + rewrite E. reflexivity.
    + rewrite Z.pow2_bits_false by lia. apply andb_false_r.
Qed.

Ltac calc_size :=
  match goal with
  | |- context [calcsize ?l] =>
      let v := eval vm_compute in (calcsize l) in change (calcsize l) with v
  end.

(** Rewrite [unpack_from fmt buf off] into its fields when the buffer is
    long enough. *)
Ltac unpack_ok off :=
  match goal with
  | |- context [unpack_from ?fmt ?b off] =>
      let fs := eval vm_compute in (parse_fmt fmt) in
      match fs with
      | Some ?l =>
          rewrite (unpack_from_ok fmt l b off);
          [| vm_compute; reflexivity | lia | calc_size; lia]
      end
  end.

Ltac norm_drops :=
  change (Z.to_nat 0) with 0%nat; cbn [drop];
  repeat rewrite drop_drop; cbn [Nat.add].

Ltac read_dict :=
  rewrite !assign_all_lookup;
  cbn [assoc_last fst snd String.eqb Ascii.eqb Bool.eqb lookup].

(** *** UBX-NAV-PVT *)

(** The dict [nav_pvt] returns for a payload of at least 84 bytes, read
    through the bytes [valid] (offset 11), [flags] (offset 21) and [flags2]
    (offset 22). *)
Lemma nav_pvt_flag_fields buf valid flags flags2 :
  84 <= len buf ->
  buf !! 11%nat = Some valid -> buf !! 21%nat = Some flags ->
  buf !! 22%nat = Some flags2 ->
  exists d, nav_pvt buf = Returned (MsgDict d)
    /\ d !! "valid" = Some (PyInt valid)
    /\ d !! "flags" = Some (PyInt flags)
    /\ d !! "flags2" = Some (PyInt flags2)
    /\ d !! "validDate" = Some (PyBool (Z.testbit valid 0))
    /\ d !! "validTime" = Some (PyBool (Z.testbit valid 1))
    /\ d !! "fullyResolved" = Some (PyBool (Z.testbit valid 2))
    /\ d !! "validMAg" = Some (PyBool (Z.testbit valid 3))
    /\ d !! "gnssFixOK" = Some (PyBool (Z.testbit flags 0))
    /\ d !! "diffSoln" = Some (PyBool (Z.testbit flags 1))
    /\ d !! "headVehValid" = Some (PyBool (Z.testbit flags 5))
    /\ d !! "carrSoln"
       = Some (if Z.testbit flags 7 then PyStr "Fixed" else PyBool false)
    /\ d !! "confirmedAvai" = Some (PyBool (Z.testbit flags 5))
    /\ d !! "confirmedDate" = Some (PyBool (Z.testbit flags 6))
    /\ d !! "confirmedTime" = Some (PyBool (Z.testbit flags 7)).
Proof.
  intros Hlen Hvalid Hflags Hflags2. unfold nav_pvt.
  destruct (Z.eqb_spec 0 (len buf)) as [E0|E0]; [lia|].
  rewrite Z.gtb_ltb. destruct (Z.ltb_spec (len buf) 84) as [E1|E1]; [lia|].
  unpack_ok 0.
  cbn [mbind outcome_bind unpack_fields fmt_size fmt_signed].
  norm_drops.
  change (le_uint (take 1 (drop 11 buf))) with (le_field false 1 11 buf).
  change (le_uint (take 1 (drop 21 buf))) with (le_field false 1 21 buf).
  change (le_uint (take 1 (drop 22 buf))) with (le_field false 1 22 buf).
  rewrite (le_uint_byte_at _ _ _ Hvalid), (le_uint_byte_at _ _ _ Hflags),
    (le_uint_byte_at _ _ _ Hflags2).
  assert (forall x k, 0 <= k -> flag x (2 ^ k) = PyBool (Z.testbit x k)) as Hflag
    by (intros x k Hk; unfold flag; rewrite land_pow2_testbit, negb_involutive by exact Hk; reflexivity).
  assert (forall T (x y : T),
            (if Z.land flags (2 ^ 7) =? 0 then x else y)
            = if Z.testbit flags 7 then y else x) as Hif
    by (intros T x y; rewrite land_pow2_testbit by lia; destruct (Z.testbit flags 7); reflexivity).
  destruct (Z.leb_spec 92 (len buf)) as [E2|E2].
  - unpack_ok 81.
    cbn [mbind outcome_bind unpack_fields fmt_size fmt_signed].
    eexists. split; [reflexivity|].
    read_dict.
    change (int_base2 "00000001") with (2 ^ 0).
    change (int_base2 "00000010") with (2 ^ 1).
    change (int_base2 "00000100") with (2 ^ 2).
    change (int_base2 "00001000") with (2 ^ 3).
    change (int_base2 "00100000") with (2 ^ 5).
    change (int_base2 "01000000") with (2 ^ 6).
    change (int_base2 "10000000") with (2 ^ 7).
    rewrite !Hflag, Hif by lia. repeat split; reflexivity.
  - eexists. split; [reflexivity|].
    read_dict.
    change (int_base2 "00000001") with (2 ^ 0).
    change (int_base2 "00000010") with (2 ^ 1).
    change (int_base2 "00000100") with (2 ^ 2).
    change (int_base2 "00001000") with (2 ^ 3).
    change (int_base2 "00100000") with (2 ^ 5).
    change (int_base2 "01000000") with (2 ^ 6).
    change (int_base2 "10000000") with (2 ^ 7).
    rewrite !Hflag, Hif by lia. repeat split; reflexivity.
Qed.

Lemma lookup_of_len {A} (l : list A) (n : nat) :
  Z.of_nat n < len l -> exists x, l !! n = Some x.
Proof.
  intros H. apply lookup_lt_is_Some_2. unfold len in H. lia.
Qed.

(** C10. For every UBX-NAV-PVT payload of at least 84 bytes, the decoded
    [carrSoln] is the string ['Fixed'] when bit 7 of the flags byte (offset
    21) is set and the boolean [False] otherwise; it is never ['Float']:
    the second assignment overwrites the first. *)
Theorem nav_pvt_carrSoln buf flags :
  84 <= len buf -> buf !! 21%nat = Some flags ->
  exists d, nav_pvt buf = Returned (MsgDict d)
    /\ d !! "carrSoln"
       = Some (if Z.testbit flags 7 then PyStr "Fixed" else PyBool false)
    /\ d !! "carrSoln" <> Some (PyStr "Float").
Proof.
  intros Hlen Hflags.
  destruct (lookup_of_len buf 11) as [valid Hvalid]; [lia|].
  destruct (lookup_of_len buf 22) as [flags2 Hflags2]; [lia|].
  destruct (nav_pvt_flag_fields buf valid flags flags2 Hlen Hvalid Hflags Hflags2)
    as (d & Hd & _ & _ & _ & _ & _ & _ & _ & _ & _ & _ & Hc & _).
  exists d. split; [exact Hd|]. split; [exact Hc|].
  rewrite Hc. destruct (Z.testbit flags 7); discriminate.
Qed.

Lemma nav_pvt_carrSoln_witness :
  exists d, nav_pvt (replicate 84 0x40) = Returned (MsgDict d)
    /\ d !! "carrSoln"
       = Some (if Z.testbit 0x40 7 then PyStr "Fixed" else PyBool false)
    /\ d !! "carrSoln" <> Some (PyStr "Float").
Proof.
  apply (nav_pvt_carrSoln (replicate 84 0x40) 0x40).
  - vm_compute. discriminate.
  - reflexivity.
Defined.

(** C9, at a payload where the code and the claim differ: 84 bytes, all
    zero except [flags2] (offset 22), which has bits 5, 6 and 7 set. The
    three [confirmed...] fields are [False]: they are read from [flags]
    (offset 21). With the two bytes exchanged they are [True]. *)
Theorem nav_pvt_confirmed_from_flags :
  (exists d, nav_pvt (<[22%nat := 0xe0]> (replicate 84 0)) = Returned (MsgDict d)
     /\ d !! "flags" = Some (PyInt 0)
     /\ d !! "flags2" = Some (PyInt 0xe0)
     /\ d !! "confirmedAvai" = Some (PyBool false)
     /\ d !! "confirmedDate" = Some (PyBool false)
     /\ d !! "confirmedTime" = Some (PyBool false))
  /\ (exists d, nav_pvt (<[21%nat := 0xe0]> (replicate 84 0)) = Returned (MsgDict d)
     /\ d !! "flags" = Some (PyInt 0xe0)
     /\ d !! "flags2" = Some (PyInt 0)
     /\ d !! "confirmedAvai" = Some (PyBool true)
     /\ d !! "confirmedDate" = Some (PyBool true)
     /\ d !! "confirmedTime" = Some (PyBool true)).
Proof.
  split.
  - destruct (nav_pvt_flag_fields (<[22%nat := 0xe0]> (replicate 84 0)) 0 0 0xe0)
      as (d & Hd & _ & Hf & Hf2 & _ & _ & _ & _ & _ & _ & _ & _ & Ha & Hb & Hc);
      [vm_compute; discriminate | reflexivity | reflexivity | reflexivity |].
    exists d. repeat split; assumption.
  - destruct (nav_pvt_flag_fields (<[21%nat := 0xe0]> (replicate 84 0)) 0 0xe0 0)
      as (d & Hd & _ & Hf & Hf2 & _ & _ & _ & _ & _ & _ & _ & _ & Ha & Hb & Hc);
      [vm_compute; discriminate | reflexivity | reflexivity | reflexivity |].
    exists d. repeat split; assumption.
Qed.

(** *** UBX-NAV-HPPOSLLH *)

(** C8. For every UBX-NAV-HPPOSLLH payload of at least 36 bytes, the
    decoder returns [prec_lon = round((lon + lonHp*1E-2)*1E-7, 9)] and
    [prec_lat = round((lat + latHp*1E-2)*1E-7, 9)], where [lon] and [lat]
    are the signed 32-bit little-endian fields at offsets 8 and 12 and
    [lonHp] and [latHp] the signed 8-bit fields at offsets 24 and 25. The
    float operations are the uninterpreted ones of [pyfloat]. *)
Theorem nav_hpposllh_prec buf :
  36 <= len buf ->
  let lon := le_field true 4 8 buf in
  let lat := le_field true 4 12 buf in
  let lonHp := le_field true 1 24 buf in
  let latHp := le_field true 1 25 buf in
  exists d, nav_hpposllh buf = Returned (MsgDict d)
    /\ d !! "prec_lon"
       = Some (PyFloat (FRound (FMul (FAdd (FOfInt lon)
                                        (FMul (FOfInt lonHp) (FLit "1E-2")))
                                  (FLit "1E-7")) 9))
    /\ d !! "prec_lat"
       = Some (PyFloat (FRound (FMul (FAdd (FOfInt lat)
                                        (FMul (FOfInt latHp) (FLit "1E-2")))
                                  (FLit "1E-7")) 9)).
Proof.
  intros Hlen lon lat lonHp latHp. unfold nav_hpposllh.
  destruct (Z.eqb_spec 0 (len buf)) as [E0|E0]; [lia|].
  rewrite Z.gtb_ltb. destruct (Z.ltb_spec (len buf) 36) as [E1|E1]; [lia|].
  unpack_ok 0.
  cbn [mbind outcome_bind unpack_fields fmt_size fmt_signed].
  norm_drops.
  eexists. split; [reflexivity|].
  read_dict. split; reflexivity.
Qed.

(** The example of the specification: raw [lon = -741234567], [lonHp = 23]. *)
Lemma nav_hpposllh_prec_witness :
  let buf := [0; 0; 0; 0; 0; 0; 0; 0; 0x79; 0xa8; 0xd1; 0xd3; 0; 0; 0; 0;
              0; 0; 0; 0; 0; 0; 0; 0; 23; 0; 0; 0; 0; 0; 0; 0; 0; 0; 0; 0] in
  le_field true 4 8 buf = -741234567
  /\ le_field true 1 24 buf = 23
  /\ exists d, nav_hpposllh buf = Returned (MsgDict d)
    /\ d !! "prec_lon"
       = Some (PyFloat (FRound (FMul (FAdd (FOfInt (le_field true 4 8 buf))
                                        (FMul (FOfInt (le_field true 1 24 buf))
                                              (FLit "1E-2")))
                                  (FLit "1E-7")) 9))
    /\ d !! "prec_lat"
       = Some (PyFloat (FRound (FMul (FAdd (FOfInt (le_field true 4 12 buf))
                                        (FMul (FOfInt (le_field true 1 25 buf))
                                              (FLit "1E-2")))
                                  (FLit "1E-7")) 9)).
Proof.
  intros buf. split; [reflexivity|]. split; [reflexivity|].
  apply (nav_hpposllh_prec buf).
  vm_compute. discriminate.
Defined.

(** *** Configuration registry *)

Lemma cfg_by_key_miss key :
  cfg_scan_key cfgs key = None -> cfg_by_key key = Raised (NameError "ket").
Proof. intros H. unfold cfg_by_key. rewrite H. reflexivity. Qed.

(** C3, at a key the registry does not hold: instead of the synthesized
    item, [cfg_by_key] raises [NameError], for the name [ket]. *)
Theorem cfg_by_key_unknown_key_raises :
  cfg_scan_key cfgs 0x10000000 = None
  /\ cfg_by_key 0x10000000 = Raised (NameError "ket").
Proof. split; vm_compute; reflexivity. Qed.

(** ** Frames after skipped bytes *)

Section Resync.

Variable other_dec : decoder -> list Z -> outcome payload_msg.

(** *** The branches from any silent state *)

Lemma step_BASE_noise n cm cl i l raw pay a b ty se c :
  is_noise c = true ->
  step 0 other_dec (mk_dstate BASE n cm cl i l raw pay a b ty [] se) c
  = Continue (mk_dstate BASE (n + 1) EmptyString 0 0 0 [] [] 0 0 ty [] se).
Proof.
  intros H. unfold is_noise in H.
  rewrite negb_true_iff, !orb_false_iff in H.
  destruct H as (((((H1 & H2) & H3) & H4) & H5) & H6).
  run_step. rewrite H1, H2, H3, H4, H5, H6. reflexivity.
Qed.

Lemma step_BASE_eol n cm cl i l raw pay a b ty se c :
  is_eol c = true ->
  step 0 other_dec (mk_dstate BASE n cm cl i l raw pay a b ty [] se) c
  = Stop (mk_dstate BASE (n + 1) EmptyString 0 0 0 [] [] 0 0 ty [] se)
      (Returned (1, RInt 0)).
Proof.
  intros H.
  assert (c = 10 \/ c = 13) as [-> | ->]
    by (unfold is_eol in H; apply orb_true_iff in H as [H|H];
        apply Z.eqb_eq in H; lia);
    reflexivity.
Qed.

Lemma step_BASE_b5 n cm cl i l raw pay a b ty se :
  step 0 other_dec (mk_dstate BASE n cm cl i l raw pay a b ty [] se) 0xb5
  = Continue (mk_dstate HEADER1 (n + 1) EmptyString 0 0 0 [] [] 0 0 ty [] se).
Proof. reflexivity. Qed.

Lemma step_BASE_d3 n cm cl i l raw pay a b ty se :
  step 0 other_dec (mk_dstate BASE n cm cl i l raw pay a b ty [] se) 0xd3
  = Continue (mk_dstate RTCM3_1 (n + 1) "#" 0 0 0 [] [] 0 0 ty [] se).
Proof. reflexivity. Qed.

Lemma step_HEADER1_other n ty se x :
  x <> 98 ->
  step 0 other_dec
    (mk_dstate HEADER1 n EmptyString 0 0 0 [] [] 0 0 ty [] se) x
  = Continue (mk_dstate BASE (n + 1) EmptyString 0 0 0 [] [] 0 0 ty [] se).
Proof.
  intros H. run_step. destruct (Z.eqb_spec 98 x); [congruence | reflexivity].
Qed.

Lemma step_RTCM3_1_bad n ty se x :
  Z.land x 0xfc <> 0 ->
  step 0 other_dec (mk_dstate RTCM3_1 n "#" 0 0 0 [] [] 0 0 ty [] se) x
  = Continue (mk_dstate BASE (n + 1) "#" 0 0 0 [] [] 0 0 ty [] se).
Proof.
  intros H. run_step.
  destruct (Z.eqb_spec 0 (Z.land x 252)); [congruence | reflexivity].
Qed.

Lemma loop_rtcm3_header_from n ty se b1 b2 :
  Z.land b1 0xfc = 0 ->
  loop 0 other_dec (mk_dstate RTCM3_1 n "#" 0 0 0 [] [] 0 0 ty [] se) [b1; b2]
  = Continue (mk_dstate RTCM3_PAYLOAD (n + 1 + 1) "#" 0 0
                (rtcm3_length b1 b2 + 3) [b1; b2] [] 0 0 ty [] se).
Proof.
  intros H. cbn [loop]. run_step. rewrite H. reflexivity.
Qed.

Lemma step_RTCM3_PAYLOAD_from n L raw pay ty se c :
  L - 1 <> 0 ->
  step 0 other_dec
    (mk_dstate RTCM3_PAYLOAD n "#" 0 0 L raw pay 0 0 ty [] se) c
  = Continue (mk_dstate RTCM3_PAYLOAD (n + 1) "#" 0 0 (L - 1)
                (raw ++ [c]) (pay ++ [c]) 0 0 ty [] se).
Proof.
  intros H. run_step. destruct (Z.eqb_spec 0 (L - 1)); [lia | reflexivity].
Qed.

Lemma step_RTCM3_PAYLOAD_last_from n raw pay ty se c p0 p1 T :
  pay ++ [c] = p0 :: p1 :: T ->
  step 0 other_dec
    (mk_dstate RTCM3_PAYLOAD n "#" 0 0 1 raw pay 0 0 ty [] se) c
  = Continue (mk_dstate BASE (n + 1) "#" 0 0 0 (raw ++ [c]) (pay ++ [c])
                0 0 (Some (top12 p0 p1)) [] se).
Proof.
  intros H. run_step. unfold extend. rewrite H. reflexivity.
Qed.

Lemma loop_rtcm3_payload_from q : forall n L raw pay ty se,
  len q < L ->
  loop 0 other_dec
    (mk_dstate RTCM3_PAYLOAD n "#" 0 0 L raw pay 0 0 ty [] se) q
  = Continue (mk_dstate RTCM3_PAYLOAD (n + len q) "#" 0 0 (L - len q)
                (raw ++ q) (pay ++ q) 0 0 ty [] se).
Proof.
  induction q as [|c q IH]; intros n L raw pay ty se Hlt.
  - rewrite (app_nil_r raw), (app_nil_r pay). change (len (@nil Z)) with 0.
    replace (n + 0) with n by lia. replace (L - 0) with L by lia. reflexivity.
  - rewrite len_cons in Hlt. pose proof (len_nonneg q) as Hq.
    cbn [loop]. rewrite step_RTCM3_PAYLOAD_from by lia.
    rewrite IH by lia.
    rewrite (cons_middle c raw q), (cons_middle c pay q), !app_assoc, len_cons.
    replace (n + 1 + len q) with (n + (1 + len q)) by lia.
    replace (L - 1 - len q) with (L - (1 + len q)) by lia.
    reflexivity.
Qed.

(** A complete RTCM3 frame, after its lead-in byte. *)
Lemma loop_rtcm3_body_from n ty se b1 b2 P :
  0 <= b1 -> Z.land b1 0xfc = 0 ->
  len P = rtcm3_length b1 b2 + 3 ->
  exists raw pay ty',
    loop 0 other_dec (mk_dstate RTCM3_1 n "#" 0 0 0 [] [] 0 0 ty [] se)
      (b1 :: b2 :: P)
    = Continue (mk_dstate BASE (n + 2 + len P) "#" 0 0 0 raw pay 0 0 ty' [] se).
Proof.
  intros Hb1 Hland HP.
  pose proof (rtcm3_length_nonneg b1 b2 Hb1) as HL.
  destruct P as [|p0 [|p1 T]];
    [change (len (@nil Z)) with 0 in HP; lia
    | change (len [p0]) with 1 in HP; lia |].
  destruct (exists_last (l := p0 :: p1 :: T)) as [P' [c HPc]]; [discriminate|].
  rewrite HPc in *. rewrite len_app in *. change (len [c]) with 1 in *.
  change (b1 :: b2 :: P' ++ [c]) with ([b1; b2] ++ P' ++ [c]).
  rewrite loop_app, loop_rtcm3_header_from by exact Hland.
  rewrite loop_app, loop_rtcm3_payload_from by lia.
  replace (rtcm3_length b1 b2 + 3 - len P') with 1 by lia.
  cbn [loop]. rewrite (step_RTCM3_PAYLOAD_last_from _ _ _ _ _ _ p0 p1 T)
    by (rewrite app_nil_l; symmetry; exact HPc).
  do 3 eexists. do 2 f_equal. lia.
Qed.

(** Skipped bytes lead from [BASE] back to [BASE]; they are counted, and
    nothing is written. *)
Lemma loop_skipped g :
  skipped g ->
  forall n cm cl i l raw pay a b ty se,
  exists cm' cl' i' l' raw' pay' a' b' ty',
    loop 0 other_dec (mk_dstate BASE n cm cl i l raw pay a b ty [] se) g
    = Continue (mk_dstate BASE (n + len g) cm' cl' i' l' raw' pay' a' b' ty'
                  [] se).
Proof.
  induction 1 as [|c g Hc _ IH|x g Hx _ IH|x g Hx _ IH
                  |b1 b2 P g Hb1 Hland HP _ IH];
    intros n cm cl i l raw pay a b ty se.
  - change (len (@nil Z)) with 0. replace (n + 0) with n by lia.
    do 9 eexists. reflexivity.
  - cbn [loop]. rewrite step_BASE_noise by exact Hc.
    destruct (IH (n + 1) EmptyString 0 0 0 [] [] 0 0 ty se)
      as (cm' & cl' & i' & l' & raw' & pay' & a' & b' & ty' & ->).
    rewrite len_cons. replace (n + (1 + len g)) with (n + 1 + len g) by lia.
    do 9 eexists. reflexivity.
  - cbn [loop]. rewrite step_BASE_b5. rewrite step_HEADER1_other by exact Hx.
    destruct (IH (n + 1 + 1) EmptyString 0 0 0 [] [] 0 0 ty se)
      as (cm' & cl' & i' & l' & raw' & pay' & a' & b' & ty' & ->).
    rewrite !len_cons.
    replace (n + (1 + (1 + len g))) with (n + 1 + 1 + len g) by lia.
    do 9 eexists. reflexivity.
  - cbn [loop]. rewrite step_BASE_d3. rewrite step_RTCM3_1_bad by exact Hx.
    destruct (IH (n + 1 + 1) "#" 0 0 0 [] [] 0 0 ty se)
      as (cm' & cl' & i' & l' & raw' & pay' & a' & b' & ty' & ->).
    rewrite !len_cons.
    replace (n + (1 + (1 + len g))) with (n + 1 + 1 + len g) by lia.
    do 9 eexists. reflexivity.
  - change (211 :: b1 :: b2 :: P ++ g) with ([211] ++ (b1 :: b2 :: P) ++ g).
    rewrite loop_app. cbn [loop]. rewrite step_BASE_d3.
    rewrite loop_app.
    destruct (loop_rtcm3_body_from (n + 1) ty se b1 b2 P Hb1 Hland HP)
      as (raw1 & pay1 & ty1 & ->).
    destruct (IH (n + 1 + 2 + len P) "#" 0 0 0 raw1 pay1 0 0 ty1 se)
      as (cm' & cl' & i' & l' & raw' & pay' & a' & b' & ty' & ->).
    match goal with
    | |- context [n + len ?x] =>
        replace (n + len x) with (n + 1 + 2 + len P + len g)
          by (rewrite !len_app, !len_cons; change (len (@nil Z)) with 0; lia)
    end.
    do 9 eexists. reflexivity.
Qed.

End Resync.

(** ** What follows skipped bytes *)

Section AfterSkip.

Variable other_dec : decoder -> list Z -> outcome payload_msg.

Lemma loop_ubx_header5_from n cm cl i0 l raw pay a b ty se c i lo :
  loop 0 other_dec (mk_dstate BASE n cm cl i0 l raw pay a b ty [] se)
    [0xb5; 0x62; c; i; lo]
  = Continue (mk_dstate LEN1 (n + 1 + 1 + 1 + 1 + 1) EmptyString c i lo
                [c; i; lo] [] 0 0 ty [] se).
Proof. reflexivity. Qed.

Lemma step_LEN1_from n cls id lo raw ty se hi :
  step 0 other_dec
    (mk_dstate LEN1 n EmptyString cls id lo raw [] 0 0 ty [] se) hi
  = Continue (mk_dstate (if 0 =? lo + 256 * hi then CSUM1 else PAYLOAD)
                (n + 1) EmptyString cls id (lo + 256 * hi) (raw ++ [hi]) []
                0 0 ty [] se).
Proof. run_step. destruct (0 =? lo + 256 * hi); reflexivity. Qed.

Lemma step_PAYLOAD_from n cls id L raw pay ty se c :
  step 0 other_dec
    (mk_dstate PAYLOAD n EmptyString cls id L raw pay 0 0 ty [] se) c
  = Continue (mk_dstate (if len (pay ++ [c]) =? L then CSUM1 else PAYLOAD)
                (n + 1) EmptyString cls id L (raw ++ [c]) (pay ++ [c])
                0 0 ty [] se).
Proof.
  run_step. unfold extend. destruct (len (pay ++ [c]) =? L); reflexivity.
Qed.

Lemma loop_ubx_payload_from L cls id ty se q : forall n raw pay,
  len pay < L -> len pay + len q <= L ->
  loop 0 other_dec
    (mk_dstate PAYLOAD n EmptyString cls id L raw pay 0 0 ty [] se) q
  = Continue (mk_dstate (if len (pay ++ q) =? L then CSUM1 else PAYLOAD)
                (n + len q) EmptyString cls id L (raw ++ q) (pay ++ q)
                0 0 ty [] se).
Proof.
  induction q as [|c q IH]; intros n raw pay Hlt Hle.
  - rewrite (app_nil_r pay), (app_nil_r raw).
    change (len (@nil Z)) with 0. replace (n + 0) with n by lia. cbn [loop].
    destruct (Z.eqb_spec (len pay) L); [lia | reflexivity].
  - rewrite len_cons in Hle. pose proof (len_nonneg q) as Hq.
    cbn [loop]. rewrite step_PAYLOAD_from.
    rewrite (cons_middle c pay q), (cons_middle c raw q), !app_assoc.
    assert (len (pay ++ [c]) = len pay + 1) as E1
      by (rewrite len_app, len_cons; change (len (@nil Z)) with 0; lia).
    destruct (Z.eqb_spec (len (pay ++ [c])) L) as [E|E].
    + assert (q = []) as ->
        by (destruct q; [reflexivity | rewrite len_cons in Hle; pose proof (len_nonneg q); lia]).
      cbn [loop].
      rewrite (app_nil_r (pay ++ [c])), (app_nil_r (raw ++ [c])).
      change (len [c]) with 1.
      destruct (Z.eqb_spec (len (pay ++ [c])) L); [|lia].
      reflexivity.
    + rewrite IH by lia.
      rewrite len_cons. replace (n + 1 + len q) with (n + (1 + len q)) by lia.
      reflexivity.
Qed.

Lemma step_CSUM1_from n cls id L raw pay ty se a :
  step 0 other_dec
    (mk_dstate CSUM1 n EmptyString cls id L raw pay 0 0 ty [] se) a
  = Continue (mk_dstate CSUM2 (n + 1) EmptyString cls id L raw pay
                a 0 ty [] se).
Proof. reflexivity. Qed.

Lemma step_CSUM2_from n cls id L raw pay ty se a b :
  step 0 other_dec
    (mk_dstate CSUM2 n EmptyString cls id L raw pay a 0 ty [] se) b
  = Stop (mk_dstate BASE (n + 1) EmptyString cls id L raw pay a b ty []
            (se ++ if negb ((checksum raw (len raw)).1 =? a)
                      || negb ((checksum raw (len raw)).2 =? b)
                   then [checksum_failed a b (checksum raw (len raw))]
                   else []))
      (s_payload ← dispatch other_dec cls id L pay;
       Returned (n + 1, s_payload)).
Proof.
  run_step. destruct (negb _ || negb _); [reflexivity|].
  rewrite app_nil_r. reflexivity.
Qed.

(** A complete UBX frame read from state [BASE], whatever the locals. *)
Lemma loop_ubx_frame_from n cm cl i0 l raw pay a0 b0 ty se c i P a b :
  len P < 65536 ->
  loop 0 other_dec (mk_dstate BASE n cm cl i0 l raw pay a0 b0 ty [] se)
    (ubx_frame c i P a b)
  = Stop (mk_dstate BASE (n + 8 + len P) EmptyString c i (len P)
            (ubx_raw c i P) P a b ty [] (se ++ checksum_diag c i P a b))
      (s_payload ← dispatch other_dec c i (len P) P;
       Returned (n + 8 + len P, s_payload)).
Proof.
  intros HP. pose proof (len_nonneg P) as H0.
  assert (len P mod 256 + 256 * (len P / 256) = len P) as HL
    by (pose proof (Z.div_mod (len P) 256); lia).
  unfold ubx_frame, checksum_diag, ubx_checksum, ubx_raw.
  change ([181; 98] ++ ([c; i; len P mod 256; len P / 256] ++ P) ++ [a; b])
    with ([181; 98; c; i; len P mod 256] ++ [len P / 256] ++ (P ++ [a; b])).
  rewrite loop_app, loop_ubx_header5_from.
  rewrite loop_app. cbn [loop]. rewrite step_LEN1_from, HL.
  destruct (Z.eqb_spec 0 (len P)) as [E|E].
  - assert (P = []) as ->
      by (destruct P; [reflexivity | rewrite len_cons in E; pose proof (len_nonneg P); lia]).
    cbn [app loop]. rewrite step_CSUM1_from. cbn [loop].
    rewrite step_CSUM2_from. change (len (@nil Z)) with 0.
    replace (n + 1 + 1 + 1 + 1 + 1 + 1 + 1 + 1) with (n + 8 + 0) by lia.
    reflexivity.
  - rewrite loop_app, loop_ubx_payload_from
      by (change (len (@nil Z)) with 0; lia).
    rewrite app_nil_l, Z.eqb_refl.
    cbn [loop]. rewrite step_CSUM1_from. cbn [loop]. rewrite step_CSUM2_from.
    replace (n + 1 + 1 + 1 + 1 + 1 + 1 + len P + 1 + 1)
      with (n + 8 + len P) by lia.
    reflexivity.
Qed.

(** The same frame without its last byte is read without a [return]. *)
Lemma loop_ubx_frame_but_last_from n cm cl i0 l raw pay a0 b0 ty se c i P a :
  len P < 65536 ->
  exists s0,
    loop 0 other_dec (mk_dstate BASE n cm cl i0 l raw pay a0 b0 ty [] se)
      ([0xb5; 0x62; c; i; len P mod 256; len P / 256] ++ P ++ [a])
    = Continue s0.
Proof.
  intros HP. pose proof (len_nonneg P) as H0.
  assert (len P mod 256 + 256 * (len P / 256) = len P) as HL
    by (pose proof (Z.div_mod (len P) 256); lia).
  change ([181; 98; c; i; len P mod 256; len P / 256] ++ P ++ [a])
    with ([181; 98; c; i; len P mod 256] ++ [len P / 256] ++ (P ++ [a])).
  rewrite loop_app, loop_ubx_header5_from.
  rewrite loop_app. cbn [loop]. rewrite step_LEN1_from, HL.
  destruct (Z.eqb_spec 0 (len P)) as [E|E].
  - assert (P = []) as ->
      by (destruct P; [reflexivity | rewrite len_cons in E; pose proof (len_nonneg P); lia]).
    cbn [app loop]. rewrite step_CSUM1_from. eexists. reflexivity.
  - rewrite loop_app, loop_ubx_payload_from
      by (change (len (@nil Z)) with 0; lia).
    rewrite app_nil_l, Z.eqb_refl.
    cbn [loop]. rewrite step_CSUM1_from. eexists. reflexivity.
Qed.

(** *** A text line read from state [BASE] *)

Lemma step_text_from st n cm cl i l raw pay a b ty so se c :
  text_mode st -> is_eol c = false ->
  step 0 other_dec (mk_dstate st n cm cl i l raw pay a b ty so se) c
  = Continue (mk_dstate st (n + 1) (cm +:+ String (chr c) EmptyString)
                cl i l raw pay a b ty so se).
Proof.
  intros [->|[->| ->]] H; run_step; rewrite H; reflexivity.
Qed.

Lemma loop_text_from st body : forall n cm cl i l raw pay a b ty so se,
  text_mode st -> Forall (fun c => is_eol c = false) body ->
  loop 0 other_dec (mk_dstate st n cm cl i l raw pay a b ty so se) body
  = Continue (mk_dstate st (n + len body) (cm +:+ chars body)
                cl i l raw pay a b ty so se).
Proof.
  induction body as [|c body IH]; intros n cm cl i l raw pay a b ty so se Hst Hb.
  - cbn [loop chars foldr]. change (len (@nil Z)) with 0.
    replace (n + 0) with n by lia.
    rewrite string_app_empty_r. reflexivity.
  - inversion Hb as [|? ? Hc Hb']; subst.
    cbn [loop]. rewrite step_text_from by assumption.
    rewrite IH by assumption. rewrite len_cons, string_app_assoc.
    replace (n + 1 + len body) with (n + (1 + len body)) by lia.
    reflexivity.
Qed.

Lemma step_text_eol st n cm cl i l raw pay a b ty so se c :
  text_mode st -> is_eol c = true ->
  exists so',
    step 0 other_dec (mk_dstate st n cm cl i l raw pay a b ty so se) c
    = Stop (mk_dstate st (n + 1) cm cl i l raw pay a b ty so' se)
        (Returned (n + 1, RStr cm)).
Proof.
  intros [->|[->| ->]] H; run_step; rewrite H;
    try destruct (str_contains json_error_tag cm); eexists; reflexivity.
Qed.

Lemma step_BASE_lead n cm cl i l raw pay a b ty se lead :
  lead = 36 \/ lead = 123 \/ lead = 35 ->
  exists st, text_mode st
    /\ step 0 other_dec (mk_dstate BASE n cm cl i l raw pay a b ty [] se) lead
       = Continue (mk_dstate st (n + 1) (String (chr lead) EmptyString)
                     0 0 0 [] [] 0 0 ty [] se).
Proof.
  intros [->|[->| ->]].
  - exists NMEA. split; [left; reflexivity | reflexivity].
  - exists JSON. split; [right; right; reflexivity | reflexivity].
  - exists COMMENT. split; [right; left; reflexivity | reflexivity].
Qed.

Lemma loop_line_from n cm cl i l raw pay a b ty se lead body eol :
  lead = 36 \/ lead = 123 \/ lead = 35 ->
  Forall (fun c => is_eol c = false) body ->
  is_eol eol = true ->
  exists s,
    loop 0 other_dec (mk_dstate BASE n cm cl i l raw pay a b ty [] se)
      (lead :: body ++ [eol])
    = Stop s (Returned (n + len body + 2,
                        RStr (String (chr lead) (chars body))))
    /\ stderr s = se.
Proof.
  intros Hlead Hbody Heol.
  destruct (step_BASE_lead n cm cl i l raw pay a b ty se lead Hlead)
    as (st & Hst & Hstep).
  cbn [loop]. rewrite Hstep.
  rewrite loop_app, loop_text_from by assumption.
  cbn [loop].
  destruct (step_text_eol st (n + 1 + len body)
              (String (chr lead) EmptyString +:+ chars body)
              0 0 0 [] [] 0 0 ty [] se eol Hst Heol) as [so' ->].
  replace (n + 1 + len body + 1) with (n + len body + 2) by lia.
  eexists. split; reflexivity.
Qed.

End AfterSkip.

(** ** The decoder on a stream *)

Section Stream.

Variable verbosity : Z.
Variable other_dec : decoder -> list Z -> outcome payload_msg.

Lemma decode_msg_stop buf rest s0 o :
  loop 0 other_dec initial buf = Stop s0 o ->
  (decode_msg verbosity other_dec (buf ++ rest)).2 = o
  /\ stderr (decode_msg verbosity other_dec (buf ++ rest)).1 = stderr s0.
Proof.
  intros H.
  destruct (decode_msg_silent other_dec verbosity (buf ++ rest)) as [-> Hs].
  apply (f_equal stderr) in Hs. cbn [stderr silence] in Hs. rewrite Hs.
  unfold decode_msg. rewrite loop_app, H. split; reflexivity.
Qed.

Lemma decode_skipped_ubx_frame g c i P a b rest :
  skipped g -> len P < 65536 ->
  let d := decode_msg verbosity other_dec (g ++ ubx_frame c i P a b ++ rest) in
  d.2 = (s_payload ← dispatch other_dec c i (len P) P;
         Returned (len g + 8 + len P, s_payload))
  /\ stderr d.1 = checksum_diag c i P a b.
Proof.
  intros Hg HP d. subst d. rewrite app_assoc.
  destruct (loop_skipped other_dec g Hg 0 EmptyString 0 0 0 [] [] 0 0 None [])
    as (cm' & cl' & i' & l' & raw' & pay' & a' & b' & ty' & Hloop).
  pose proof (loop_app other_dec 0 g initial (ubx_frame c i P a b)) as Hstop.
  change initial with
    (mk_dstate BASE 0 EmptyString 0 0 0 [] [] 0 0 None [] []) in Hstop at 2.
  rewrite Hloop, loop_ubx_frame_from in Hstop by exact HP.
  replace (0 + len g + 8 + len P) with (len g + 8 + len P) in Hstop by lia.
  destruct (decode_msg_stop _ rest _ _ Hstop) as [-> ->].
  split; reflexivity.
Qed.

(** X1. After any skipped bytes, a complete UBX frame is decoded whatever
    follows it: [consumed] counts the skipped bytes and the frame, the
    result is the dispatch of class, id and payload, and stderr holds the
    checksum diagnostic (the one line [ubxtool: ERROR checksum failed,was
    (a,b) s/b (x, y)], with the stored and the computed bytes in decimal)
    exactly when the stored checksum is wrong. *)
Theorem skipped_then_ubx_frame g c i P a b rest :
  skipped g -> len P < 65536 ->
  let d := decode_msg verbosity other_dec (g ++ ubx_frame c i P a b ++ rest) in
  let chk := ubx_checksum c i P in
  d.2 = (s_payload ← dispatch other_dec c i (len P) P;
         Returned (len g + 8 + len P, s_payload))
  /\ stderr d.1
     = if negb (chk.1 =? a) || negb (chk.2 =? b)
       then ["ubxtool: ERROR checksum failed,was (" +:+ fmt_d a +:+ ","
             +:+ fmt_d b +:+ ") s/b (" +:+ fmt_d chk.1 +:+ ", "
             +:+ fmt_d chk.2 +:+ ")" +:+ nl]
       else [].
Proof.
  intros Hg HP d chk.
  destruct (decode_skipped_ubx_frame g c i P a b rest Hg HP) as [H1 H2].
  split; [exact H1|]. fold d in H2. rewrite H2. reflexivity.
Qed.

(** X2. After any skipped bytes, a text line ([$], [{] or [#] up to the first
    CR or LF) is returned without its terminator, and [consumed] counts
    the skipped bytes and the line with its terminator. *)
Theorem skipped_then_line g lead body eol rest :
  skipped g ->
  lead = 36 \/ lead = 123 \/ lead = 35 ->
  Forall (fun c => is_eol c = false) body ->
  is_eol eol = true ->
  let d := decode_msg verbosity other_dec
             (g ++ (lead :: body ++ [eol]) ++ rest) in
  d.2 = Returned (len g + len body + 2, RStr (String (chr lead) (chars body)))
  /\ stderr d.1 = [].
Proof.
  intros Hg Hlead Hbody Heol d. subst d. rewrite app_assoc.
  destruct (loop_skipped other_dec g Hg 0 EmptyString 0 0 0 [] [] 0 0 None [])
    as (cm' & cl' & i' & l' & raw' & pay' & a' & b' & ty' & Hloop).
  destruct (loop_line_from other_dec (0 + len g) cm' cl' i' l' raw' pay' a' b'
              ty' [] lead body eol Hlead Hbody Heol) as (s & Hs & Hse).
  pose proof (loop_app other_dec 0 g initial (lead :: body ++ [eol])) as Hstop.
  change initial with
    (mk_dstate BASE 0 EmptyString 0 0 0 [] [] 0 0 None [] []) in Hstop at 2.
  rewrite Hloop, Hs in Hstop.
  replace (0 + len g + len body + 2) with (len g + len body + 2) in Hstop by lia.
  destruct (decode_msg_stop _ rest _ _ Hstop) as [-> ->].
  split; [reflexivity | exact Hse].
Qed.

(** X3. A CR or LF met in state [BASE] returns [(1, 0)]: the count is 1
    however many skipped bytes came before it. *)
Theorem skipped_then_eol g c rest :
  skipped g -> is_eol c = true ->
  let d := decode_msg verbosity other_dec (g ++ [c] ++ rest) in
  d.2 = Returned (1, RInt 0) /\ stderr d.1 = [].
Proof.
  intros Hg Hc d. subst d. rewrite app_assoc.
  destruct (loop_skipped other_dec g Hg 0 EmptyString 0 0 0 [] [] 0 0 None [])
    as (cm' & cl' & i' & l' & raw' & pay' & a' & b' & ty' & Hloop).
  pose proof (loop_app other_dec 0 g initial [c]) as Hstop.
  change initial with
    (mk_dstate BASE 0 EmptyString 0 0 0 [] [] 0 0 None [] []) in Hstop at 2.
  rewrite Hloop in Hstop. cbn [loop] in Hstop.
  rewrite step_BASE_eol in Hstop by exact Hc.
  destruct (decode_msg_stop _ rest _ _ Hstop) as [-> ->].
  split; reflexivity.
Qed.

(** X4. A buffer of skipped bytes only (noise, false lead-ins, complete RTCM3
    frames) returns [(0, 0)]. *)
Theorem skipped_only g :
  skipped g ->
  let d := decode_msg verbosity other_dec g in
  d.2 = Returned (0, RInt 0) /\ stderr d.1 = [].
Proof.
  intros Hg d. subst d.
  destruct (loop_skipped other_dec g Hg 0 EmptyString 0 0 0 [] [] 0 0 None [])
    as (cm' & cl' & i' & l' & raw' & pay' & a' & b' & ty' & Hloop).
  change (mk_dstate BASE 0 EmptyString 0 0 0 [] [] 0 0 None [] [])
    with initial in Hloop.
  destruct (loop_continue_verbose verbosity other_dec _ _ Hloop) as (s & Hs & Hsil).
  unfold decode_msg. rewrite Hs. split; [reflexivity|].
  apply (f_equal stderr) in Hsil. exact Hsil.
Qed.

End Stream.

(** *** Concrete streams *)

Ltac prove_skipped :=
  repeat first
    [ apply skipped_nil
    | apply skipped_bad_header; [lia|]
    | apply skipped_bad_rtcm3; [vm_compute; discriminate|]
    | apply skipped_noise; [reflexivity|] ].

(** A zero byte, [B5 41], [D3 FF], then a CFG-INF frame with a wrong
    checksum, then two more bytes. *)
Lemma skipped_then_ubx_frame_witness :
  (let d := decode_msg VERB_NONE poll_only_dec
              ([0; 0xb5; 0x41; 0xd3; 0xff] ++ ubx_frame 6 2 [7] 0 0 ++ [1; 2]) in
   let chk := ubx_checksum 6 2 [7] in
   d.2 = (s_payload ← dispatch poll_only_dec 6 2 (len [7]) [7];
          Returned (len [0; 0xb5; 0x41; 0xd3; 0xff] + 8 + len [7], s_payload))
   /\ stderr d.1
      = if negb (chk.1 =? 0) || negb (chk.2 =? 0)
        then ["ubxtool: ERROR checksum failed,was (" +:+ fmt_d 0 +:+ ","
              +:+ fmt_d 0 +:+ ") s/b (" +:+ fmt_d chk.1 +:+ ", "
              +:+ fmt_d chk.2 +:+ ")" +:+ nl]
        else [])
  /\ (let d := decode_msg VERB_NONE poll_only_dec
                 [0; 0xb5; 0x41; 0xd3; 0xff;
                  0xb5; 0x62; 6; 2; 1; 0; 7; 0; 0; 1; 2] in
      d.2 = Returned
              (14, RStr "Class: CFG(0x6) ID: INF(0x2), len 0x1, raw 07")
      /\ stderr d.1
         = ["ubxtool: ERROR checksum failed,was (0,0) s/b (16, 48)"
            +:+ String "010"%char EmptyString])
  /\ stderr (decode_msg VERB_NONE poll_only_dec
               [0; 0xb5; 0x62; 6; 2; 1; 0; 7; 16; 48; 1; 2]).1
     = [].
Proof.
  split; [|split; vm_compute; [split|]; reflexivity].
  apply (skipped_then_ubx_frame VERB_NONE poll_only_dec
           [0; 0xb5; 0x41; 0xd3; 0xff] 6 2 [7] 0 0 [1; 2]).
  - prove_skipped.
  - vm_compute. reflexivity.
Defined.

(** [$GP], CR, LF after one noise byte. *)
Lemma skipped_then_line_witness :
  let d := decode_msg VERB_NONE poll_only_dec
             ([0] ++ (36 :: [71; 80] ++ [13]) ++ [10]) in
  d.2 = Returned (len [0] + len [71; 80] + 2,
                  RStr (String (chr 36) (chars [71; 80])))
  /\ stderr d.1 = [].
Proof.
  apply (skipped_then_line VERB_NONE poll_only_dec [0] 36 [71; 80] 13 [10]).
  - prove_skipped.
  - left. reflexivity.
  - repeat constructor.
  - reflexivity.
Defined.

Lemma skipped_then_eol_witness :
  let d := decode_msg VERB_NONE poll_only_dec ([1; 2; 3] ++ [10] ++ [4]) in
  d.2 = Returned (1, RInt 0) /\ stderr d.1 = [].
Proof.
  apply (skipped_then_eol VERB_NONE poll_only_dec [1; 2; 3] 10 [4]).
  - prove_skipped.
  - reflexivity.
Defined.

Lemma skipped_only_witness :
  let d := decode_msg VERB_NONE poll_only_dec
             (0xd3 :: 0 :: 2 :: [0x3e; 0xd0; 1; 2; 3] ++ [7]) in
  d.2 = Returned (0, RInt 0) /\ stderr d.1 = [].
Proof.
  apply (skipped_only VERB_NONE poll_only_dec
           (0xd3 :: 0 :: 2 :: [0x3e; 0xd0; 1; 2; 3] ++ [7])).
  apply skipped_rtcm3; [lia | reflexivity | reflexivity |].
  prove_skipped.
Defined.

(** ** The decoders of this development return or raise *)




Section DecodersReturn.

Variable other_dec : decoder -> list Z -> outcome payload_msg.



End DecodersReturn.

(** ** The consumed count *)

Section Consumed.

Variable verbosity : Z.
Variable other_dec : decoder -> list Z -> outcome payload_msg.

Lemma step_continue_consumed s c s' :
  step verbosity other_dec s c = Continue s' -> consumed s' = consumed s + 1.
Proof.
  destruct s as [st n cm cl i l raw pay a b ty so se].
  unfold step, trace.
  destruct st; split_branches;
    intros H; try discriminate; apply Continue_inj in H; rewrite <- H;
    reflexivity.
Qed.

(** The dispatch gives a string or a dict, never an int. *)
Lemma dispatch_not_int c i l pay z :
  dispatch other_dec c i l pay <> Returned (RInt z).
Proof.
  unfold dispatch.
  destruct (classes !! c) as [this_class|]; [|discriminate].
  destruct (class_ids this_class) as [ids|]; [|discriminate].
  destruct (ids !! i) as [entry|]; [|discriminate].
  destruct (id_dec entry) as [dec|]; [|discriminate].
  destruct (id_name entry) as [name|]; [|discriminate].
  destruct (call_dec other_dec dec pay); discriminate.
Qed.

Lemma step_stop_consumed s c s' n r :
  step verbosity other_dec s c = Stop s' (Returned (n, r)) ->
  (n = 1 /\ r = RInt 0) \/ (n = consumed s + 1 /\ r <> RInt 0).
Proof.
  destruct s as [st k cm cl i l raw pay a b ty so se].
  unfold step, trace.
  destruct st; split_branches;
    intros H; try discriminate; apply Stop_inj in H as [_ H];
    try (injection H as <- <-; first [left; split; reflexivity
                                     | right; split; [reflexivity | discriminate]]);
    try discriminate;
    (destruct (dispatch other_dec cl i l pay) as [x| |] eqn:E;
       cbn [mbind outcome_bind] in H; [|discriminate..];
     injection H as <- <-; right; split; [reflexivity|];
     intros ->; exact (dispatch_not_int _ _ _ _ _ E)).
Qed.

Lemma loop_continue_consumed bs : forall s s',
  loop verbosity other_dec s bs = Continue s' ->
  consumed s' = consumed s + len bs.
Proof.
  induction bs as [|c bs IH]; intros s s'; cbn [loop].
  - intros [= <-]. change (len (@nil Z)) with 0. lia.
  - destruct (step verbosity other_dec s c) as [s1|] eqn:E; [|discriminate].
    intros H. rewrite (IH _ _ H), (step_continue_consumed _ _ _ E), len_cons.
    lia.
Qed.

Lemma loop_stop_consumed bs : forall s s' n r,
  0 <= consumed s ->
  loop verbosity other_dec s bs = Stop s' (Returned (n, r)) ->
  1 <= n <= consumed s + len bs /\ (r = RInt 0 -> n = 1).
Proof.
  induction bs as [|c bs IH]; intros s s' n r H0; cbn [loop]; [discriminate|].
  rewrite len_cons. pose proof (len_nonneg bs) as Hb.
  destruct (step verbosity other_dec s c) as [s1|s1 o] eqn:E.
  - intros H. pose proof (step_continue_consumed _ _ _ E) as Hc.
    apply IH in H; [|lia]. destruct H as [H1 H2].
    split; [lia | exact H2].
  - intros H. apply Stop_inj in H as [-> ->].
    apply step_stop_consumed in E as [[-> ->] | [-> Hr]].
    + split; [lia | reflexivity].
    + split; [lia | intros; contradiction].
Qed.




Lemma decode_msg_consumed_cases out n r :
  (decode_msg verbosity other_dec out).2 = Returned (n, r) ->
  (n = 0 /\ r = RInt 0) \/ (1 <= n <= len out /\ (r = RInt 0 -> n = 1)).
Proof.
  unfold decode_msg.
  destruct (loop verbosity other_dec initial out) as [s|s o] eqn:E;
    cbn [snd]; intros H.
  - left. injection H as <- <-. split; reflexivity.
  - right. subst o.
    apply loop_stop_consumed in E; [|cbn; lia].
    change (consumed initial) with 0 in E. destruct E as [E1 E2].
    split; [lia | exact E2].
Qed.

(** X5. When [decode_msg] returns [(n, r)], either [n = 0] and [r] is the int
    [0] (the buffer ended before any frame did), or [1 <= n <= len(out)]:
    the count never runs over the buffer, and the result [0] comes only
    with the counts 0 and 1. *)
Theorem decode_msg_consumed_bounds out n r :
  (decode_msg verbosity other_dec out).2 = Returned (n, r) ->
  (n = 0 /\ r = RInt 0) \/ (1 <= n <= len out /\ (r = RInt 0 -> n = 1)).
Proof. exact (decode_msg_consumed_cases out n r). Qed.

End Consumed.

Lemma decode_msg_consumed_bounds_witness :
  (1 = 0 /\ RInt 0 = RInt 0)
  \/ (1 <= 1 <= len [1; 2; 3; 10; 4] /\ (RInt 0 = RInt 0 -> 1 = 1)).
Proof.
  apply (decode_msg_consumed_bounds VERB_NONE poll_only_dec [1; 2; 3; 10; 4]).
  vm_compute. reflexivity.
Defined.

(** ** The read loops *)

Lemma length_ubx_frame c i P a b :
  length (ubx_frame c i P a b) = (8 + length P)%nat.
Proof.
  unfold ubx_frame, ubx_raw. rewrite !length_app. simpl. lia.
Qed.

Lemma len_ubx_frame c i P a b : len (ubx_frame c i P a b) = 8 + len P.
Proof. unfold len. rewrite length_ubx_frame. lia. Qed.

Lemma slice_from_app {A} (l k : list A) :
  slice_from (l ++ k) (len l) = k.
Proof.
  unfold slice_from. pose proof (len_nonneg l).
  destruct (Z.ltb_spec (len l) 0); [lia|].
  unfold len. rewrite Nat2Z.id. apply drop_app_length.
Qed.

Section ReadLoops.

Variable verbosity : Z.
Variable other_dec : decoder -> list Z -> outcome payload_msg.

Lemma ubx_read_loop_S fuel out acc :
  ubx_read_loop verbosity other_dec (S fuel) out acc
  = match (decode_msg verbosity other_dec out).2 with
    | Returned (consumed, data) =>
        if 0 >=? consumed then Some (Returned (acc ++ [data]))
        else ubx_read_loop verbosity other_dec fuel
               (slice_from out consumed) (acc ++ [data])
    | Raised e => Some (Raised e)
    | Hangs => Some Hangs
    end.
Proof. reflexivity. Qed.




Lemma item_bytes_decode it r rest :
  item_decodes other_dec it r ->
  (decode_msg verbosity other_dec (item_bytes it ++ rest)).2
  = Returned (len (item_bytes it), r).
Proof.
  destruct it as [[g [[c i] P]] [a b]]. cbn [item_decodes item_bytes].
  intros (Hg & HP & Hr). rewrite <- app_assoc.
  destruct (decode_skipped_ubx_frame verbosity other_dec g c i P a b rest Hg HP)
    as [-> _].
  rewrite Hr. cbn [mbind outcome_bind].
  rewrite len_app, len_ubx_frame.
  replace (len g + (8 + len P)) with (len g + 8 + len P) by lia.
  reflexivity.
Qed.

Lemma skipped_prefix_decode tail k :
  skipped tail ->
  (decode_msg verbosity other_dec (take k tail)).2 = Returned (0, RInt 0).
Proof.
  intros Ht.
  destruct (loop_skipped other_dec tail Ht 0 EmptyString 0 0 0 [] [] 0 0 None [])
    as (cm' & cl' & i' & l' & raw' & pay' & a' & b' & ty' & Hloop).
  change (mk_dstate BASE 0 EmptyString 0 0 0 [] [] 0 0 None [] [])
    with initial in Hloop.
  rewrite <- (take_drop k tail) in Hloop.
  apply loop_prefix in Hloop as [s1 Hs1].
  destruct (loop_continue_verbose verbosity other_dec _ _ Hs1) as (s & Hs & _).
  unfold decode_msg. rewrite Hs. reflexivity.
Qed.

(** X7. On a file of UBX frames, each after skipped bytes (noise, false
    lead-ins, RTCM3 frames) and with skipped bytes at the end, [ubx_read]
    returns the results of the frames in order, followed by the final [0];
    one pass per frame and one more. The checksums play no part. *)
Theorem ubx_read_stream items : forall rs tail acc,
  Forall2 (item_decodes other_dec) items rs ->
  skipped tail ->
  ubx_read_loop verbosity other_dec (S (length items))
    (stream_bytes items ++ tail) acc
  = Some (Returned (acc ++ rs ++ [RInt 0])).
Proof.
  induction items as [|it items IH]; intros rs tail acc Hrs Htail.
  - inversion Hrs; subst. cbn [length]. rewrite ubx_read_loop_S.
    cbn [stream_bytes fmap list_fmap concat app].
    pose proof (skipped_prefix_decode tail (length tail) Htail) as H.
    rewrite firstn_all in H. rewrite H. reflexivity.
  - inversion Hrs as [|? r ? rs' Hit Hrs']; subst.
    cbn [length]. rewrite ubx_read_loop_S.
    unfold stream_bytes. cbn [fmap list_fmap concat].
    fold (stream_bytes items). rewrite <- app_assoc.
    rewrite (item_bytes_decode it r _ Hit).
    rewrite Z.geb_leb.
    assert (0 < len (item_bytes it)) as Hpos.
    { destruct it as [[g [[c i] P]] [a b]]. cbn [item_bytes].
      rewrite len_app, len_ubx_frame.
      pose proof (len_nonneg g). pose proof (len_nonneg P). lia. }
    destruct (Z.leb_spec (len (item_bytes it)) 0); [lia|].
    rewrite slice_from_app.
    rewrite (IH rs' tail (acc ++ [r]) Hrs' Htail).
    rewrite <- !app_assoc. reflexivity.
Qed.

End ReadLoops.

(** ** The windowed read loop *)

Section Generator.

Variable verbosity : Z.
Variable other_dec : decoder -> list Z -> outcome payload_msg.

Lemma ubx_read_generator_loop_S fuel out tf start consumed yielded :
  ubx_read_generator_loop verbosity other_dec (S fuel) out tf start consumed
    yielded
  = match (decode_msg verbosity other_dec
             (slice out (start + consumed) (start + consumed + 8192))).2 with
    | Returned (consumed', data) =>
        let yielded' :=
          match tf with
          | None => yielded ++ [data]
          | Some f => if in_filter f data then yielded ++ [data] else yielded
          end in
        if 0 >=? consumed' then Some (Returned yielded')
        else ubx_read_generator_loop verbosity other_dec fuel out tf
               (start + consumed) consumed' yielded'
    | Raised e => Some (Raised e)
    | Hangs => Some Hangs
    end.
Proof. reflexivity. Qed.

Lemma slice_window {A} (pre x : list A) (n : Z) :
  slice (pre ++ x) (len pre) (len pre + n) = take (Z.to_nat n) x.
Proof.
  unfold slice. replace (len pre + n - len pre) with n by lia.
  unfold len. rewrite Nat2Z.id, drop_app_length. reflexivity.
Qed.

Lemma ubx_read_generator_stream_from items :
  forall fuel rs tail tf pre start consumed yielded,
  (length items < fuel)%nat ->
  Forall2 (item_decodes other_dec) items rs ->
  Forall (fun it => len (item_bytes it) <= 8192) items ->
  (decode_msg verbosity other_dec (take (Z.to_nat 8192) tail)).2
  = Returned (0, RInt 0) ->
  start + consumed = len pre ->
  ubx_read_generator_loop verbosity other_dec fuel
    (pre ++ stream_bytes items ++ tail) tf start consumed yielded
  = Some (Returned (yielded ++ yields tf rs)).
Proof.
  induction items as [|it items IH];
    intros fuel rs tail tf pre start consumed yielded Hfuel Hrs Hfit Htail Hpre;
    (destruct fuel as [|fuel]; [cbn [length] in Hfuel; lia|]).
  - inversion Hrs; subst. rewrite ubx_read_generator_loop_S.
    cbn [stream_bytes fmap list_fmap concat app].
    rewrite Hpre, slice_window, Htail.
    cbn [yields]. destruct tf as [f|]; cbn; [|reflexivity].
    rewrite app_nil_r. reflexivity.
  - inversion Hrs as [|? r ? rs' Hit Hrs']; subst.
    inversion Hfit as [|? ? Hlen Hfit']; subst.
    rewrite ubx_read_generator_loop_S.
    unfold stream_bytes. cbn [fmap list_fmap concat].
    fold (stream_bytes items). rewrite <- (app_assoc (item_bytes it)).
    rewrite Hpre, slice_window.
    rewrite take_app_ge by (unfold len in Hlen; lia).
    rewrite (item_bytes_decode verbosity other_dec it r _ Hit).
    assert (0 < len (item_bytes it)) as Hpos.
    { destruct it as [[g [[c i] P]] [a b]]. cbn [item_bytes].
      rewrite len_app, len_ubx_frame.
      pose proof (len_nonneg g). pose proof (len_nonneg P). lia. }
    rewrite Z.geb_leb.
    destruct (Z.leb_spec (len (item_bytes it)) 0); [lia|].
    cbn zeta.
    rewrite (app_assoc pre (item_bytes it)).
    rewrite (IH fuel rs' tail tf (pre ++ item_bytes it) (len pre)
               (len (item_bytes it)))
      by first [ assumption | (cbn [length] in Hfuel; lia)
               | (rewrite len_app; reflexivity) ].
    destruct tf as [f|]; cbn [yields List.filter].
    + destruct (in_filter f r); [rewrite <- app_assoc|]; reflexivity.
    + rewrite <- !app_assoc. reflexivity.
Qed.

(** A proper prefix of a frame gives [(0, 0)]. *)
Lemma frame_prefix_decode f k :
  frame f -> (k < length f)%nat ->
  (decode_msg verbosity other_dec (take k f)).2 = Returned (0, RInt 0).
Proof.
  intros Hf Hk.
  destruct (frame_all_but_last other_dec f Hf) as (f' & x & s0 & -> & Hloop).
  rewrite length_app in Hk. simpl in Hk.
  rewrite take_app_le by lia.
  rewrite <- (take_drop k f') in Hloop.
  apply loop_prefix in Hloop as [s1 Hs1].
  destruct (loop_continue_verbose verbosity other_dec _ _ Hs1) as (s & Hs & _).
  unfold decode_msg. rewrite Hs. reflexivity.
Qed.

(** X8. On a file of UBX frames, each after skipped bytes and each, with
    these bytes, no longer than the window of 8192 bytes, with skipped
    bytes at the end, [ubx_read_generator] yields what [ubx_read] returns
    when there is no filter (the results in order, then the final [0]), and
    with a filter the dicts whose type is listed, in order. *)
Theorem ubx_read_generator_stream items rs tail tf :
  Forall2 (item_decodes other_dec) items rs ->
  Forall (fun it => len (item_bytes it) <= 8192) items ->
  skipped tail ->
  ubx_read_generator_loop verbosity other_dec (S (length items))
    (stream_bytes items ++ tail) tf 0 0 []
  = Some (Returned (yields tf rs)).
Proof.
  intros Hrs Hfit Htail.
  apply (ubx_read_generator_stream_from items (S (length items)) rs tail tf
           [] 0 0 []); try assumption; [lia | | reflexivity].
  apply skipped_prefix_decode, Htail.
Qed.

(** A window that ends before the end of a UBX frame, the bytes skipped
    before the frame counted in, gives [(0, 0)]. *)
Lemma skipped_frame_prefix_decode g c i P a b rest k :
  skipped g -> len P < 65536 ->
  (k < length (g ++ ubx_frame c i P a b))%nat ->
  (decode_msg verbosity other_dec (take k (g ++ ubx_frame c i P a b ++ rest))).2
  = Returned (0, RInt 0).
Proof.
  intros Hg HP Hk.
  destruct (loop_skipped other_dec g Hg 0 EmptyString 0 0 0 [] [] 0 0 None [])
    as (cm' & cl' & i' & l' & raw' & pay' & a' & b' & ty' & Hg0).
  destruct (loop_ubx_frame_but_last_from other_dec (0 + len g) cm' cl' i' l'
              raw' pay' a' b' ty' [] c i P a HP) as (s0 & Hs0).
  assert (g ++ ubx_frame c i P a b
          = (g ++ [0xb5; 0x62; c; i; len P mod 256; len P / 256] ++ P ++ [a])
            ++ [b]) as Hsplit.
  { unfold ubx_frame, ubx_raw. cbn [app]. rewrite <- !app_assoc.
    cbn [app]. rewrite <- !app_assoc. reflexivity. }
  assert (loop 0 other_dec initial
            (g ++ [0xb5; 0x62; c; i; len P mod 256; len P / 256] ++ P ++ [a])
          = Continue s0) as Hloop.
  { rewrite loop_app.
    change initial with
      (mk_dstate BASE 0 EmptyString 0 0 0 [] [] 0 0 None [] []).
    rewrite Hg0. exact Hs0. }
  rewrite app_assoc, Hsplit. rewrite Hsplit, length_app in Hk. cbn [length] in Hk.
  rewrite <- app_assoc, take_app_le by lia.
  rewrite <- (take_drop k (g ++ _)) in Hloop.
  apply loop_prefix in Hloop as [s1 Hs1].
  destruct (loop_continue_verbose verbosity other_dec _ _ Hs1) as (s & Hs & _).
  unfold decode_msg. rewrite Hs. reflexivity.
Qed.

(** X9. A UBX frame that, with the bytes skipped before it, is longer than
    the window stops the generator, wherever it stands in a file of frames
    that fit: the window never holds the whole frame, the decoder returns
    [(0, 0)], and after the results of the frames before it nothing of the
    frame or of what follows it is yielded (only the final [0], without a
    filter). *)
Theorem ubx_read_generator_oversize items rs g c i P a b rest tf fuel :
  Forall2 (item_decodes other_dec) items rs ->
  Forall (fun it => len (item_bytes it) <= 8192) items ->
  skipped g -> len P < 65536 -> 8192 < len g + 8 + len P ->
  (length items < fuel)%nat ->
  ubx_read_generator_loop verbosity other_dec fuel
    (stream_bytes items ++ g ++ ubx_frame c i P a b ++ rest) tf 0 0 []
  = Some (Returned (yields tf rs)).
Proof.
  intros Hrs Hfit Hg HP Hbig Hfuel.
  apply (ubx_read_generator_stream_from items fuel rs
           (g ++ ubx_frame c i P a b ++ rest) tf [] 0 0 []);
    try assumption; [|reflexivity].
  apply skipped_frame_prefix_decode; try assumption.
  rewrite length_app, length_ubx_frame. unfold len in Hbig. lia.
Qed.

End Generator.

Lemma ubx_read_stream_witness :
  ubx_read_loop VERB_NONE poll_only_dec
    (S (length [([0], (1, 7, []), (0, 0)); ([], (6, 2, [7]), (16, 48))]))
    (stream_bytes [([0], (1, 7, []), (0, 0)); ([], (6, 2, [7]), (16, 48))]
     ++ [0xb5; 0])
    []
  = Some (Returned ([] ++ [RDict "UBX-NAV-PVT" (MsgStr " Poll request");
                           RStr "Class: CFG(0x6) ID: INF(0x2), len 0x1, raw 07"]
                       ++ [RInt 0])).
Proof.
  apply (ubx_read_stream VERB_NONE poll_only_dec).
  - constructor; [|constructor; [|constructor]].
    + split; [prove_skipped|]. split; vm_compute; reflexivity.
    + split; [prove_skipped|]. split; vm_compute; reflexivity.
  - prove_skipped.
Defined.

Lemma ubx_read_generator_stream_witness :
  ubx_read_generator_loop VERB_NONE poll_only_dec
    (S (length [([0], (1, 7, []), (0, 0)); ([], (6, 2, [7]), (16, 48))]))
    (stream_bytes [([0], (1, 7, []), (0, 0)); ([], (6, 2, [7]), (16, 48))]
     ++ [0xb5; 0])
    (Some ["UBX-NAV-PVT"; "UBX-NAV-HPPOSLLH"]) 0 0 []
  = Some (Returned
      (yields (Some ["UBX-NAV-PVT"; "UBX-NAV-HPPOSLLH"])
         [RDict "UBX-NAV-PVT" (MsgStr " Poll request");
          RStr "Class: CFG(0x6) ID: INF(0x2), len 0x1, raw 07"])).
Proof.
  apply (ubx_read_generator_stream VERB_NONE poll_only_dec).
  - constructor; [|constructor; [|constructor]].
    + split; [prove_skipped|]. split; vm_compute; reflexivity.
    + split; [prove_skipped|]. split; vm_compute; reflexivity.
  - repeat constructor; vm_compute; discriminate.
  - prove_skipped.
Defined.

(** A file of a NAV-PVT poll request, a noise byte and a NAV-PVT frame
    of 8184 payload bytes, followed by a CFG-INF frame: the long frame
    takes 8192 bytes, and 8193 with the noise byte. *)
Lemma ubx_read_generator_oversize_witness :
  ubx_read_generator_loop VERB_NONE poll_only_dec 2
    (stream_bytes [([0], (1, 7, []), (0, 0))]
     ++ [0] ++ ubx_frame 1 7 (replicate (Z.to_nat 8184) 0) 0 0
     ++ ubx_frame 6 2 [7] 16 48)
    None 0 0 []
  = Some (Returned
            (yields None [RDict "UBX-NAV-PVT" (MsgStr " Poll request")])).
Proof.
  apply (ubx_read_generator_oversize VERB_NONE poll_only_dec).
  - constructor; [|constructor].
    split; [prove_skipped|]. split; vm_compute; reflexivity.
  - repeat constructor; vm_compute; discriminate.
  - prove_skipped.
  - unfold len. rewrite length_replicate. lia.
  - unfold len. rewrite length_replicate. cbn [length]. lia.
  - cbn [length]. lia.
Defined.

(** ** The encoder and the checksum *)

(** X10. [make_pkt] on any arguments: [struct.error] when the class or the id is
    no byte or the payload is longer than 65535; [ValueError] when the
    header is fine and a payload element is no byte; otherwise the frame
    [B5 62 class id len_lo len_hi payload ck_a ck_b] with the checksum of
    [checksum] over class, id, length and payload. *)
Theorem make_pkt_outcome c i P :
  make_pkt c i P
  = if byteb c && byteb i && (len P <? 65536) then
      if forallb byteb P
      then Returned (ubx_frame c i P (ubx_checksum c i P).1
                       (ubx_checksum c i P).2)
      else Raised ValueError
    else Raised StructError.
Proof.
  unfold make_pkt, pack_into_BBH. pose proof (len_nonneg P) as H0.
  destruct (Z.leb_spec 0 (len P)); [|lia].
  rewrite andb_true_r.
  destruct (byteb c && byteb i && (len P <? 65536)) eqn:E; [|reflexivity].
  replace (Z.to_nat (len P + 6)) with (4 + (length P + 2))%nat
    by (unfold len; lia).
  rewrite replicate_add. cbn [replicate Nat.add app].
  rewrite replicate_add. cbn [mbind outcome_bind].
  change (<[3%nat:=?d]> (<[2%nat:=?l]> (<[1%nat:=?y]> (<[0%nat:=?x]> (0 :: 0 :: 0 :: 0 :: ?t)))))
    with ([x; y; l; d] ++ t).
  rewrite (copy_payload_app P 0 [c; i; len P mod 256; len P / 256]
             (replicate (length P) 0) (replicate 2 0))
    by (rewrite ?length_replicate; reflexivity).
  destruct (forallb byteb P); [|reflexivity].
  cbn [mbind outcome_bind].
  assert (slice_to ([c; i; len P mod 256; len P / 256] ++ P ++ replicate 2 0)
            (len P + 4) = ubx_raw c i P) as Hs.
  { unfold slice_to, ubx_raw.
    destruct (Z.ltb_spec (len P + 4) 0); [lia|].
    rewrite app_assoc. apply take_app_length'.
    rewrite length_app. unfold len. simpl. lia. }
  unfold ubx_frame, ubx_checksum, checksum.
  rewrite Hs, slice_to_len. reflexivity.
Qed.

(** *** What the checksum is made of *)

Lemma checksum_loop_sums cs : forall a b,
  checksum_loop cs a b
  = (a + byte_sum cs, b + len cs * a + weighted_sum cs).
Proof.
  induction cs as [|c cs IH]; intros a b.
  - cbn. change (len (@nil Z)) with 0. f_equal; lia.
  - cbn [checksum_loop byte_sum foldr weighted_sum]. rewrite IH.
    fold (byte_sum cs). rewrite len_cons. f_equal; lia.
Qed.

Lemma byte_sum_app l k : byte_sum (l ++ k) = byte_sum l + byte_sum k.
Proof.
  induction l as [|x l IH]; [reflexivity|].
  cbn [app byte_sum foldr]. fold (byte_sum (l ++ k)). fold (byte_sum l).
  rewrite IH. lia.
Qed.

Lemma weighted_sum_app l k :
  weighted_sum (l ++ k) = weighted_sum l + len k * byte_sum l + weighted_sum k.
Proof.
  induction l as [|x l IH].
  - cbn. lia.
  - cbn [app weighted_sum byte_sum foldr]. fold (byte_sum l).
    rewrite IH, len_app. lia.
Qed.

Lemma checksum_whole msg :
  checksum msg (len msg)
  = (byte_sum msg mod 256, weighted_sum msg mod 256).
Proof.
  unfold checksum. rewrite slice_to_len, checksum_loop_sums, !land_0xff.
  f_equal; f_equal; lia.
Qed.

Lemma mod_256_diff x y :
  is_byte x -> is_byte y -> x <> y -> forall s t,
  s - t = x - y -> s mod 256 <> t mod 256.
Proof.
  unfold is_byte. intros Hx Hy Hne s t Hd Heq.
  assert ((s - t) mod 256 = 0) as H0
    by (rewrite Zminus_mod, Heq, Z.sub_diag; reflexivity).
  rewrite Hd in H0. apply Z.mod_divide in H0; [|lia].
  destruct H0 as [k Hk]. lia.
Qed.

(** X11. Both bytes of every checksum are in [range(256)]. *)
Theorem checksum_range msg m_len :
  is_byte (checksum msg m_len).1 /\ is_byte (checksum msg m_len).2.
Proof.
  unfold checksum, is_byte.
  destruct (checksum_loop (slice_to msg m_len) 0 0) as [a b]. cbn [fst snd].
  rewrite !land_0xff.
  split; apply Z.mod_pos_bound; lia.
Qed.

(** X12. The checksum tells two messages apart that differ in one byte. *)
Theorem checksum_detects_one_byte pre x y post :
  is_byte x -> is_byte y -> x <> y ->
  checksum (pre ++ x :: post) (len (pre ++ x :: post))
  <> checksum (pre ++ y :: post) (len (pre ++ y :: post)).
Proof.
  intros Hx Hy Hne. rewrite !checksum_whole. intros [= Ha _].
  revert Ha. apply (mod_256_diff x y Hx Hy Hne).
  rewrite !byte_sum_app. cbn [byte_sum foldr]. lia.
Qed.

(** X13. The checksum tells two messages apart that differ by the exchange of
    two neighbouring bytes: the first sum is the same, the second is not. *)
Theorem checksum_detects_swap pre x y post :
  is_byte x -> is_byte y -> x <> y ->
  (checksum (pre ++ x :: y :: post) (len (pre ++ x :: y :: post))).1
  = (checksum (pre ++ y :: x :: post) (len (pre ++ y :: x :: post))).1
  /\ (checksum (pre ++ x :: y :: post) (len (pre ++ x :: y :: post))).2
     <> (checksum (pre ++ y :: x :: post) (len (pre ++ y :: x :: post))).2.
Proof.
  intros Hx Hy Hne. rewrite !checksum_whole. cbn [fst snd]. split.
  - f_equal. rewrite !byte_sum_app. cbn [byte_sum foldr]. lia.
  - apply (mod_256_diff x y Hx Hy Hne).
    rewrite !weighted_sum_app. cbn [weighted_sum]. rewrite !len_cons. lia.
Qed.

Lemma checksum_detects_one_byte_witness :
  checksum ([6; 2] ++ 1 :: [0; 7]) (len ([6; 2] ++ 1 :: [0; 7]))
  <> checksum ([6; 2] ++ 3 :: [0; 7]) (len ([6; 2] ++ 3 :: [0; 7])).
Proof.
  apply (checksum_detects_one_byte [6; 2] 1 3 [0; 7]); unfold is_byte; lia.
Defined.

Lemma checksum_detects_swap_witness :
  (checksum ([6] ++ 2 :: 1 :: [0; 7]) (len ([6] ++ 2 :: 1 :: [0; 7]))).1
  = (checksum ([6] ++ 1 :: 2 :: [0; 7]) (len ([6] ++ 1 :: 2 :: [0; 7]))).1
  /\ (checksum ([6] ++ 2 :: 1 :: [0; 7]) (len ([6] ++ 2 :: 1 :: [0; 7]))).2
     <> (checksum ([6] ++ 1 :: 2 :: [0; 7]) (len ([6] ++ 1 :: 2 :: [0; 7]))).2.
Proof.
  apply (checksum_detects_swap [6] 2 1 [0; 7]); unfold is_byte; lia.
Defined.

(** ** struct: ranges and round trip *)

Lemma le_uint_range bs :
  Forall is_byte bs -> 0 <= le_uint bs < 256 ^ len bs.
Proof.
  induction 1 as [|b bs Hb _ IH].
  - change (0 <= 0 < 1). lia.
  - unfold le_uint in *. cbn [foldr]. rewrite len_cons.
    pose proof (len_nonneg bs).
    rewrite Z.pow_add_r by lia. change (256 ^ 1) with 256.
    unfold is_byte in Hb. nia.
Qed.

Lemma le_uint_take_range n bs :
  Forall is_byte bs -> 0 <= le_uint (take n bs) < 2 ^ (8 * Z.of_nat n).
Proof.
  intros H.
  assert (Forall is_byte (take n bs)) as Ht by (apply Forall_take, H).
  pose proof (le_uint_range (take n bs) Ht) as Hr.
  assert (len (take n bs) <= Z.of_nat n) as Hl
    by (unfold len; rewrite length_take; lia).
  pose proof (len_nonneg (take n bs)) as H0.
  replace (2 ^ (8 * Z.of_nat n)) with (256 ^ Z.of_nat n)
    by (change 256 with (2 ^ 8); rewrite <- Z.pow_mul_r by lia; reflexivity).
  split; [lia|].
  apply Z.lt_le_trans with (256 ^ len (take n bs)); [lia|].
  apply Z.pow_le_mono_r; lia.
Qed.

Lemma to_signed_range n u :
  (0 < n)%nat -> 0 <= u < 2 ^ (8 * Z.of_nat n) ->
  - 2 ^ (8 * Z.of_nat n - 1) <= to_signed n u < 2 ^ (8 * Z.of_nat n - 1).
Proof.
  intros Hn Hu. unfold to_signed.
  assert (2 ^ (8 * Z.of_nat n) = 2 * 2 ^ (8 * Z.of_nat n - 1)) as E
    by (rewrite <- Z.pow_succ_r by lia; f_equal; lia).
  assert (0 < 2 ^ (8 * Z.of_nat n - 1)) by (apply Z.pow_pos_nonneg; lia).
  destruct (Z.ltb_spec u (2 ^ (8 * Z.of_nat n - 1))); lia.
Qed.

Lemma unpack_fields_range fs : forall bs,
  Forall is_byte bs -> Forall2 in_field_range fs (unpack_fields fs bs).
Proof.
  induction fs as [|f fs IH]; intros bs Hbs; cbn [unpack_fields].
  - constructor.
  - constructor; [|apply IH, Forall_drop, Hbs].
    pose proof (le_uint_take_range (fmt_size f) bs Hbs) as Hr.
    unfold in_field_range. destruct (fmt_signed f); [|exact Hr].
    apply to_signed_range; [destruct f; simpl; lia | exact Hr].
Qed.

(** When [unpack_from] returns, on a buffer of bytes, the format is a
    valid one, the buffer holds [calcsize] bytes from the offset on, and
    there is one value per field code, each in the range of its code. *)
Theorem unpack_from_ranges fmt buf offset vs :
  Forall is_byte buf ->
  unpack_from fmt buf offset = Returned vs ->
  exists fs, parse_fmt fmt = Some fs
    /\ calcsize fs <= len buf - offset
    /\ Forall2 in_field_range fs vs.
Proof.
  intros Hbuf. unfold unpack_from.
  destruct (parse_fmt fmt) as [fs|]; [|discriminate].
  destruct (Z.ltb_spec (len buf - offset) (calcsize fs)); [discriminate|].
  intros [= <-]. exists fs. split; [reflexivity|]. split; [assumption|].
  apply unpack_fields_range, Forall_drop, Hbuf.
Qed.

Lemma unpack_from_ranges_witness :
  exists fs, parse_fmt "<lhH" = Some fs
    /\ calcsize fs <= len [255; 255; 255; 255; 0; 128; 255; 255] - 0
    /\ Forall2 in_field_range fs [-1; -32768; 65535].
Proof.
  apply (unpack_from_ranges "<lhH" [255; 255; 255; 255; 0; 128; 255; 255] 0).
  - repeat constructor; unfold is_byte; lia.
  - reflexivity.
Defined.

(** What [struct.pack_into('<BBH', msg, 0, a, b, h)] writes into a buffer
    of at least four bytes, [struct.unpack_from('<BBH', msg, 0)] reads
    back. *)
Theorem pack_unpack_BBH msg a b h msg' :
  4 <= len msg ->
  pack_into_BBH msg a b h = Returned msg' ->
  unpack_from "<BBH" msg' 0 = Returned [a; b; h]
  /\ len msg' = len msg
  /\ drop 4 msg' = drop 4 msg.
Proof.
  intros Hlen. unfold pack_into_BBH.
  destruct (byteb a && byteb b && (0 <=? h) && (h <? 65536)); [|discriminate].
  intros [= <-].
  destruct msg as [|m0 [|m1 [|m2 [|m3 msg]]]];
    try (unfold len in Hlen; simpl in Hlen; lia).
  cbn [insert list_insert]. refine (conj _ (conj eq_refl eq_refl)).
  rewrite (unpack_from_ok "<BBH" [fmt_B; fmt_B; fmt_H]);
    [| reflexivity | lia
     | change (calcsize [fmt_B; fmt_B; fmt_H]) with 4; rewrite !len_cons;
       pose proof (len_nonneg msg); lia].
  f_equal.
  pose proof (Z.div_mod h 256) as Hdm.
  change (Z.to_nat 0) with 0%nat.
  cbn [unpack_fields fmt_size fmt_signed drop take firstn le_uint foldr].
  assert (a + 256 * 0 = a) as -> by lia.
  assert (b + 256 * 0 = b) as -> by lia.
  rewrite take_0. cbn [foldr].
  assert (h mod 256 + 256 * (h / 256 + 256 * 0) = h) as -> by lia.
  reflexivity.
Qed.

Lemma pack_unpack_BBH_witness :
  unpack_from "<BBH" [6; 2; 0x34; 0x12; 9; 9] 0 = Returned [6; 2; 0x1234]
  /\ len [6; 2; 0x34; 0x12; 9; 9] = len [0; 0; 0; 0; 9; 9]
  /\ drop 4 [6; 2; 0x34; 0x12; 9; 9] = drop 4 [0; 0; 0; 0; 9; 9].
Proof.
  apply (pack_unpack_BBH [0; 0; 0; 0; 9; 9] 6 2 0x1234).
  - vm_compute. discriminate.
  - reflexivity.
Defined.

(** ** The payload decoders by payload length, and their fields *)

(** Read keys of a dict built by [assign_all]. *)
Ltac read_key :=
  repeat (rewrite assign_all_lookup;
          lazy beta iota zeta delta
            [assoc_last fst snd String.eqb Ascii.eqb Bool.eqb]);
  reflexivity.

Lemma fix_type_get_table n :
  fix_type_get n
  = match n with
    | 0 => PyStr "no fix"
    | 1 => PyStr "dead reckoning only"
    | 2 => PyStr "2D-fix"
    | 3 => PyStr "3D-fix"
    | 4 => PyStr "GNSS + dead reckoning combined"
    | 5 => PyStr "time only fix"
    | _ => PyNone
    end.
Proof.
  assert (forall k, n = k -> fix_type_get n = fix_type_get k) as Hk
    by (intros k ->; reflexivity).
  destruct (decide (n = 0)) as [->|H0]; [reflexivity|].
  destruct (decide (n = 1)) as [->|H1]; [reflexivity|].
  destruct (decide (n = 2)) as [->|H2]; [reflexivity|].
  destruct (decide (n = 3)) as [->|H3]; [reflexivity|].
  destruct (decide (n = 4)) as [->|H4]; [reflexivity|].
  destruct (decide (n = 5)) as [->|H5]; [reflexivity|].
  assert (fix_type !! fmt_d n = None) as Hnone.
  { apply not_elem_of_list_to_map_1. cbn [fmap list_fmap fst].
    intros Hin. repeat (apply elem_of_cons in Hin as [Hin|Hin]);
      [..|apply elem_of_nil in Hin; exact Hin].
    - apply H0, (inj pretty n 0). exact Hin.
    - apply H1, (inj pretty n 1). exact Hin.
    - apply H2, (inj pretty n 2). exact Hin.
    - apply H3, (inj pretty n 3). exact Hin.
    - apply H4, (inj pretty n 4). exact Hin.
    - apply H5, (inj pretty n 5). exact Hin. }
  unfold fix_type_get. rewrite Hnone.
  destruct n as [|p|p]; [contradiction| |reflexivity].
  do 3 (destruct p as [p|p|]; try reflexivity; try contradiction).
Qed.


Lemma nav_pvt_fields buf :
  84 <= len buf ->
  exists d, nav_pvt buf = Returned (MsgDict d)
    /\ d !! "iTow" = Some (PyInt (le_field false 4 0 buf))
    /\ d !! "fixType" = Some (PyInt (le_field false 1 20 buf))
    /\ d !! "fixeType_str" = Some (fix_type_get (le_field false 1 20 buf)).
Proof.
  intros Hlen. unfold nav_pvt.
  destruct (Z.eqb_spec 0 (len buf)) as [E0|E0]; [lia|].
  rewrite Z.gtb_ltb. destruct (Z.ltb_spec (len buf) 84) as [E1|E1]; [lia|].
  unpack_ok 0.
  cbn [mbind outcome_bind unpack_fields fmt_size fmt_signed].
  norm_drops.
  destruct (Z.leb_spec 92 (len buf)) as [E2|E2].
  - unpack_ok 81.
    cbn [mbind outcome_bind unpack_fields fmt_size fmt_signed].
    eexists. split; [reflexivity|]. repeat split; read_key.
  - eexists. split; [reflexivity|]. repeat split; read_key.
Qed.

Lemma nav_hpposllh_fields buf :
  36 <= len buf ->
  exists d, nav_hpposllh buf = Returned (MsgDict d)
    /\ d !! "iTow" = Some (PyInt (le_field false 4 4 buf)).
Proof.
  intros Hlen. unfold nav_hpposllh.
  destruct (Z.eqb_spec 0 (len buf)) as [E0|E0]; [lia|].
  rewrite Z.gtb_ltb. destruct (Z.ltb_spec (len buf) 36) as [E1|E1]; [lia|].
  unpack_ok 0.
  cbn [mbind outcome_bind unpack_fields fmt_size fmt_signed].
  norm_drops.
  eexists. split; [reflexivity|]. read_key.
Qed.

Lemma nav_hpposecef_short buf :
  0 < len buf < 28 -> nav_hpposecef buf = Raised StructError.
Proof.
  intros H. unfold nav_hpposecef.
  destruct (Z.eqb_spec 0 (len buf)); [lia|].
  destruct (Z.ltb_spec 28 (len buf)); [lia|].
  rewrite (unpack_from_short _ [fmt_B; fmt_B; fmt_B; fmt_B; fmt_L; fmt_l;
             fmt_l; fmt_l; fmt_b; fmt_b; fmt_b; fmt_b; fmt_L]);
    [reflexivity | reflexivity | calc_size; lia].
Qed.

(** X14. The text [fixeType_str] of UBX-NAV-PVT is the name of the fix type for
    the values 0 to 5 of the byte at offset 20, and [None] for every other
    value. *)
Theorem nav_pvt_fix_type_str buf n :
  84 <= len buf -> buf !! 20%nat = Some n ->
  exists d, nav_pvt buf = Returned (MsgDict d)
    /\ d !! "fixType" = Some (PyInt n)
    /\ d !! "fixeType_str"
       = Some match n with
              | 0 => PyStr "no fix"
              | 1 => PyStr "dead reckoning only"
              | 2 => PyStr "2D-fix"
              | 3 => PyStr "3D-fix"
              | 4 => PyStr "GNSS + dead reckoning combined"
              | 5 => PyStr "time only fix"
              | _ => PyNone
              end.
Proof.
  intros Hlen Hb.
  destruct (nav_pvt_fields buf Hlen) as (d & Hd & _ & Hf & Hs).
  exists d. split; [exact Hd|].
  pose proof (le_uint_byte_at buf 20 n Hb) as E.
  rewrite E in Hf, Hs. rewrite fix_type_get_table in Hs.
  split; assumption.
Qed.

(** X15. [nav_pvt] never raises: it answers by the length. *)
Theorem nav_pvt_by_length buf :
  exists m, nav_pvt buf = Returned m
    /\ (len buf = 0 -> m = MsgStr " Poll request")
    /\ (0 < len buf < 84 -> m = MsgStr (" Bad Length " +:+ fmt_d (len buf)))
    /\ (84 <= len buf -> exists d, m = MsgDict d).
Proof.
  unfold nav_pvt.
  destruct (Z.eqb_spec 0 (len buf)) as [E0|E0].
  { eexists. split; [reflexivity|]. repeat split; intros; first [lia | reflexivity]. }
  rewrite Z.gtb_ltb. destruct (Z.ltb_spec (len buf) 84) as [E1|E1].
  { eexists. split; [reflexivity|]. repeat split; intros; first [lia | reflexivity]. }
  unpack_ok 0.
  cbn [mbind outcome_bind unpack_fields fmt_size fmt_signed].
  destruct (Z.leb_spec 92 (len buf)) as [E2|E2].
  - unpack_ok 81.
    cbn [mbind outcome_bind unpack_fields fmt_size fmt_signed].
    eexists. split; [reflexivity|]. repeat split; intros; [lia..|].
    eexists. reflexivity.
  - eexists. split; [reflexivity|]. repeat split; intros; [lia..|].
    eexists. reflexivity.
Qed.

(** X16. The time and position fields of UBX-NAV-PVT, for a payload of at least
    84 bytes: little-endian fields at fixed offsets, the scaled ones as
    [round(raw * factor, digits)]. *)
Theorem nav_pvt_time_position buf :
  84 <= len buf ->
  exists d, nav_pvt buf = Returned (MsgDict d)
    /\ d !! "iTow" = Some (PyInt (le_field false 4 0 buf))
    /\ d !! "year" = Some (PyInt (le_field false 2 4 buf))
    /\ d !! "month" = Some (PyInt (le_field false 1 6 buf))
    /\ d !! "day" = Some (PyInt (le_field false 1 7 buf))
    /\ d !! "hour" = Some (PyInt (le_field false 1 8 buf))
    /\ d !! "minute" = Some (PyInt (le_field false 1 9 buf))
    /\ d !! "second" = Some (PyInt (le_field false 1 10 buf))
    /\ d !! "tAcc" = Some (PyInt (le_field false 4 12 buf))
    /\ d !! "nano" = Some (PyInt (le_field true 4 16 buf))
    /\ d !! "fixType" = Some (PyInt (le_field false 1 20 buf))
    /\ d !! "numSV" = Some (PyInt (le_field false 1 23 buf))
    /\ d !! "lon" = Some (scaled (le_field true 4 24 buf) "1E-7" 7)
    /\ d !! "lat" = Some (scaled (le_field true 4 28 buf) "1E-7" 7)
    /\ d !! "height" = Some (scaled (le_field true 4 32 buf) "1E-3" 3)
    /\ d !! "hMSL" = Some (scaled (le_field true 4 36 buf) "1E-3" 3)
    /\ d !! "hAcc" = Some (scaled (le_field false 4 40 buf) "1E-3" 3)
    /\ d !! "vAcc" = Some (scaled (le_field false 4 44 buf) "1E-3" 3)
    /\ d !! "velN" = Some (scaled (le_field true 4 48 buf) "1E-3" 3)
    /\ d !! "velE" = Some (scaled (le_field true 4 52 buf) "1E-3" 3)
    /\ d !! "velD" = Some (scaled (le_field true 4 56 buf) "1E-3" 3)
    /\ d !! "gSpeed" = Some (scaled (le_field true 4 60 buf) "1E-3" 3)
    /\ d !! "headMot" = Some (scaled (le_field true 4 64 buf) "1E-5" 5)
    /\ d !! "sAcc" = Some (scaled (le_field false 4 68 buf) "1E-3" 3)
    /\ d !! "headAcc" = Some (scaled (le_field false 4 72 buf) "1E-5" 5)
    /\ d !! "pDOP" = Some (scaled (le_field false 2 76 buf) "1E-2" 2)
    /\ d !! "fixeType_str" = Some (fix_type_get (le_field false 1 20 buf)).
Proof.
  intros Hlen. unfold nav_pvt.
  destruct (Z.eqb_spec 0 (len buf)) as [E0|E0]; [lia|].
  rewrite Z.gtb_ltb. destruct (Z.ltb_spec (len buf) 84) as [E1|E1]; [lia|].
  unpack_ok 0.
  cbn [mbind outcome_bind unpack_fields fmt_size fmt_signed].
  norm_drops.
  destruct (Z.leb_spec 92 (len buf)) as [E2|E2].
  - unpack_ok 81.
    cbn [mbind outcome_bind unpack_fields fmt_size fmt_signed].
    eexists. split; [reflexivity|]. repeat split; read_key.
  - eexists. split; [reflexivity|]. repeat split; read_key.
Qed.

(** X17. The heading of vehicle and the magnetic declination are decoded for
    payloads of at least 92 bytes only, and then from offset 81 on: three
    bytes before the end of the 84 bytes already read. *)
Theorem nav_pvt_head_veh buf :
  84 <= len buf ->
  exists d, nav_pvt buf = Returned (MsgDict d)
    /\ if 92 <=? len buf then
         d !! "headVeh" = Some (scaled (le_field true 4 81 buf) "1E-5" 5)
         /\ d !! "magDec" = Some (scaled (le_field true 2 85 buf) "1E-2" 2)
         /\ d !! "magAcc" = Some (scaled (le_field false 2 87 buf) "1E-2" 2)
       else
         d !! "headVeh" = None /\ d !! "magDec" = None
         /\ d !! "magAcc" = None.
Proof.
  intros Hlen. unfold nav_pvt.
  destruct (Z.eqb_spec 0 (len buf)) as [E0|E0]; [lia|].
  rewrite Z.gtb_ltb. destruct (Z.ltb_spec (len buf) 84) as [E1|E1]; [lia|].
  unpack_ok 0.
  cbn [mbind outcome_bind unpack_fields fmt_size fmt_signed].
  destruct (Z.leb_spec 92 (len buf)) as [E2|E2].
  - unpack_ok 81.
    cbn [mbind outcome_bind unpack_fields fmt_size fmt_signed].
    change (Z.to_nat 81) with 81%nat. repeat rewrite drop_drop. cbn [Nat.add].
    eexists. split; [reflexivity|]. repeat split; read_key.
  - eexists. split; [reflexivity|]. repeat split; read_key.
Qed.

(** X18. The flags of UBX-NAV-PVT that are decoded from their own byte: the
    four validity flags are bits 0 to 3 of the byte at offset 11, and
    [gnssFixOK], [diffSoln] and [headVehValid] bits 0, 1 and 5 of the byte at
    offset 21. *)
Theorem nav_pvt_valid_and_fix_flags buf valid flags :
  84 <= len buf ->
  buf !! 11%nat = Some valid -> buf !! 21%nat = Some flags ->
  exists d, nav_pvt buf = Returned (MsgDict d)
    /\ d !! "validDate" = Some (PyBool (Z.testbit valid 0))
    /\ d !! "validTime" = Some (PyBool (Z.testbit valid 1))
    /\ d !! "fullyResolved" = Some (PyBool (Z.testbit valid 2))
    /\ d !! "validMAg" = Some (PyBool (Z.testbit valid 3))
    /\ d !! "gnssFixOK" = Some (PyBool (Z.testbit flags 0))
    /\ d !! "diffSoln" = Some (PyBool (Z.testbit flags 1))
    /\ d !! "headVehValid" = Some (PyBool (Z.testbit flags 5)).
Proof.
  intros Hlen Hvalid Hflags.
  destruct (lookup_of_len buf 22) as [flags2 Hflags2]; [lia|].
  destruct (nav_pvt_flag_fields buf valid flags flags2 Hlen Hvalid Hflags Hflags2)
    as (d & Hd & _ & _ & _ & H1 & H2 & H3 & H4 & H5 & H6 & H7 & _).
  exists d. repeat split; assumption.
Qed.

(** X19. [nav_hpposllh] by the length of the payload; with 36 bytes or more,
    the heights in metres and the raw accuracies. *)
Theorem nav_hpposllh_by_length buf :
  exists m, nav_hpposllh buf = Returned m
    /\ (len buf = 0 -> m = MsgStr " Poll request")
    /\ (0 < len buf < 36 -> m = MsgStr (" Bad Length " +:+ fmt_d (len buf)))
    /\ (36 <= len buf ->
        exists d, m = MsgDict d
          /\ d !! "version" = Some (PyInt (le_field false 1 0 buf))
          /\ d !! "iTow" = Some (PyInt (le_field false 4 4 buf))
          /\ d !! "prec_height"
             = Some (PyFloat (FRound
                 (FMul (FAdd (FOfInt (le_field true 4 16 buf))
                          (FMul (FOfInt (le_field true 1 26 buf)) (FLit "1E-1")))
                    (FLit "1E-3")) 4))
          /\ d !! "prec_hMSL"
             = Some (PyFloat (FRound
                 (FMul (FAdd (FOfInt (le_field true 4 20 buf))
                          (FMul (FOfInt (le_field true 1 27 buf)) (FLit "1E-1")))
                    (FLit "1E-3")) 4))
          /\ d !! "hAcc" = Some (PyInt (le_field false 4 28 buf))
          /\ d !! "vAcc" = Some (PyInt (le_field false 4 32 buf))).
Proof.
  unfold nav_hpposllh.
  destruct (Z.eqb_spec 0 (len buf)) as [E0|E0].
  { eexists. split; [reflexivity|]. repeat split; intros; first [lia | reflexivity]. }
  rewrite Z.gtb_ltb. destruct (Z.ltb_spec (len buf) 36) as [E1|E1].
  { eexists. split; [reflexivity|]. repeat split; intros; first [lia | reflexivity]. }
  unpack_ok 0.
  cbn [mbind outcome_bind unpack_fields fmt_size fmt_signed].
  norm_drops.
  eexists. split; [reflexivity|]. repeat split; intros; [lia..|].
  eexists. split; [reflexivity|]. repeat split; read_key.
Qed.

(** X20. [nav_hpposecef] by the length of the payload: it decodes payloads of
    exactly 28 bytes, reports a bad length for longer ones, and raises
    [struct.error] on the payloads of 1 to 27 bytes. *)
Theorem nav_hpposecef_by_length buf :
  (len buf = 0 -> nav_hpposecef buf = Returned (MsgStr " Poll request"))
  /\ (0 < len buf < 28 -> nav_hpposecef buf = Raised StructError)
  /\ (len buf = 28 -> exists s, nav_hpposecef buf = Returned (MsgStr s))
  /\ (28 < len buf ->
      nav_hpposecef buf
      = Returned (MsgStr (" Bad Length " +:+ fmt_d (len buf)))).
Proof.
  unfold nav_hpposecef. pose proof (len_nonneg buf) as H0.
  repeat split; intros H.
  - rewrite H. reflexivity.
  - destruct (Z.eqb_spec 0 (len buf)); [lia|].
    destruct (Z.ltb_spec 28 (len buf)); [lia|].
    rewrite (unpack_from_short _ [fmt_B; fmt_B; fmt_B; fmt_B; fmt_L; fmt_l;
               fmt_l; fmt_l; fmt_b; fmt_b; fmt_b; fmt_b; fmt_L]);
      [reflexivity | reflexivity | calc_size; lia].
  - destruct (Z.eqb_spec 0 (len buf)); [lia|].
    destruct (Z.ltb_spec 28 (len buf)); [lia|].
    unpack_ok 0.
    cbn [mbind outcome_bind unpack_fields fmt_size fmt_signed].
    eexists. reflexivity.
  - destruct (Z.eqb_spec 0 (len buf)); [lia|].
    destruct (Z.ltb_spec 28 (len buf)); [reflexivity | lia].
Qed.

Lemma nav_pvt_time_position_witness :
  exists d, nav_pvt (replicate 84 1) = Returned (MsgDict d)
    /\ d !! "iTow" = Some (PyInt (le_field false 4 0 (replicate 84 1)))
    /\ d !! "year" = Some (PyInt (le_field false 2 4 (replicate 84 1))).
Proof.
  destruct (nav_pvt_time_position (replicate 84 1)) as (d & Hd & H1 & H2 & _).
  - vm_compute. discriminate.
  - exists d. repeat split; assumption.
Defined.

Lemma nav_pvt_head_veh_witness :
  exists d, nav_pvt (replicate 92 1) = Returned (MsgDict d)
    /\ if 92 <=? len (replicate 92 1) then
         d !! "headVeh" = Some (scaled (le_field true 4 81 (replicate 92 1)) "1E-5" 5)
         /\ d !! "magDec" = Some (scaled (le_field true 2 85 (replicate 92 1)) "1E-2" 2)
         /\ d !! "magAcc" = Some (scaled (le_field false 2 87 (replicate 92 1)) "1E-2" 2)
       else
         d !! "headVeh" = None /\ d !! "magDec" = None
         /\ d !! "magAcc" = None.
Proof.
  apply (nav_pvt_head_veh (replicate 92 1)).
  vm_compute. discriminate.
Defined.

Lemma nav_pvt_valid_and_fix_flags_witness :
  exists d, nav_pvt (replicate 84 5) = Returned (MsgDict d)
    /\ d !! "validDate" = Some (PyBool (Z.testbit 5 0))
    /\ d !! "validTime" = Some (PyBool (Z.testbit 5 1))
    /\ d !! "fullyResolved" = Some (PyBool (Z.testbit 5 2))
    /\ d !! "validMAg" = Some (PyBool (Z.testbit 5 3))
    /\ d !! "gnssFixOK" = Some (PyBool (Z.testbit 5 0))
    /\ d !! "diffSoln" = Some (PyBool (Z.testbit 5 1))
    /\ d !! "headVehValid" = Some (PyBool (Z.testbit 5 5)).
Proof.
  apply (nav_pvt_valid_and_fix_flags (replicate 84 5) 5 5).
  - vm_compute. discriminate.
  - reflexivity.
  - reflexivity.
Defined.

Lemma nav_pvt_fix_type_str_witness :
  exists d, nav_pvt (replicate 84 3) = Returned (MsgDict d)
    /\ d !! "fixType" = Some (PyInt 3)
    /\ d !! "fixeType_str" = Some (PyStr "3D-fix").
Proof.
  apply (nav_pvt_fix_type_str (replicate 84 3) 3).
  - vm_compute. discriminate.
  - reflexivity.
Defined.

(** ** The configuration registry: lookups and value types *)

Lemma cfg_scan_key_spec items key :
  match cfg_scan_key items key with
  | Some item =>
      exists pre post, items = pre ++ item :: post /\ cfg_key item = key
        /\ Forall (fun i => cfg_key i <> key) pre
  | None => Forall (fun i => cfg_key i <> key) items
  end.
Proof.
  induction items as [|it rest IH]; cbn [cfg_scan_key]; [constructor|].
  destruct (Z.eqb_spec (cfg_key it) key) as [E|E].
  - exists [], rest. repeat split; [exact E | constructor].
  - destruct (cfg_scan_key rest key) as [item|].
    + destruct IH as (pre & post & -> & Hk & Hpre).
      exists (it :: pre), post. repeat split; [exact Hk|].
      constructor; assumption.
    + constructor; assumption.
Qed.

Lemma cfg_scan_name_spec items name :
  match cfg_scan_name items name with
  | Some item =>
      exists pre post, items = pre ++ item :: post /\ cfg_name item = name
        /\ Forall (fun i => cfg_name i <> name) pre
  | None => Forall (fun i => cfg_name i <> name) items
  end.
Proof.
  induction items as [|it rest IH]; cbn [cfg_scan_name]; [constructor|].
  destruct (String.eqb_spec (cfg_name it) name) as [E|E].
  - exists [], rest. repeat split; [exact E | constructor].
  - destruct (cfg_scan_name rest name) as [item|].
    + destruct IH as (pre & post & -> & Hk & Hpre).
      exists (it :: pre), post. repeat split; [exact Hk|].
      constructor; assumption.
    + constructor; assumption.
Qed.

(** X21. [cfg_by_key] returns the first item of the table with the key, and
    for a key that no item has it raises [NameError]: it never returns an
    item that is not in the table. *)
Theorem cfg_by_key_first_or_raises key :
  (exists pre item post,
      cfgs = pre ++ item :: post /\ cfg_key item = key
      /\ Forall (fun i => cfg_key i <> key) pre
      /\ cfg_by_key key = Returned item)
  \/ (Forall (fun i => cfg_key i <> key) cfgs
      /\ cfg_by_key key = Raised (NameError "ket")).
Proof.
  pose proof (cfg_scan_key_spec cfgs key) as H.
  unfold cfg_by_key.
  destruct (cfg_scan_key cfgs key) as [item|].
  - left. destruct H as (pre & post & H1 & H2 & H3).
    exists pre, item, post. repeat split; assumption.
  - right. split; [exact H | reflexivity].
Qed.

(** X22. [cfg_by_name] returns the first item of the table with the name, and
    [None] exactly when no item has it. *)
Theorem cfg_by_name_first_or_none name :
  (exists pre item post,
      cfgs = pre ++ item :: post /\ cfg_name item = name
      /\ Forall (fun i => cfg_name i <> name) pre
      /\ cfg_by_name name = Some item)
  \/ (Forall (fun i => cfg_name i <> name) cfgs
      /\ cfg_by_name name = None).
Proof.
  pose proof (cfg_scan_name_spec cfgs name) as H.
  unfold cfg_by_name.
  destruct (cfg_scan_name cfgs name) as [item|].
  - left. destruct H as (pre & post & H1 & H2 & H3).
    exists pre, item, post. repeat split; assumption.
  - right. split; [exact H | reflexivity].
Qed.

(** An item found by name is found by its key too, but the lookup by key
    may give another item: the one that comes first with that key. *)
Theorem cfg_by_name_then_key name item :
  cfg_by_name name = Some item ->
  exists item', cfg_by_key (cfg_key item) = Returned item'
    /\ cfg_key item' = cfg_key item /\ item' ∈ cfgs.
Proof.
  intros Hn.
  pose proof (cfg_scan_name_spec cfgs name) as H.
  unfold cfg_by_name in Hn. rewrite Hn in H.
  destruct H as (pre & post & Hc & _ & _).
  pose proof (cfg_scan_key_spec cfgs (cfg_key item)) as Hk.
  unfold cfg_by_key.
  destruct (cfg_scan_key cfgs (cfg_key item)) as [item'|].
  - destruct Hk as (pre' & post' & Hc' & Hk & _).
    exists item'. repeat split; [exact Hk|].
    rewrite Hc'. apply elem_of_app. right. left.
  - exfalso. rewrite Hc in Hk. apply Forall_app in Hk as [_ Hk].
    apply Forall_cons in Hk as [Hne _]. apply Hne. reflexivity.
Qed.

Lemma land_7_cases z :
  let k := Z.land z 0x07 in
  k = 0 \/ k = 1 \/ k = 2 \/ k = 3 \/ k = 4 \/ k = 5 \/ k = 6 \/ k = 7.
Proof.
  intros k. assert (0 <= k < 8) as Hk.
  { unfold k. change 0x07 with (Z.ones 3). rewrite Z.land_ones by lia.
    apply Z.mod_pos_bound. reflexivity. }
  lia.
Qed.

(** X23. [item_to_type] never raises, whatever the key and the value type of
    the item: the size bits select one of the eight keys of [key_map]. The
    size it gives is 1, 2, 4 or 8. *)
Theorem item_to_type_total item :
  exists size fmt kind,
    item_to_type item = Returned (size, fmt, kind)
    /\ (size = 1 \/ size = 2 \/ size = 4 \/ size = 8).
Proof.
  unfold item_to_type.
  destruct (cfg_types !! cfg_type item) as [[[s f] k]|] eqn:E.
  - exists s, f, k. split; [reflexivity|].
    apply elem_of_list_to_map_2 in E.
    repeat (apply elem_of_cons in E as [E|E];
            [injection E as _ <- _ _; lia|]).
    apply elem_of_nil in E. contradiction.
  - destruct (land_7_cases (Z.shiftr (cfg_key item) 28))
      as [H|[H|[H|[H|[H|[H|[H|H]]]]]]];
      cbv zeta in H; rewrite H; do 3 eexists; (split; [reflexivity|lia]).
Qed.

Lemma cfgs_sizes_check :
  forallb (fun item =>
    match item_to_type item with
    | Returned (size, _, _) =>
        if String.eqb (cfg_type item) "R8"
        then (size =? 2)
             && bool_decide (key_size_bytes (cfg_key item) = Some 8)
        else bool_decide (key_size_bytes (cfg_key item) = Some size)
    | _ => false
    end) cfgs = true.
Proof. vm_compute. reflexivity. Qed.

(** X24. For every item of the table, the size [item_to_type] gives is the
    size the bits 28 to 30 of its key announce, but for the items of type
    R8: their keys announce 8 bytes and [item_to_type] gives 2. *)
Theorem cfgs_item_size_matches_key item :
  item ∈ cfgs ->
  exists size fmt kind,
    item_to_type item = Returned (size, fmt, kind)
    /\ (cfg_type item <> "R8" -> key_size_bytes (cfg_key item) = Some size)
    /\ (cfg_type item = "R8" ->
        size = 2 /\ key_size_bytes (cfg_key item) = Some 8).
Proof.
  intros Hin. apply list_elem_of_In in Hin.
  pose proof (proj1 (forallb_forall _ _) cfgs_sizes_check item Hin) as H.
  cbv beta in H.
  destruct (item_to_type item) as [[[s f] k]| |]; try discriminate H.
  exists s, f, k. split; [reflexivity|].
  destruct (String.eqb_spec (cfg_type item) "R8") as [E|E].
  - apply andb_prop in H as [H1 H2]. apply bool_decide_eq_true in H2.
    split; [contradiction|]. intros _. split; [lia | exact H2].
  - apply bool_decide_eq_true in H. split; [intros _; exact H|].
    intros E'. contradiction.
Qed.

Lemma cfg_by_name_then_key_witness :
  exists item', cfg_by_key 0x20240011 = Returned item'
    /\ cfg_key item' = 0x20240011 /\ item' ∈ cfgs.
Proof.
  apply (cfg_by_name_then_key "CFG-GEOFENCE-CONFLVL"
           (mk_cfg "CFG-GEOFENCE-CONFLVL" 0x20240011 "E1" (ScInt 1)
              EmptyString "Required confidence level for state evaluation")).
  vm_compute. reflexivity.
Defined.

Lemma cfgs_item_size_matches_key_witness :
  exists size fmt kind,
    item_to_type (mk_cfg "CFG-GEOFENCE-CONFLVL" 0x20240011 "E1" (ScInt 1)
              EmptyString "Required confidence level for state evaluation")
    = Returned (size, fmt, kind)
    /\ ("E1" <> "R8" -> key_size_bytes 0x20240011 = Some size)
    /\ ("E1" = "R8" -> size = 2 /\ key_size_bytes 0x20240011 = Some 8).
Proof.
  apply (cfgs_item_size_matches_key
           (mk_cfg "CFG-GEOFENCE-CONFLVL" 0x20240011 "E1" (ScInt 1)
              EmptyString "Required confidence level for state evaluation")).
  unfold cfgs. left.
Defined.

(** ** The dispatch table, and frames of the decoded messages *)

Ltac table_cases H :=
  apply elem_of_list_to_map_2 in H;
  repeat (apply elem_of_cons in H as [H|H]; [injection H as -> ->|]);
  [..|apply elem_of_nil in H; contradiction].

(** Every entry of the id tables that has a decoder has a name. *)
Lemma dec_has_name c this_class ids i entry :
  classes !! c = Some this_class ->
  class_ids this_class = Some ids ->
  ids !! i = Some entry ->
  is_Some (id_dec entry) -> is_Some (id_name entry).
Proof.
  intros Hc Hids Hi Hdec.
  table_cases Hc; cbn [class_ids] in Hids; try discriminate Hids;
    injection Hids as <-; table_cases Hi;
    cbn [id_dec id_name] in *;
    first [eexists; reflexivity | destruct Hdec; discriminate].
Qed.

Section Dispatch.

Variable verbosity : Z.
Variable other_dec : decoder -> list Z -> outcome payload_msg.

(** X25. For a (class, id) pair with a registered decoder, the result is the
    dict of the entry's name and of what the decoder returns for the
    payload: reading the name never raises [KeyError], so that what
    [dispatch] raises is what the decoder raises. *)
Theorem dispatch_registered c i n P dec :
  lookup_dec c i = Some dec ->
  exists entry name,
    lookup_entry c i = Some entry /\ id_name entry = Some name
    /\ dispatch other_dec c i n P
       = (msg ← call_dec other_dec dec P; Returned (RDict name msg)).
Proof.
  unfold lookup_dec, lookup_entry, dispatch. intros H.
  destruct (classes !! c) as [this_class|] eqn:Hc; [|discriminate].
  destruct (class_ids this_class) as [ids|] eqn:Hids; [|discriminate].
  destruct (ids !! i) as [entry|] eqn:Hi; [|discriminate].
  destruct (dec_has_name c this_class ids i entry Hc Hids Hi) as [name Hn].
  { rewrite H. eexists. reflexivity. }
  exists entry, name. rewrite H, Hn. repeat split; reflexivity.
Qed.

(** X26. A complete UBX-NAV-PVT frame (class 1, id 7) with a payload of 84
    bytes or more decodes to the dict of type ["UBX-NAV-PVT"] and of the
    fields of [nav_pvt], whatever its two checksum bytes are. *)
Theorem decode_msg_nav_pvt_frame P a b :
  84 <= len P < 65536 ->
  exists d,
    (decode_msg verbosity other_dec (ubx_frame 0x01 0x07 P a b)).2
    = Returned (8 + len P, RDict "UBX-NAV-PVT" (MsgDict d))
    /\ nav_pvt P = Returned (MsgDict d)
    /\ d !! "iTow" = Some (PyInt (le_field false 4 0 P)).
Proof.
  intros HP.
  destruct (nav_pvt_fields P) as (d & Hd & Hi & _); [lia|].
  exists d. repeat split; [|exact Hd|exact Hi].
  destruct (decode_msg_ubx_frame verbosity other_dec 1 7 P a b) as [-> _];
    [lia|].
  change (dispatch other_dec 1 7 (len P) P)
    with (msg ← nav_pvt P; Returned (RDict "UBX-NAV-PVT" msg)).
  rewrite Hd. reflexivity.
Qed.

(** X27. A complete UBX-NAV-HPPOSLLH frame (class 1, id 0x14) with a payload
    of 36 bytes or more decodes to the dict of type ["UBX-NAV-HPPOSLLH"]. *)
Theorem decode_msg_nav_hpposllh_frame P a b :
  36 <= len P < 65536 ->
  exists d,
    (decode_msg verbosity other_dec (ubx_frame 0x01 0x14 P a b)).2
    = Returned (8 + len P, RDict "UBX-NAV-HPPOSLLH" (MsgDict d))
    /\ nav_hpposllh P = Returned (MsgDict d)
    /\ d !! "iTow" = Some (PyInt (le_field false 4 4 P)).
Proof.
  intros HP.
  destruct (nav_hpposllh_fields P) as (d & Hd & Hi); [lia|].
  exists d. repeat split; [|exact Hd|exact Hi].
  destruct (decode_msg_ubx_frame verbosity other_dec 1 0x14 P a b) as [-> _];
    [lia|].
  change (dispatch other_dec 1 0x14 (len P) P)
    with (msg ← nav_hpposllh P; Returned (RDict "UBX-NAV-HPPOSLLH" msg)).
  rewrite Hd. reflexivity.
Qed.

(** A complete UBX-NAV-HPPOSECEF frame (class 1, id 0x13) with a payload
    of 1 to 27 bytes makes [decode_msg] raise [struct.error]: nothing
    catches what the decoder raises. *)
Theorem decode_msg_nav_hpposecef_short P a b :
  0 < len P < 28 ->
  (decode_msg verbosity other_dec (ubx_frame 0x01 0x13 P a b)).2
  = Raised StructError.
Proof.
  intros HP.
  destruct (decode_msg_ubx_frame verbosity other_dec 1 0x13 P a b) as [-> _];
    [lia|].
  change (dispatch other_dec 1 0x13 (len P) P)
    with (msg ← nav_hpposecef P; Returned (RDict "UBX-NAV-HPPOSECEF" msg)).
  rewrite (nav_hpposecef_short P HP). reflexivity.
Qed.

End Dispatch.

Lemma dispatch_registered_witness :
  exists entry name,
    lookup_entry 1 7 = Some entry /\ id_name entry = Some name
    /\ dispatch poll_only_dec 1 7 0 []
       = (msg ← call_dec poll_only_dec dec_nav_pvt []; Returned (RDict name msg)).
Proof.
  apply (dispatch_registered poll_only_dec 1 7 0 [] dec_nav_pvt).
  reflexivity.
Defined.

Lemma decode_msg_nav_pvt_frame_witness :
  exists d,
    (decode_msg VERB_NONE poll_only_dec
       (ubx_frame 0x01 0x07 (replicate 84 1) 0 0)).2
    = Returned (8 + len (replicate 84 1), RDict "UBX-NAV-PVT" (MsgDict d))
    /\ nav_pvt (replicate 84 1) = Returned (MsgDict d)
    /\ d !! "iTow" = Some (PyInt (le_field false 4 0 (replicate 84 1))).
Proof.
  apply (decode_msg_nav_pvt_frame VERB_NONE poll_only_dec (replicate 84 1) 0 0).
  vm_compute. split; [discriminate | reflexivity].
Defined.

Lemma decode_msg_nav_hpposllh_frame_witness :
  exists d,
    (decode_msg VERB_NONE poll_only_dec
       (ubx_frame 0x01 0x14 (replicate 36 1) 0 0)).2
    = Returned (8 + len (replicate 36 1), RDict "UBX-NAV-HPPOSLLH" (MsgDict d))
    /\ nav_hpposllh (replicate 36 1) = Returned (MsgDict d)
    /\ d !! "iTow" = Some (PyInt (le_field false 4 4 (replicate 36 1))).
Proof.
  apply (decode_msg_nav_hpposllh_frame VERB_NONE poll_only_dec
           (replicate 36 1) 0 0).
  vm_compute. split; [discriminate | reflexivity].
Defined.

Lemma decode_msg_nav_hpposecef_short_witness :
  (decode_msg VERB_NONE poll_only_dec (ubx_frame 0x01 0x13 [0; 0; 0] 7 7)).2
  = Raised StructError.
Proof.
  apply (decode_msg_nav_hpposecef_short VERB_NONE poll_only_dec [0; 0; 0] 7 7).
  vm_compute. split; reflexivity.
Defined.

(** ** The grouping of messages by iTow *)

Section GroupFacts.

Variable float_eq : pyfloat -> pyfloat -> bool.
Variable float_eq_int : pyfloat -> Z -> bool.

Lemma first_iTow_not_dict pre s :
  (forall ty d, s <> RDict ty (MsgDict d)) ->
  (exists e, first_iTow (pre ++ [s]) = inl e)
  \/ (exists t g rest, first_iTow (pre ++ [s]) = inr (Some (t, g, rest ++ [s]))
        /\ first_iTow pre = inr (Some (t, g, rest))).
Proof.
  intros Hs. induction pre as [|x pre IH]; cbn [app first_iTow].
  - left. destruct s as [z|str|ty [str|d]]; cbn [sentence_iTow];
      [eexists; reflexivity..|]. exfalso. exact (Hs ty d eq_refl).
  - destruct (sentence_iTow x) as [e|[[ty msg] v]]; [left; eexists; reflexivity|].
    destruct (negb (is_None v)); [|exact IH].
    right. exists v, (<[ty := GMsg msg]> (<["iTow" := GTow v]> ∅)), pre.
    split; reflexivity.
Qed.

Lemma group_loop_not_dict ss s : forall t g,
  (forall ty d, s <> RDict ty (MsgDict d)) ->
  exists ys e, group_loop float_eq float_eq_int t g (ss ++ [s]) = (ys, GenRaised e).
Proof.
  induction ss as [|x ss IH]; intros t g Hs; cbn [app group_loop].
  - destruct s as [z|str|ty [str|d]]; cbn [sentence_iTow];
      [do 2 eexists; reflexivity..|]. exfalso. exact (Hs ty d eq_refl).
  - destruct (sentence_iTow x) as [e|[[ty msg] v]];
      [do 2 eexists; reflexivity|].
    destruct (is_None v || py_eq float_eq float_eq_int v t).
    + apply IH, Hs.
    + destruct (IH v (<[ty := GMsg msg]> (<["iTow" := GTow v]> ∅)) Hs)
        as (ys & e & ->).
      do 2 eexists. reflexivity.
Qed.

Lemma iTow_group_generator_not_dict ss s :
  (forall ty d, s <> RDict ty (MsgDict d)) ->
  exists ys e, iTow_group_generator float_eq float_eq_int (ss ++ [s]) = (ys, GenRaised e).
Proof.
  intros Hs. unfold iTow_group_generator.
  destruct (first_iTow_not_dict ss s Hs) as [[e ->]|(t & g & rest & -> & _)].
  - do 2 eexists. reflexivity.
  - apply group_loop_not_dict, Hs.
Qed.

Lemma first_iTow_app_dicts pre x :
  Forall (fun s => exists ty d, s = RDict ty (MsgDict d)) pre ->
  match first_iTow pre with
  | inl _ => False
  | inr None => first_iTow (pre ++ x) = first_iTow x
  | inr (Some (t, g, rest)) =>
      first_iTow (pre ++ x) = inr (Some (t, g, rest ++ x))
      /\ Forall (fun s => exists ty d, s = RDict ty (MsgDict d)) rest
  end.
Proof.
  induction 1 as [|s pre (ty & d & ->) Hpre IH]; cbn [app first_iTow];
    [reflexivity|].
  cbn [sentence_iTow].
  destruct (negb (is_None (default PyNone (d !! "iTow")))); [|exact IH].
  split; [reflexivity | exact Hpre].
Qed.

Lemma group_loop_app_dicts pre ty str rest :
  Forall (fun s => exists ty d, s = RDict ty (MsgDict d)) pre ->
  forall t g,
  group_loop float_eq float_eq_int t g (pre ++ RDict ty (MsgStr str) :: rest)
  = ((group_loop float_eq float_eq_int t g pre).1, GenRaised AttributeError)
  /\ (group_loop float_eq float_eq_int t g pre).2 = Exhausted.
Proof.
  induction 1 as [|s pre (ty' & d & ->) Hpre IH]; intros t g;
    cbn [app group_loop sentence_iTow]; [split; reflexivity|].
  destruct (is_None (default PyNone (d !! "iTow"))
            || py_eq float_eq float_eq_int (default PyNone (d !! "iTow")) t).
  - apply IH.
  - cbn [fst snd]. destruct (IH (default PyNone (d !! "iTow"))
      (<[ty' := GMsg (MsgDict d)]>
         (<["iTow" := GTow (default PyNone (d !! "iTow"))]> ∅))) as [-> ->].
    split; reflexivity.
Qed.

Lemma group_loop_others t others rest : forall g,
  Forall (fun m' : string * gmap string pyval =>
            m'.2 !! "iTow" = None \/ m'.2 !! "iTow" = Some (PyInt t)) others ->
  group_loop float_eq float_eq_int (PyInt t) g
    (((fun m => RDict m.1 (MsgDict m.2)) <$> others) ++ rest)
  = group_loop float_eq float_eq_int (PyInt t)
      (foldl (fun g m => <[m.1 := GMsg (MsgDict m.2)]> g) g others) rest.
Proof.
  induction others as [|m others IH]; intros g Hall; [reflexivity|].
  apply Forall_cons in Hall as [Hm Hall].
  cbn [fmap list_fmap app group_loop sentence_iTow foldl].
  assert (is_None (default PyNone (m.2 !! "iTow"))
          || py_eq float_eq float_eq_int (default PyNone (m.2 !! "iTow"))
               (PyInt t) = true) as ->.
  { destruct Hm as [-> | ->]; [reflexivity|]. cbn. apply Z.eqb_refl. }
  apply IH, Hall.
Qed.

Lemma removelast_cons {A} (x : A) (l : list A) :
  removelast (x :: l) = match l with [] => [] | _ => x :: removelast l end.
Proof. destruct l; reflexivity. Qed.

Lemma group_loop_epochs es : forall t g,
  Forall epoch_ok es ->
  (forall e, es !! 0%nat = Some e -> e.1 <> t) ->
  (forall k e1 e2, es !! k = Some e1 -> es !! S k = Some e2 -> e1.1 <> e2.1) ->
  group_loop float_eq float_eq_int (PyInt t) g
    (concat (epoch_sentences <$> es))
  = (match es with
     | [] => []
     | _ => g :: (epoch_group <$> removelast es)
     end, Exhausted).
Proof.
  induction es as [|e es IH]; intros t g Hok Hfirst Hadj; [reflexivity|].
  apply Forall_cons in Hok as [He Hok].
  destruct e as [t' [|m others]]; [contradiction He|].
  destruct He as [Hm Hothers]. cbn [fst snd] in Hm, Hothers.
  assert (t' <> t) as Hne by exact (Hfirst (t', m :: others) eq_refl).
  cbn [fmap list_fmap concat].
  unfold epoch_sentences at 1. cbn [fst snd fmap list_fmap app].
  cbn [group_loop sentence_iTow]. rewrite Hm. cbn [default from_option id].
  cbn [is_None py_eq orb].
  destruct (Z.eqb_spec t' t) as [E|_]; [contradiction|].
  rewrite group_loop_others by exact Hothers.
  change (foldl _ _ others) with (epoch_group (t', m :: others)).
  rewrite IH; [| exact Hok | |].
  - rewrite removelast_cons. destruct es; reflexivity.
  - intros e He. intros E. symmetry in E. revert E.
    exact (Hadj 0%nat (t', m :: others) e eq_refl He).
  - intros k e1 e2 H1 H2. exact (Hadj (S k) e1 e2 H1 H2).
Qed.

(** X28. The groups of a file of epochs. After messages without iTow, which
    are dropped, each epoch but the last is yielded as one group, with its
    iTow and for each type its last message: a group is yielded when the
    iTow changes, and the generator ends without yielding the last one. *)
Theorem iTow_group_generator_epochs lead es :
  Forall (fun m : string * gmap string pyval => m.2 !! "iTow" = None) lead ->
  Forall epoch_ok es ->
  (forall k e1 e2, es !! k = Some e1 -> es !! S k = Some e2 -> e1.1 <> e2.1) ->
  iTow_group_generator float_eq float_eq_int
    (((fun m => RDict m.1 (MsgDict m.2)) <$> lead)
     ++ concat (epoch_sentences <$> es))
  = (epoch_group <$> removelast es, Exhausted).
Proof.
  intros Hlead Hok Hadj. unfold iTow_group_generator.
  induction Hlead as [|m lead Hm _ IH].
  - cbn [fmap list_fmap app].
    destruct es as [|e es]; [reflexivity|].
    apply Forall_cons in Hok as [He Hok].
    destruct e as [t [|m others]]; [contradiction He|].
    destruct He as [Hm Hothers]. cbn [fst snd] in Hm, Hothers.
    cbn [fmap list_fmap concat].
    unfold epoch_sentences at 1. cbn [fst snd fmap list_fmap app].
    cbn [first_iTow sentence_iTow]. rewrite Hm.
    cbn [default from_option id is_None negb].
    rewrite group_loop_others by exact Hothers.
    change (foldl _ _ others) with (epoch_group (t, m :: others)).
    rewrite group_loop_epochs; [| exact Hok | |].
    + rewrite removelast_cons. destruct es; reflexivity.
    + intros e He E. symmetry in E. revert E.
      exact (Hadj 0%nat (t, m :: others) e eq_refl He).
    + intros k e1 e2 H1 H2. exact (Hadj (S k) e1 e2 H1 H2).
  - cbn [fmap list_fmap app first_iTow sentence_iTow]. rewrite Hm.
    cbn [default from_option id is_None negb]. exact IH.
Qed.

(** X29. A message that a decoder returned as a string ends the generator with
    [AttributeError]: after messages that are dicts, the groups yielded are
    those of these messages, and nothing that follows is read. The
    UBX-NAV-PVT decoder returns such a string for every payload shorter
    than 84 bytes. *)
Theorem iTow_group_generator_short_pvt pre P msg rest :
  Forall (fun s => exists ty d, s = RDict ty (MsgDict d)) pre ->
  len P < 84 -> nav_pvt P = Returned msg ->
  iTow_group_generator float_eq float_eq_int
    (pre ++ RDict "UBX-NAV-PVT" msg :: rest)
  = ((iTow_group_generator float_eq float_eq_int pre).1,
     GenRaised AttributeError)
  /\ (iTow_group_generator float_eq float_eq_int pre).2 = Exhausted.
Proof.
  intros Hpre HP Hmsg.
  assert (exists str, msg = MsgStr str) as [str ->].
  { unfold nav_pvt in Hmsg.
    destruct (0 =? len P); [injection Hmsg as <-; eexists; reflexivity|].
    rewrite Z.gtb_ltb in Hmsg.
    destruct (Z.ltb_spec (len P) 84); [|lia].
    injection Hmsg as <-. eexists. reflexivity. }
  unfold iTow_group_generator.
  pose proof (first_iTow_app_dicts pre (RDict "UBX-NAV-PVT" (MsgStr str) :: rest)
                Hpre) as H.
  destruct (first_iTow pre) as [e|[[[t g] rest']|]]; [contradiction| |].
  - destruct H as [-> Hrest]. apply group_loop_app_dicts, Hrest.
  - rewrite H. split; reflexivity.
Qed.

End GroupFacts.

Section GroupOfFile.

Variable verbosity : Z.
Variable other_dec : decoder -> list Z -> outcome payload_msg.
Variable float_eq : pyfloat -> pyfloat -> bool.
Variable float_eq_int : pyfloat -> Z -> bool.

Lemma ubx_read_generator_last_0 fuel out :
  forall start consumed yielded ys,
  ubx_read_generator_loop verbosity other_dec fuel out None start consumed
    yielded = Some (Returned ys) ->
  exists rs, ys = rs ++ [RInt 0].
Proof.
  induction fuel as [|fuel IH]; intros start consumed yielded ys;
    [discriminate|].
  rewrite ubx_read_generator_loop_S.
  destruct (decode_msg verbosity other_dec
              (slice out (start + consumed) (start + consumed + 8192))).2
    as [[n r]| |] eqn:E; [|discriminate..].
  cbn zeta. rewrite Z.geb_leb. destruct (Z.leb_spec n 0) as [Hn|Hn].
  - apply decode_msg_consumed_cases in E as [[_ ->]|[Hn' _]]; [|lia].
    intros H. injection H as <-. eexists. reflexivity.
  - apply IH.
Qed.

(** X30. Without a type filter the grouping never ends normally: whenever
    [ubx_read_generator] finishes, the last value it yields is the int [0]
    of the final [(0, 0)], and [iTow_group_generator] raises on it, if it
    has not raised on an earlier value. *)
Theorem iTow_group_generator_no_filter fuel out ys :
  ubx_read_generator_loop verbosity other_dec fuel out None 0 0 []
  = Some (Returned ys) ->
  exists rs groups e,
    ys = rs ++ [RInt 0]
    /\ iTow_group_generator float_eq float_eq_int ys = (groups, GenRaised e).
Proof.
  intros H. apply ubx_read_generator_last_0 in H as [rs ->].
  destruct (iTow_group_generator_not_dict float_eq float_eq_int rs (RInt 0))
    as (groups & e & He); [discriminate|].
  exists rs, groups, e. split; [reflexivity | exact He].
Qed.

End GroupOfFile.

Lemma iTow_group_generator_epochs_witness :
  iTow_group_generator (fun _ _ => false) (fun _ _ => false)
    (((fun m => RDict m.1 (MsgDict m.2))
        <$> [("UBX-NAV-SAT", ∅ : gmap string pyval)])
     ++ concat (epoch_sentences <$>
          [(1000, [("UBX-NAV-PVT", {[ "iTow" := PyInt 1000 ]});
                   ("UBX-NAV-HPPOSLLH", {[ "iTow" := PyInt 1000 ]})]);
           (2000, [("UBX-NAV-PVT", {[ "iTow" := PyInt 2000 ]})])]))
  = (epoch_group <$> removelast
       [(1000, [("UBX-NAV-PVT", {[ "iTow" := PyInt 1000 ]} : gmap string pyval);
                ("UBX-NAV-HPPOSLLH", {[ "iTow" := PyInt 1000 ]})]);
        (2000, [("UBX-NAV-PVT", {[ "iTow" := PyInt 2000 ]})])],
     Exhausted).
Proof.
  apply (iTow_group_generator_epochs (fun _ _ => false) (fun _ _ => false)).
  - repeat constructor.
  - constructor; [|constructor; [|constructor]].
    + split; [reflexivity|]. constructor; [right; reflexivity | constructor].
    + split; [reflexivity | constructor].
  - intros [|[|k]] e1 e2 H1 H2; cbn in H1, H2; try discriminate.
    injection H1 as <-. injection H2 as <-. cbn. lia.
Defined.

Lemma iTow_group_generator_short_pvt_witness :
  iTow_group_generator (fun _ _ => false) (fun _ _ => false)
    ([RDict "UBX-NAV-HPPOSLLH" (MsgDict {[ "iTow" := PyInt 1000 ]})]
     ++ RDict "UBX-NAV-PVT" (MsgStr " Poll request") :: [])
  = ((iTow_group_generator (fun _ _ => false) (fun _ _ => false)
        [RDict "UBX-NAV-HPPOSLLH" (MsgDict {[ "iTow" := PyInt 1000 ]})]).1,
     GenRaised AttributeError)
  /\ (iTow_group_generator (fun _ _ => false) (fun _ _ => false)
        [RDict "UBX-NAV-HPPOSLLH" (MsgDict {[ "iTow" := PyInt 1000 ]})]).2
     = Exhausted.
Proof.
  apply (iTow_group_generator_short_pvt (fun _ _ => false) (fun _ _ => false)
           [RDict "UBX-NAV-HPPOSLLH" (MsgDict {[ "iTow" := PyInt 1000 ]})]
           []).
  - repeat constructor. do 2 eexists. reflexivity.
  - vm_compute. reflexivity.
  - reflexivity.
Defined.

Lemma iTow_group_generator_no_filter_witness :
  exists rs groups e,
    [RInt 0] = rs ++ [RInt 0]
    /\ iTow_group_generator (fun _ _ => false) (fun _ _ => false) [RInt 0]
       = (groups, GenRaised e).
Proof.
  apply (iTow_group_generator_no_filter VERB_NONE poll_only_dec
           (fun _ _ => false) (fun _ _ => false) 1 []).
  reflexivity.
Defined.
